(** * Gemini chat backend (backend/main.py): a shallow embedding

    The backend is a FastAPI application with one dependency
    ([get_user_id]) and three protected routes ([start_conversation],
    [history], [chat]).  It talks to three third-party collaborators: the
    identity service ([supabase.auth.get_user]), the relational store
    ([supabase.table(...)...execute()]) and the generative model
    ([genai.GenerativeModel(...).generate_content]).

    The embedding has three layers:
    - [Py]: the dynamically typed values the handlers manipulate and the
      Python built-ins they use on them ([getattr], [isinstance], [dict.get],
      truthiness, [==], [str], [str.upper], [str.strip], slicing, ...);
    - [Eff]: a state-and-exception monad in which every collaborator call is
      logged, so that "no call is made" is a statement about the log;
    - [Backend]: the handlers of main.py, written statement by statement.

    [Scenario] holds collaborators that answer from a script, for the
    concrete runs; the properties follow, each main one under the number
    (C1 to C10) of the statement of the specification it settles. *)

From Stdlib Require Import ZArith NArith List String Ascii Bool Lia DecimalString.
Import ListNotations.
Open Scope string_scope.
Set Warnings "-register-all".

(* ================================================================== *)
(** ** Python values and built-ins *)
(* ================================================================== *)

Module Py.

(** What running a piece of an object's own code gives: a result, or an
    exception with its class and message. *)
Inductive answer (A : Type) : Type :=
| Gives (a : A)
| Throws (cls msg : string).
Arguments Gives {A} a.
Arguments Throws {A} cls msg.

(** A Python value as it may come out of an SDK.  A [VDict] is an
    association list in insertion order (keys are strings and are meant to
    be distinct; a lookup takes the first binding).  A [VObj] is an
    instance of some class that overrides neither [__bool__], [__len__] nor
    [__eq__] and whose attributes are plain data: [oid] is its identity,
    [attrs] its attributes, [shown] and [repred] what [str] and [repr] give
    for it.  A [VGenerated] is an instance of a class that computes what it
    hands out, as the answer of the model SDK does: reading its [text] or
    [content] (when it has one) and printing it run code of the class,
    which gives a value or raises; it has no other attribute that the
    handlers ask for.

    Text is UTF-8: a [string] holds the bytes that encode the code points
    of the Python str, so that the code points below 128 are single bytes
    and joining, splitting at an ASCII character and comparing work on
    the bytes as they do on the code points. *)
Inductive value : Type :=
| VNone
| VBool (b : bool)
| VInt (n : Z)
| VStr (s : string)
| VList (xs : list value)
| VDict (kvs : list (string * value))
| VObj (oid : nat) (attrs : list (string * value)) (shown repred : string)
| VGenerated (oid : nat) (text content : option (answer value))
             (shown : answer string) (repred : string).

(** [bool(v)]: the truth value used by [not], [and], [or] and [if]. *)
Definition truthy (v : value) : bool :=
  match v with
  | VNone => false
  | VBool b => b
  | VInt n => negb (n =? 0)%Z
  | VStr s => negb (s =? "")
  | VList xs => match xs with [] => false | _ => true end
  | VDict kvs => match kvs with [] => false | _ => true end
  | VObj _ _ _ _ => true
  | VGenerated _ _ _ _ _ => true
  end.

(** [a or b] on values. *)
Definition por (a b : value) : value := if truthy a then a else b.

Fixpoint lookup (k : string) (kvs : list (string * value)) : option value :=
  match kvs with
  | [] => None
  | (k', v) :: rest => if k =? k' then Some v else lookup k rest
  end.

(** [isinstance(v, dict)]. *)
Definition is_dict (v : value) : bool :=
  match v with VDict _ => true | _ => false end.

(** [hasattr(v, name)] and [getattr(v, name, default)] for attributes that
    are plain data: the built-in types have none of those the handlers ask
    for ([user], [id], [data], [role], [content], [text]), and a
    [VGenerated] has none besides [text] and [content], which are read
    with [read] below. *)
Definition hasattr (v : value) (name : string) : bool :=
  match v with
  | VObj _ attrs _ _ => match lookup name attrs with Some _ => true | None => false end
  | _ => false
  end.

(** [getattr(v, name, default)]. *)
Definition getattr (v : value) (name : string) (default : value) : value :=
  match v with
  | VObj _ attrs _ _ => match lookup name attrs with Some x => x | None => default end
  | _ => default
  end.

(** [getattr(v, name, default)] where the attribute may be computed: the
    code of a [VGenerated] runs for [text] and [content] and its exception,
    if any, is not caught by [getattr] (which catches AttributeError
    only); everywhere else this is [getattr]. *)
Definition read (v : value) (name : string) (default : value) : answer value :=
  match v with
  | VGenerated _ text content _ _ =>
      if name =? "text" then
        match text with Some a => a | None => Gives default end
      else if name =? "content" then
        match content with Some a => a | None => Gives default end
      else Gives default
  | _ => Gives (getattr v name default)
  end.

(** The key lookup behind [d.get(k, default)] when [d] is known to be a dict. *)
Definition dict_get (kvs : list (string * value)) (k : string) (default : value) : value :=
  match lookup k kvs with Some x => x | None => default end.

(** *** Characters and strings *)

Definition chr (n : nat) : string := String (ascii_of_nat n) EmptyString.
Definition newline : string := chr 10.

Definition is_lower (c : ascii) : bool :=
  let n := nat_of_ascii c in (97 <=? n)%nat && (n <=? 122)%nat.
Definition is_upper (c : ascii) : bool :=
  let n := nat_of_ascii c in (65 <=? n)%nat && (n <=? 90)%nat.

Definition upper_char (c : ascii) : ascii :=
  if is_lower c then ascii_of_nat (nat_of_ascii c - 32) else c.
Definition lower_char (c : ascii) : ascii :=
  if is_upper c then ascii_of_nat (nat_of_ascii c + 32) else c.

Fixpoint map_string (f : ascii -> ascii) (s : string) : string :=
  match s with
  | EmptyString => EmptyString
  | String c r => String (f c) (map_string f r)
  end.

(** [s.lower()] as the guard of [get_user_id] sees it.  The guard compares
    the start of the result with "bearer ": the letters A to Z become a to
    z, and the characters beyond ASCII stay out of the comparison whatever
    they become (lower case takes only U+0130 and U+212A to a text that
    starts with an ASCII character, an i and a k, which are no letters of
    "bearer"), so their bytes are left as they are. *)
Definition lower (s : string) : string := map_string lower_char s.

(** [s.startswith(p)]. *)
Definition startswith (p s : string) : bool := String.prefix p s.

(** *** UTF-8 *)

(** The value of a byte, the kinds of bytes, the code point of a
    well-formed sequence of two, three or four bytes, and the bytes of a
    code point. *)
Definition byte (c : ascii) : N := N_of_ascii c.
Definition is_cont (c : ascii) : bool := ((0x80 <=? byte c) && (byte c <? 0xC0))%N.
Definition is_lead2 (c : ascii) : bool := ((0xC2 <=? byte c) && (byte c <=? 0xDF))%N.
Definition is_lead3 (c : ascii) : bool := ((0xE0 <=? byte c) && (byte c <=? 0xEF))%N.
Definition is_lead4 (c : ascii) : bool := ((0xF0 <=? byte c) && (byte c <=? 0xF4))%N.
Definition cp2 (c d : ascii) : N := ((byte c - 0xC0) * 0x40 + (byte d - 0x80))%N.
Definition cp3 (c d e : ascii) : N :=
  ((byte c - 0xE0) * 0x1000 + (byte d - 0x80) * 0x40 + (byte e - 0x80))%N.
Definition cp4 (c d e f : ascii) : N :=
  ((byte c - 0xF0) * 0x40000 + (byte d - 0x80) * 0x1000 + (byte e - 0x80) * 0x40
   + (byte f - 0x80))%N.
Definition chr_N (n : N) : string := String (ascii_of_N n) EmptyString.
Definition encode (cp : N) : string :=
  (if cp <? 0x80 then chr_N cp
   else if cp <? 0x800 then chr_N (0xC0 + cp / 0x40) ++ chr_N (0x80 + cp mod 0x40)
   else if cp <? 0x10000 then
     chr_N (0xE0 + cp / 0x1000) ++ chr_N (0x80 + (cp / 0x40) mod 0x40)
     ++ chr_N (0x80 + cp mod 0x40)
   else
     chr_N (0xF0 + cp / 0x40000) ++ chr_N (0x80 + (cp / 0x1000) mod 0x40)
     ++ chr_N (0x80 + (cp / 0x40) mod 0x40) ++ chr_N (0x80 + cp mod 0x40))%N.

(** *** [str.upper] *)

(** The upper-case mapping of CPython 3.11 (Unicode 14.0): every code point
    that [upper] changes, with the code points it becomes (more than one
    for 102 of them, as U+00DF, which becomes "SS").  [str.upper] maps the
    code points of a text one by one, without looking at their context. *)
Definition upper_table : list (N * list N) :=
  [
    (0x61, [0x41]); (0x62, [0x42]); (0x63, [0x43]); (0x64, [0x44]);
    (0x65, [0x45]); (0x66, [0x46]); (0x67, [0x47]); (0x68, [0x48]);
    (0x69, [0x49]); (0x6A, [0x4A]); (0x6B, [0x4B]); (0x6C, [0x4C]);
    (0x6D, [0x4D]); (0x6E, [0x4E]); (0x6F, [0x4F]); (0x70, [0x50]);
    (0x71, [0x51]); (0x72, [0x52]); (0x73, [0x53]); (0x74, [0x54]);
    (0x75, [0x55]); (0x76, [0x56]); (0x77, [0x57]); (0x78, [0x58]);
    (0x79, [0x59]); (0x7A, [0x5A]); (0xB5, [0x39C]); (0xDF, [0x53; 0x53]);
    (0xE0, [0xC0]); (0xE1, [0xC1]); (0xE2, [0xC2]); (0xE3, [0xC3]);
    (0xE4, [0xC4]); (0xE5, [0xC5]); (0xE6, [0xC6]); (0xE7, [0xC7]);
    (0xE8, [0xC8]); (0xE9, [0xC9]); (0xEA, [0xCA]); (0xEB, [0xCB]);
    (0xEC, [0xCC]); (0xED, [0xCD]); (0xEE, [0xCE]); (0xEF, [0xCF]);
    (0xF0, [0xD0]); (0xF1, [0xD1]); (0xF2, [0xD2]); (0xF3, [0xD3]);
    (0xF4, [0xD4]); (0xF5, [0xD5]); (0xF6, [0xD6]); (0xF8, [0xD8]);
    (0xF9, [0xD9]); (0xFA, [0xDA]); (0xFB, [0xDB]); (0xFC, [0xDC]);
    (0xFD, [0xDD]); (0xFE, [0xDE]); (0xFF, [0x178]); (0x101, [0x100]);
    (0x103, [0x102]); (0x105, [0x104]); (0x107, [0x106]); (0x109, [0x108]);
    (0x10B, [0x10A]); (0x10D, [0x10C]); (0x10F, [0x10E]); (0x111, [0x110]);
    (0x113, [0x112]); (0x115, [0x114]); (0x117, [0x116]); (0x119, [0x118]);
    (0x11B, [0x11A]); (0x11D, [0x11C]); (0x11F, [0x11E]); (0x121, [0x120]);
    (0x123, [0x122]); (0x125, [0x124]); (0x127, [0x126]); (0x129, [0x128]);
    (0x12B, [0x12A]); (0x12D, [0x12C]); (0x12F, [0x12E]); (0x131, [0x49]);
    (0x133, [0x132]); (0x135, [0x134]); (0x137, [0x136]); (0x13A, [0x139]);
    (0x13C, [0x13B]); (0x13E, [0x13D]); (0x140, [0x13F]); (0x142, [0x141]);
    (0x144, [0x143]); (0x146, [0x145]); (0x148, [0x147]);
    (0x149, [0x2BC; 0x4E]); (0x14B, [0x14A]); (0x14D, [0x14C]);
    (0x14F, [0x14E]); (0x151, [0x150]); (0x153, [0x152]); (0x155, [0x154]);
    (0x157, [0x156]); (0x159, [0x158]); (0x15B, [0x15A]); (0x15D, [0x15C]);
    (0x15F, [0x15E]); (0x161, [0x160]); (0x163, [0x162]); (0x165, [0x164]);
    (0x167, [0x166]); (0x169, [0x168]); (0x16B, [0x16A]); (0x16D, [0x16C]);
    (0x16F, [0x16E]); (0x171, [0x170]); (0x173, [0x172]); (0x175, [0x174]);
    (0x177, [0x176]); (0x17A, [0x179]); (0x17C, [0x17B]); (0x17E, [0x17D]);
    (0x17F, [0x53]); (0x180, [0x243]); (0x183, [0x182]); (0x185, [0x184]);
    (0x188, [0x187]); (0x18C, [0x18B]); (0x192, [0x191]); (0x195, [0x1F6]);
    (0x199, [0x198]); (0x19A, [0x23D]); (0x19E, [0x220]); (0x1A1, [0x1A0]);
    (0x1A3, [0x1A2]); (0x1A5, [0x1A4]); (0x1A8, [0x1A7]); (0x1AD, [0x1AC]);
    (0x1B0, [0x1AF]); (0x1B4, [0x1B3]); (0x1B6, [0x1B5]); (0x1B9, [0x1B8]);
    (0x1BD, [0x1BC]); (0x1BF, [0x1F7]); (0x1C5, [0x1C4]); (0x1C6, [0x1C4]);
    (0x1C8, [0x1C7]); (0x1C9, [0x1C7]); (0x1CB, [0x1CA]); (0x1CC, [0x1CA]);
    (0x1CE, [0x1CD]); (0x1D0, [0x1CF]); (0x1D2, [0x1D1]); (0x1D4, [0x1D3]);
    (0x1D6, [0x1D5]); (0x1D8, [0x1D7]); (0x1DA, [0x1D9]); (0x1DC, [0x1DB]);
    (0x1DD, [0x18E]); (0x1DF, [0x1DE]); (0x1E1, [0x1E0]); (0x1E3, [0x1E2]);
    (0x1E5, [0x1E4]); (0x1E7, [0x1E6]); (0x1E9, [0x1E8]); (0x1EB, [0x1EA]);
    (0x1ED, [0x1EC]); (0x1EF, [0x1EE]); (0x1F0, [0x4A; 0x30C]);
    (0x1F2, [0x1F1]); (0x1F3, [0x1F1]); (0x1F5, [0x1F4]); (0x1F9, [0x1F8]);
    (0x1FB, [0x1FA]); (0x1FD, [0x1FC]); (0x1FF, [0x1FE]); (0x201, [0x200]);
    (0x203, [0x202]); (0x205, [0x204]); (0x207, [0x206]); (0x209, [0x208]);
    (0x20B, [0x20A]); (0x20D, [0x20C]); (0x20F, [0x20E]); (0x211, [0x210]);
    (0x213, [0x212]); (0x215, [0x214]); (0x217, [0x216]); (0x219, [0x218]);
    (0x21B, [0x21A]); (0x21D, [0x21C]); (0x21F, [0x21E]); (0x223, [0x222]);
    (0x225, [0x224]); (0x227, [0x226]); (0x229, [0x228]); (0x22B, [0x22A]);
    (0x22D, [0x22C]); (0x22F, [0x22E]); (0x231, [0x230]); (0x233, [0x232]);
    (0x23C, [0x23B]); (0x23F, [0x2C7E]); (0x240, [0x2C7F]); (0x242, [0x241]);
    (0x247, [0x246]); (0x249, [0x248]); (0x24B, [0x24A]); (0x24D, [0x24C]);
    (0x24F, [0x24E]); (0x250, [0x2C6F]); (0x251, [0x2C6D]); (0x252, [0x2C70]);
    (0x253, [0x181]); (0x254, [0x186]); (0x256, [0x189]); (0x257, [0x18A]);
    (0x259, [0x18F]); (0x25B, [0x190]); (0x25C, [0xA7AB]); (0x260, [0x193]);
    (0x261, [0xA7AC]); (0x263, [0x194]); (0x265, [0xA78D]); (0x266, [0xA7AA]);
    (0x268, [0x197]); (0x269, [0x196]); (0x26A, [0xA7AE]); (0x26B, [0x2C62]);
    (0x26C, [0xA7AD]); (0x26F, [0x19C]); (0x271, [0x2C6E]); (0x272, [0x19D]);
    (0x275, [0x19F]); (0x27D, [0x2C64]); (0x280, [0x1A6]); (0x282, [0xA7C5]);
    (0x283, [0x1A9]); (0x287, [0xA7B1]); (0x288, [0x1AE]); (0x289, [0x244]);
    (0x28A, [0x1B1]); (0x28B, [0x1B2]); (0x28C, [0x245]); (0x292, [0x1B7]);
    (0x29D, [0xA7B2]); (0x29E, [0xA7B0]); (0x345, [0x399]); (0x371, [0x370]);
    (0x373, [0x372]); (0x377, [0x376]); (0x37B, [0x3FD]); (0x37C, [0x3FE]);
    (0x37D, [0x3FF]); (0x390, [0x399; 0x308; 0x301]); (0x3AC, [0x386]);
    (0x3AD, [0x388]); (0x3AE, [0x389]); (0x3AF, [0x38A]);
    (0x3B0, [0x3A5; 0x308; 0x301]); (0x3B1, [0x391]); (0x3B2, [0x392]);
    (0x3B3, [0x393]); (0x3B4, [0x394]); (0x3B5, [0x395]); (0x3B6, [0x396]);
    (0x3B7, [0x397]); (0x3B8, [0x398]); (0x3B9, [0x399]); (0x3BA, [0x39A]);
    (0x3BB, [0x39B]); (0x3BC, [0x39C]); (0x3BD, [0x39D]); (0x3BE, [0x39E]);
    (0x3BF, [0x39F]); (0x3C0, [0x3A0]); (0x3C1, [0x3A1]); (0x3C2, [0x3A3]);
    (0x3C3, [0x3A3]); (0x3C4, [0x3A4]); (0x3C5, [0x3A5]); (0x3C6, [0x3A6]);
    (0x3C7, [0x3A7]); (0x3C8, [0x3A8]); (0x3C9, [0x3A9]); (0x3CA, [0x3AA]);
    (0x3CB, [0x3AB]); (0x3CC, [0x38C]); (0x3CD, [0x38E]); (0x3CE, [0x38F]);
    (0x3D0, [0x392]); (0x3D1, [0x398]); (0x3D5, [0x3A6]); (0x3D6, [0x3A0]);
    (0x3D7, [0x3CF]); (0x3D9, [0x3D8]); (0x3DB, [0x3DA]); (0x3DD, [0x3DC]);
    (0x3DF, [0x3DE]); (0x3E1, [0x3E0]); (0x3E3, [0x3E2]); (0x3E5, [0x3E4]);
    (0x3E7, [0x3E6]); (0x3E9, [0x3E8]); (0x3EB, [0x3EA]); (0x3ED, [0x3EC]);
    (0x3EF, [0x3EE]); (0x3F0, [0x39A]); (0x3F1, [0x3A1]); (0x3F2, [0x3F9]);
    (0x3F3, [0x37F]); (0x3F5, [0x395]); (0x3F8, [0x3F7]); (0x3FB, [0x3FA]);
    (0x430, [0x410]); (0x431, [0x411]); (0x432, [0x412]); (0x433, [0x413]);
    (0x434, [0x414]); (0x435, [0x415]); (0x436, [0x416]); (0x437, [0x417]);
    (0x438, [0x418]); (0x439, [0x419]); (0x43A, [0x41A]); (0x43B, [0x41B]);
    (0x43C, [0x41C]); (0x43D, [0x41D]); (0x43E, [0x41E]); (0x43F, [0x41F]);
    (0x440, [0x420]); (0x441, [0x421]); (0x442, [0x422]); (0x443, [0x423]);
    (0x444, [0x424]); (0x445, [0x425]); (0x446, [0x426]); (0x447, [0x427]);
    (0x448, [0x428]); (0x449, [0x429]); (0x44A, [0x42A]); (0x44B, [0x42B]);
    (0x44C, [0x42C]); (0x44D, [0x42D]); (0x44E, [0x42E]); (0x44F, [0x42F]);
    (0x450, [0x400]); (0x451, [0x401]); (0x452, [0x402]); (0x453, [0x403]);
    (0x454, [0x404]); (0x455, [0x405]); (0x456, [0x406]); (0x457, [0x407]);
    (0x458, [0x408]); (0x459, [0x409]); (0x45A, [0x40A]); (0x45B, [0x40B]);
    (0x45C, [0x40C]); (0x45D, [0x40D]); (0x45E, [0x40E]); (0x45F, [0x40F]);
    (0x461, [0x460]); (0x463, [0x462]); (0x465, [0x464]); (0x467, [0x466]);
    (0x469, [0x468]); (0x46B, [0x46A]); (0x46D, [0x46C]); (0x46F, [0x46E]);
    (0x471, [0x470]); (0x473, [0x472]); (0x475, [0x474]); (0x477, [0x476]);
    (0x479, [0x478]); (0x47B, [0x47A]); (0x47D, [0x47C]); (0x47F, [0x47E]);
    (0x481, [0x480]); (0x48B, [0x48A]); (0x48D, [0x48C]); (0x48F, [0x48E]);
    (0x491, [0x490]); (0x493, [0x492]); (0x495, [0x494]); (0x497, [0x496]);
    (0x499, [0x498]); (0x49B, [0x49A]); (0x49D, [0x49C]); (0x49F, [0x49E]);
    (0x4A1, [0x4A0]); (0x4A3, [0x4A2]); (0x4A5, [0x4A4]); (0x4A7, [0x4A6]);
    (0x4A9, [0x4A8]); (0x4AB, [0x4AA]); (0x4AD, [0x4AC]); (0x4AF, [0x4AE]);
    (0x4B1, [0x4B0]); (0x4B3, [0x4B2]); (0x4B5, [0x4B4]); (0x4B7, [0x4B6]);
    (0x4B9, [0x4B8]); (0x4BB, [0x4BA]); (0x4BD, [0x4BC]); (0x4BF, [0x4BE]);
    (0x4C2, [0x4C1]); (0x4C4, [0x4C3]); (0x4C6, [0x4C5]); (0x4C8, [0x4C7]);
    (0x4CA, [0x4C9]); (0x4CC, [0x4CB]); (0x4CE, [0x4CD]); (0x4CF, [0x4C0]);
    (0x4D1, [0x4D0]); (0x4D3, [0x4D2]); (0x4D5, [0x4D4]); (0x4D7, [0x4D6]);
    (0x4D9, [0x4D8]); (0x4DB, [0x4DA]); (0x4DD, [0x4DC]); (0x4DF, [0x4DE]);
    (0x4E1, [0x4E0]); (0x4E3, [0x4E2]); (0x4E5, [0x4E4]); (0x4E7, [0x4E6]);
    (0x4E9, [0x4E8]); (0x4EB, [0x4EA]); (0x4ED, [0x4EC]); (0x4EF, [0x4EE]);
    (0x4F1, [0x4F0]); (0x4F3, [0x4F2]); (0x4F5, [0x4F4]); (0x4F7, [0x4F6]);
    (0x4F9, [0x4F8]); (0x4FB, [0x4FA]); (0x4FD, [0x4FC]); (0x4FF, [0x4FE]);
    (0x501, [0x500]); (0x503, [0x502]); (0x505, [0x504]); (0x507, [0x506]);
    (0x509, [0x508]); (0x50B, [0x50A]); (0x50D, [0x50C]); (0x50F, [0x50E]);
    (0x511, [0x510]); (0x513, [0x512]); (0x515, [0x514]); (0x517, [0x516]);
    (0x519, [0x518]); (0x51B, [0x51A]); (0x51D, [0x51C]); (0x51F, [0x51E]);
    (0x521, [0x520]); (0x523, [0x522]); (0x525, [0x524]); (0x527, [0x526]);
    (0x529, [0x528]); (0x52B, [0x52A]); (0x52D, [0x52C]); (0x52F, [0x52E]);
    (0x561, [0x531]); (0x562, [0x532]); (0x563, [0x533]); (0x564, [0x534]);
    (0x565, [0x535]); (0x566, [0x536]); (0x567, [0x537]); (0x568, [0x538]);
    (0x569, [0x539]); (0x56A, [0x53A]); (0x56B, [0x53B]); (0x56C, [0x53C]);
    (0x56D, [0x53D]); (0x56E, [0x53E]); (0x56F, [0x53F]); (0x570, [0x540]);
    (0x571, [0x541]); (0x572, [0x542]); (0x573, [0x543]); (0x574, [0x544]);
    (0x575, [0x545]); (0x576, [0x546]); (0x577, [0x547]); (0x578, [0x548]);
    (0x579, [0x549]); (0x57A, [0x54A]); (0x57B, [0x54B]); (0x57C, [0x54C]);
    (0x57D, [0x54D]); (0x57E, [0x54E]); (0x57F, [0x54F]); (0x580, [0x550]);
    (0x581, [0x551]); (0x582, [0x552]); (0x583, [0x553]); (0x584, [0x554]);
    (0x585, [0x555]); (0x586, [0x556]); (0x587, [0x535; 0x552]);
    (0x10D0, [0x1C90]); (0x10D1, [0x1C91]); (0x10D2, [0x1C92]);
    (0x10D3, [0x1C93]); (0x10D4, [0x1C94]); (0x10D5, [0x1C95]);
    (0x10D6, [0x1C96]); (0x10D7, [0x1C97]); (0x10D8, [0x1C98]);
    (0x10D9, [0x1C99]); (0x10DA, [0x1C9A]); (0x10DB, [0x1C9B]);
    (0x10DC, [0x1C9C]); (0x10DD, [0x1C9D]); (0x10DE, [0x1C9E]);
    (0x10DF, [0x1C9F]); (0x10E0, [0x1CA0]); (0x10E1, [0x1CA1]);
    (0x10E2, [0x1CA2]); (0x10E3, [0x1CA3]); (0x10E4, [0x1CA4]);
    (0x10E5, [0x1CA5]); (0x10E6, [0x1CA6]); (0x10E7, [0x1CA7]);
    (0x10E8, [0x1CA8]); (0x10E9, [0x1CA9]); (0x10EA, [0x1CAA]);
    (0x10EB, [0x1CAB]); (0x10EC, [0x1CAC]); (0x10ED, [0x1CAD]);
    (0x10EE, [0x1CAE]); (0x10EF, [0x1CAF]); (0x10F0, [0x1CB0]);
    (0x10F1, [0x1CB1]); (0x10F2, [0x1CB2]); (0x10F3, [0x1CB3]);
    (0x10F4, [0x1CB4]); (0x10F5, [0x1CB5]); (0x10F6, [0x1CB6]);
    (0x10F7, [0x1CB7]); (0x10F8, [0x1CB8]); (0x10F9, [0x1CB9]);
    (0x10FA, [0x1CBA]); (0x10FD, [0x1CBD]); (0x10FE, [0x1CBE]);
    (0x10FF, [0x1CBF]); (0x13F8, [0x13F0]); (0x13F9, [0x13F1]);
    (0x13FA, [0x13F2]); (0x13FB, [0x13F3]); (0x13FC, [0x13F4]);
    (0x13FD, [0x13F5]); (0x1C80, [0x412]); (0x1C81, [0x414]);
    (0x1C82, [0x41E]); (0x1C83, [0x421]); (0x1C84, [0x422]); (0x1C85, [0x422]);
    (0x1C86, [0x42A]); (0x1C87, [0x462]); (0x1C88, [0xA64A]);
    (0x1D79, [0xA77D]); (0x1D7D, [0x2C63]); (0x1D8E, [0xA7C6]);
    (0x1E01, [0x1E00]); (0x1E03, [0x1E02]); (0x1E05, [0x1E04]);
    (0x1E07, [0x1E06]); (0x1E09, [0x1E08]); (0x1E0B, [0x1E0A]);
    (0x1E0D, [0x1E0C]); (0x1E0F, [0x1E0E]); (0x1E11, [0x1E10]);
    (0x1E13, [0x1E12]); (0x1E15, [0x1E14]); (0x1E17, [0x1E16]);
    (0x1E19, [0x1E18]); (0x1E1B, [0x1E1A]); (0x1E1D, [0x1E1C]);
    (0x1E1F, [0x1E1E]); (0x1E21, [0x1E20]); (0x1E23, [0x1E22]);
    (0x1E25, [0x1E24]); (0x1E27, [0x1E26]); (0x1E29, [0x1E28]);
    (0x1E2B, [0x1E2A]); (0x1E2D, [0x1E2C]); (0x1E2F, [0x1E2E]);
    (0x1E31, [0x1E30]); (0x1E33, [0x1E32]); (0x1E35, [0x1E34]);
    (0x1E37, [0x1E36]); (0x1E39, [0x1E38]); (0x1E3B, [0x1E3A]);
    (0x1E3D, [0x1E3C]); (0x1E3F, [0x1E3E]); (0x1E41, [0x1E40]);
    (0x1E43, [0x1E42]); (0x1E45, [0x1E44]); (0x1E47, [0x1E46]);
    (0x1E49, [0x1E48]); (0x1E4B, [0x1E4A]); (0x1E4D, [0x1E4C]);
    (0x1E4F, [0x1E4E]); (0x1E51, [0x1E50]); (0x1E53, [0x1E52]);
    (0x1E55, [0x1E54]); (0x1E57, [0x1E56]); (0x1E59, [0x1E58]);
    (0x1E5B, [0x1E5A]); (0x1E5D, [0x1E5C]); (0x1E5F, [0x1E5E]);
    (0x1E61, [0x1E60]); (0x1E63, [0x1E62]); (0x1E65, [0x1E64]);
    (0x1E67, [0x1E66]); (0x1E69, [0x1E68]); (0x1E6B, [0x1E6A]);
    (0x1E6D, [0x1E6C]); (0x1E6F, [0x1E6E]); (0x1E71, [0x1E70]);
    (0x1E73, [0x1E72]); (0x1E75, [0x1E74]); (0x1E77, [0x1E76]);
    (0x1E79, [0x1E78]); (0x1E7B, [0x1E7A]); (0x1E7D, [0x1E7C]);
    (0x1E7F, [0x1E7E]); (0x1E81, [0x1E80]); (0x1E83, [0x1E82]);
    (0x1E85, [0x1E84]); (0x1E87, [0x1E86]); (0x1E89, [0x1E88]);
    (0x1E8B, [0x1E8A]); (0x1E8D, [0x1E8C]); (0x1E8F, [0x1E8E]);
    (0x1E91, [0x1E90]); (0x1E93, [0x1E92]); (0x1E95, [0x1E94]);
    (0x1E96, [0x48; 0x331]); (0x1E97, [0x54; 0x308]); (0x1E98, [0x57; 0x30A]);
    (0x1E99, [0x59; 0x30A]); (0x1E9A, [0x41; 0x2BE]); (0x1E9B, [0x1E60]);
    (0x1EA1, [0x1EA0]); (0x1EA3, [0x1EA2]); (0x1EA5, [0x1EA4]);
    (0x1EA7, [0x1EA6]); (0x1EA9, [0x1EA8]); (0x1EAB, [0x1EAA]);
    (0x1EAD, [0x1EAC]); (0x1EAF, [0x1EAE]); (0x1EB1, [0x1EB0]);
    (0x1EB3, [0x1EB2]); (0x1EB5, [0x1EB4]); (0x1EB7, [0x1EB6]);
    (0x1EB9, [0x1EB8]); (0x1EBB, [0x1EBA]); (0x1EBD, [0x1EBC]);
    (0x1EBF, [0x1EBE]); (0x1EC1, [0x1EC0]); (0x1EC3, [0x1EC2]);
    (0x1EC5, [0x1EC4]); (0x1EC7, [0x1EC6]); (0x1EC9, [0x1EC8]);
    (0x1ECB, [0x1ECA]); (0x1ECD, [0x1ECC]); (0x1ECF, [0x1ECE]);
    (0x1ED1, [0x1ED0]); (0x1ED3, [0x1ED2]); (0x1ED5, [0x1ED4]);
    (0x1ED7, [0x1ED6]); (0x1ED9, [0x1ED8]); (0x1EDB, [0x1EDA]);
    (0x1EDD, [0x1EDC]); (0x1EDF, [0x1EDE]); (0x1EE1, [0x1EE0]);
    (0x1EE3, [0x1EE2]); (0x1EE5, [0x1EE4]); (0x1EE7, [0x1EE6]);
    (0x1EE9, [0x1EE8]); (0x1EEB, [0x1EEA]); (0x1EED, [0x1EEC]);
    (0x1EEF, [0x1EEE]); (0x1EF1, [0x1EF0]); (0x1EF3, [0x1EF2]);
    (0x1EF5, [0x1EF4]); (0x1EF7, [0x1EF6]); (0x1EF9, [0x1EF8]);
    (0x1EFB, [0x1EFA]); (0x1EFD, [0x1EFC]); (0x1EFF, [0x1EFE]);
    (0x1F00, [0x1F08]); (0x1F01, [0x1F09]); (0x1F02, [0x1F0A]);
    (0x1F03, [0x1F0B]); (0x1F04, [0x1F0C]); (0x1F05, [0x1F0D]);
    (0x1F06, [0x1F0E]); (0x1F07, [0x1F0F]); (0x1F10, [0x1F18]);
    (0x1F11, [0x1F19]); (0x1F12, [0x1F1A]); (0x1F13, [0x1F1B]);
    (0x1F14, [0x1F1C]); (0x1F15, [0x1F1D]); (0x1F20, [0x1F28]);
    (0x1F21, [0x1F29]); (0x1F22, [0x1F2A]); (0x1F23, [0x1F2B]);
    (0x1F24, [0x1F2C]); (0x1F25, [0x1F2D]); (0x1F26, [0x1F2E]);
    (0x1F27, [0x1F2F]); (0x1F30, [0x1F38]); (0x1F31, [0x1F39]);
    (0x1F32, [0x1F3A]); (0x1F33, [0x1F3B]); (0x1F34, [0x1F3C]);
    (0x1F35, [0x1F3D]); (0x1F36, [0x1F3E]); (0x1F37, [0x1F3F]);
    (0x1F40, [0x1F48]); (0x1F41, [0x1F49]); (0x1F42, [0x1F4A]);
    (0x1F43, [0x1F4B]); (0x1F44, [0x1F4C]); (0x1F45, [0x1F4D]);
    (0x1F50, [0x3A5; 0x313]); (0x1F51, [0x1F59]);
    (0x1F52, [0x3A5; 0x313; 0x300]); (0x1F53, [0x1F5B]);
    (0x1F54, [0x3A5; 0x313; 0x301]); (0x1F55, [0x1F5D]);
    (0x1F56, [0x3A5; 0x313; 0x342]); (0x1F57, [0x1F5F]); (0x1F60, [0x1F68]);
    (0x1F61, [0x1F69]); (0x1F62, [0x1F6A]); (0x1F63, [0x1F6B]);
    (0x1F64, [0x1F6C]); (0x1F65, [0x1F6D]); (0x1F66, [0x1F6E]);
    (0x1F67, [0x1F6F]); (0x1F70, [0x1FBA]); (0x1F71, [0x1FBB]);
    (0x1F72, [0x1FC8]); (0x1F73, [0x1FC9]); (0x1F74, [0x1FCA]);
    (0x1F75, [0x1FCB]); (0x1F76, [0x1FDA]); (0x1F77, [0x1FDB]);
    (0x1F78, [0x1FF8]); (0x1F79, [0x1FF9]); (0x1F7A, [0x1FEA]);
    (0x1F7B, [0x1FEB]); (0x1F7C, [0x1FFA]); (0x1F7D, [0x1FFB]);
    (0x1F80, [0x1F08; 0x399]); (0x1F81, [0x1F09; 0x399]);
    (0x1F82, [0x1F0A; 0x399]); (0x1F83, [0x1F0B; 0x399]);
    (0x1F84, [0x1F0C; 0x399]); (0x1F85, [0x1F0D; 0x399]);
    (0x1F86, [0x1F0E; 0x399]); (0x1F87, [0x1F0F; 0x399]);
    (0x1F88, [0x1F08; 0x399]); (0x1F89, [0x1F09; 0x399]);
    (0x1F8A, [0x1F0A; 0x399]); (0x1F8B, [0x1F0B; 0x399]);
    (0x1F8C, [0x1F0C; 0x399]); (0x1F8D, [0x1F0D; 0x399]);
    (0x1F8E, [0x1F0E; 0x399]); (0x1F8F, [0x1F0F; 0x399]);
    (0x1F90, [0x1F28; 0x399]); (0x1F91, [0x1F29; 0x399]);
    (0x1F92, [0x1F2A; 0x399]); (0x1F93, [0x1F2B; 0x399]);
    (0x1F94, [0x1F2C; 0x399]); (0x1F95, [0x1F2D; 0x399]);
    (0x1F96, [0x1F2E; 0x399]); (0x1F97, [0x1F2F; 0x399]);
    (0x1F98, [0x1F28; 0x399]); (0x1F99, [0x1F29; 0x399]);
    (0x1F9A, [0x1F2A; 0x399]); (0x1F9B, [0x1F2B; 0x399]);
    (0x1F9C, [0x1F2C; 0x399]); (0x1F9D, [0x1F2D; 0x399]);
    (0x1F9E, [0x1F2E; 0x399]); (0x1F9F, [0x1F2F; 0x399]);
    (0x1FA0, [0x1F68; 0x399]); (0x1FA1, [0x1F69; 0x399]);
    (0x1FA2, [0x1F6A; 0x399]); (0x1FA3, [0x1F6B; 0x399]);
    (0x1FA4, [0x1F6C; 0x399]); (0x1FA5, [0x1F6D; 0x399]);
    (0x1FA6, [0x1F6E; 0x399]); (0x1FA7, [0x1F6F; 0x399]);
    (0x1FA8, [0x1F68; 0x399]); (0x1FA9, [0x1F69; 0x399]);
    (0x1FAA, [0x1F6A; 0x399]); (0x1FAB, [0x1F6B; 0x399]);
    (0x1FAC, [0x1F6C; 0x399]); (0x1FAD, [0x1F6D; 0x399]);
    (0x1FAE, [0x1F6E; 0x399]); (0x1FAF, [0x1F6F; 0x399]); (0x1FB0, [0x1FB8]);
    (0x1FB1, [0x1FB9]); (0x1FB2, [0x1FBA; 0x399]); (0x1FB3, [0x391; 0x399]);
    (0x1FB4, [0x386; 0x399]); (0x1FB6, [0x391; 0x342]);
    (0x1FB7, [0x391; 0x342; 0x399]); (0x1FBC, [0x391; 0x399]);
    (0x1FBE, [0x399]); (0x1FC2, [0x1FCA; 0x399]); (0x1FC3, [0x397; 0x399]);
    (0x1FC4, [0x389; 0x399]); (0x1FC6, [0x397; 0x342]);
    (0x1FC7, [0x397; 0x342; 0x399]); (0x1FCC, [0x397; 0x399]);
    (0x1FD0, [0x1FD8]); (0x1FD1, [0x1FD9]); (0x1FD2, [0x399; 0x308; 0x300]);
    (0x1FD3, [0x399; 0x308; 0x301]); (0x1FD6, [0x399; 0x342]);
    (0x1FD7, [0x399; 0x308; 0x342]); (0x1FE0, [0x1FE8]); (0x1FE1, [0x1FE9]);
    (0x1FE2, [0x3A5; 0x308; 0x300]); (0x1FE3, [0x3A5; 0x308; 0x301]);
    (0x1FE4, [0x3A1; 0x313]); (0x1FE5, [0x1FEC]); (0x1FE6, [0x3A5; 0x342]);
    (0x1FE7, [0x3A5; 0x308; 0x342]); (0x1FF2, [0x1FFA; 0x399]);
    (0x1FF3, [0x3A9; 0x399]); (0x1FF4, [0x38F; 0x399]);
    (0x1FF6, [0x3A9; 0x342]); (0x1FF7, [0x3A9; 0x342; 0x399]);
    (0x1FFC, [0x3A9; 0x399]); (0x214E, [0x2132]); (0x2170, [0x2160]);
    (0x2171, [0x2161]); (0x2172, [0x2162]); (0x2173, [0x2163]);
    (0x2174, [0x2164]); (0x2175, [0x2165]); (0x2176, [0x2166]);
    (0x2177, [0x2167]); (0x2178, [0x2168]); (0x2179, [0x2169]);
    (0x217A, [0x216A]); (0x217B, [0x216B]); (0x217C, [0x216C]);
    (0x217D, [0x216D]); (0x217E, [0x216E]); (0x217F, [0x216F]);
    (0x2184, [0x2183]); (0x24D0, [0x24B6]); (0x24D1, [0x24B7]);
    (0x24D2, [0x24B8]); (0x24D3, [0x24B9]); (0x24D4, [0x24BA]);
    (0x24D5, [0x24BB]); (0x24D6, [0x24BC]); (0x24D7, [0x24BD]);
    (0x24D8, [0x24BE]); (0x24D9, [0x24BF]); (0x24DA, [0x24C0]);
    (0x24DB, [0x24C1]); (0x24DC, [0x24C2]); (0x24DD, [0x24C3]);
    (0x24DE, [0x24C4]); (0x24DF, [0x24C5]); (0x24E0, [0x24C6]);
    (0x24E1, [0x24C7]); (0x24E2, [0x24C8]); (0x24E3, [0x24C9]);
    (0x24E4, [0x24CA]); (0x24E5, [0x24CB]); (0x24E6, [0x24CC]);
    (0x24E7, [0x24CD]); (0x24E8, [0x24CE]); (0x24E9, [0x24CF]);
    (0x2C30, [0x2C00]); (0x2C31, [0x2C01]); (0x2C32, [0x2C02]);
    (0x2C33, [0x2C03]); (0x2C34, [0x2C04]); (0x2C35, [0x2C05]);
    (0x2C36, [0x2C06]); (0x2C37, [0x2C07]); (0x2C38, [0x2C08]);
    (0x2C39, [0x2C09]); (0x2C3A, [0x2C0A]); (0x2C3B, [0x2C0B]);
    (0x2C3C, [0x2C0C]); (0x2C3D, [0x2C0D]); (0x2C3E, [0x2C0E]);
    (0x2C3F, [0x2C0F]); (0x2C40, [0x2C10]); (0x2C41, [0x2C11]);
    (0x2C42, [0x2C12]); (0x2C43, [0x2C13]); (0x2C44, [0x2C14]);
    (0x2C45, [0x2C15]); (0x2C46, [0x2C16]); (0x2C47, [0x2C17]);
    (0x2C48, [0x2C18]); (0x2C49, [0x2C19]); (0x2C4A, [0x2C1A]);
    (0x2C4B, [0x2C1B]); (0x2C4C, [0x2C1C]); (0x2C4D, [0x2C1D]);
    (0x2C4E, [0x2C1E]); (0x2C4F, [0x2C1F]); (0x2C50, [0x2C20]);
    (0x2C51, [0x2C21]); (0x2C52, [0x2C22]); (0x2C53, [0x2C23]);
    (0x2C54, [0x2C24]); (0x2C55, [0x2C25]); (0x2C56, [0x2C26]);
    (0x2C57, [0x2C27]); (0x2C58, [0x2C28]); (0x2C59, [0x2C29]);
    (0x2C5A, [0x2C2A]); (0x2C5B, [0x2C2B]); (0x2C5C, [0x2C2C]);
    (0x2C5D, [0x2C2D]); (0x2C5E, [0x2C2E]); (0x2C5F, [0x2C2F]);
    (0x2C61, [0x2C60]); (0x2C65, [0x23A]); (0x2C66, [0x23E]);
    (0x2C68, [0x2C67]); (0x2C6A, [0x2C69]); (0x2C6C, [0x2C6B]);
    (0x2C73, [0x2C72]); (0x2C76, [0x2C75]); (0x2C81, [0x2C80]);
    (0x2C83, [0x2C82]); (0x2C85, [0x2C84]); (0x2C87, [0x2C86]);
    (0x2C89, [0x2C88]); (0x2C8B, [0x2C8A]); (0x2C8D, [0x2C8C]);
    (0x2C8F, [0x2C8E]); (0x2C91, [0x2C90]); (0x2C93, [0x2C92]);
    (0x2C95, [0x2C94]); (0x2C97, [0x2C96]); (0x2C99, [0x2C98]);
    (0x2C9B, [0x2C9A]); (0x2C9D, [0x2C9C]); (0x2C9F, [0x2C9E]);
    (0x2CA1, [0x2CA0]); (0x2CA3, [0x2CA2]); (0x2CA5, [0x2CA4]);
    (0x2CA7, [0x2CA6]); (0x2CA9, [0x2CA8]); (0x2CAB, [0x2CAA]);
    (0x2CAD, [0x2CAC]); (0x2CAF, [0x2CAE]); (0x2CB1, [0x2CB0]);
    (0x2CB3, [0x2CB2]); (0x2CB5, [0x2CB4]); (0x2CB7, [0x2CB6]);
    (0x2CB9, [0x2CB8]); (0x2CBB, [0x2CBA]); (0x2CBD, [0x2CBC]);
    (0x2CBF, [0x2CBE]); (0x2CC1, [0x2CC0]); (0x2CC3, [0x2CC2]);
    (0x2CC5, [0x2CC4]); (0x2CC7, [0x2CC6]); (0x2CC9, [0x2CC8]);
    (0x2CCB, [0x2CCA]); (0x2CCD, [0x2CCC]); (0x2CCF, [0x2CCE]);
    (0x2CD1, [0x2CD0]); (0x2CD3, [0x2CD2]); (0x2CD5, [0x2CD4]);
    (0x2CD7, [0x2CD6]); (0x2CD9, [0x2CD8]); (0x2CDB, [0x2CDA]);
    (0x2CDD, [0x2CDC]); (0x2CDF, [0x2CDE]); (0x2CE1, [0x2CE0]);
    (0x2CE3, [0x2CE2]); (0x2CEC, [0x2CEB]); (0x2CEE, [0x2CED]);
    (0x2CF3, [0x2CF2]); (0x2D00, [0x10A0]); (0x2D01, [0x10A1]);
    (0x2D02, [0x10A2]); (0x2D03, [0x10A3]); (0x2D04, [0x10A4]);
    (0x2D05, [0x10A5]); (0x2D06, [0x10A6]); (0x2D07, [0x10A7]);
    (0x2D08, [0x10A8]); (0x2D09, [0x10A9]); (0x2D0A, [0x10AA]);
    (0x2D0B, [0x10AB]); (0x2D0C, [0x10AC]); (0x2D0D, [0x10AD]);
    (0x2D0E, [0x10AE]); (0x2D0F, [0x10AF]); (0x2D10, [0x10B0]);
    (0x2D11, [0x10B1]); (0x2D12, [0x10B2]); (0x2D13, [0x10B3]);
    (0x2D14, [0x10B4]); (0x2D15, [0x10B5]); (0x2D16, [0x10B6]);
    (0x2D17, [0x10B7]); (0x2D18, [0x10B8]); (0x2D19, [0x10B9]);
    (0x2D1A, [0x10BA]); (0x2D1B, [0x10BB]); (0x2D1C, [0x10BC]);
    (0x2D1D, [0x10BD]); (0x2D1E, [0x10BE]); (0x2D1F, [0x10BF]);
    (0x2D20, [0x10C0]); (0x2D21, [0x10C1]); (0x2D22, [0x10C2]);
    (0x2D23, [0x10C3]); (0x2D24, [0x10C4]); (0x2D25, [0x10C5]);
    (0x2D27, [0x10C7]); (0x2D2D, [0x10CD]); (0xA641, [0xA640]);
    (0xA643, [0xA642]); (0xA645, [0xA644]); (0xA647, [0xA646]);
    (0xA649, [0xA648]); (0xA64B, [0xA64A]); (0xA64D, [0xA64C]);
    (0xA64F, [0xA64E]); (0xA651, [0xA650]); (0xA653, [0xA652]);
    (0xA655, [0xA654]); (0xA657, [0xA656]); (0xA659, [0xA658]);
    (0xA65B, [0xA65A]); (0xA65D, [0xA65C]); (0xA65F, [0xA65E]);
    (0xA661, [0xA660]); (0xA663, [0xA662]); (0xA665, [0xA664]);
    (0xA667, [0xA666]); (0xA669, [0xA668]); (0xA66B, [0xA66A]);
    (0xA66D, [0xA66C]); (0xA681, [0xA680]); (0xA683, [0xA682]);
    (0xA685, [0xA684]); (0xA687, [0xA686]); (0xA689, [0xA688]);
    (0xA68B, [0xA68A]); (0xA68D, [0xA68C]); (0xA68F, [0xA68E]);
    (0xA691, [0xA690]); (0xA693, [0xA692]); (0xA695, [0xA694]);
    (0xA697, [0xA696]); (0xA699, [0xA698]); (0xA69B, [0xA69A]);
    (0xA723, [0xA722]); (0xA725, [0xA724]); (0xA727, [0xA726]);
    (0xA729, [0xA728]); (0xA72B, [0xA72A]); (0xA72D, [0xA72C]);
    (0xA72F, [0xA72E]); (0xA733, [0xA732]); (0xA735, [0xA734]);
    (0xA737, [0xA736]); (0xA739, [0xA738]); (0xA73B, [0xA73A]);
    (0xA73D, [0xA73C]); (0xA73F, [0xA73E]); (0xA741, [0xA740]);
    (0xA743, [0xA742]); (0xA745, [0xA744]); (0xA747, [0xA746]);
    (0xA749, [0xA748]); (0xA74B, [0xA74A]); (0xA74D, [0xA74C]);
    (0xA74F, [0xA74E]); (0xA751, [0xA750]); (0xA753, [0xA752]);
    (0xA755, [0xA754]); (0xA757, [0xA756]); (0xA759, [0xA758]);
    (0xA75B, [0xA75A]); (0xA75D, [0xA75C]); (0xA75F, [0xA75E]);
    (0xA761, [0xA760]); (0xA763, [0xA762]); (0xA765, [0xA764]);
    (0xA767, [0xA766]); (0xA769, [0xA768]); (0xA76B, [0xA76A]);
    (0xA76D, [0xA76C]); (0xA76F, [0xA76E]); (0xA77A, [0xA779]);
    (0xA77C, [0xA77B]); (0xA77F, [0xA77E]); (0xA781, [0xA780]);
    (0xA783, [0xA782]); (0xA785, [0xA784]); (0xA787, [0xA786]);
    (0xA78C, [0xA78B]); (0xA791, [0xA790]); (0xA793, [0xA792]);
    (0xA794, [0xA7C4]); (0xA797, [0xA796]); (0xA799, [0xA798]);
    (0xA79B, [0xA79A]); (0xA79D, [0xA79C]); (0xA79F, [0xA79E]);
    (0xA7A1, [0xA7A0]); (0xA7A3, [0xA7A2]); (0xA7A5, [0xA7A4]);
    (0xA7A7, [0xA7A6]); (0xA7A9, [0xA7A8]); (0xA7B5, [0xA7B4]);
    (0xA7B7, [0xA7B6]); (0xA7B9, [0xA7B8]); (0xA7BB, [0xA7BA]);
    (0xA7BD, [0xA7BC]); (0xA7BF, [0xA7BE]); (0xA7C1, [0xA7C0]);
    (0xA7C3, [0xA7C2]); (0xA7C8, [0xA7C7]); (0xA7CA, [0xA7C9]);
    (0xA7D1, [0xA7D0]); (0xA7D7, [0xA7D6]); (0xA7D9, [0xA7D8]);
    (0xA7F6, [0xA7F5]); (0xAB53, [0xA7B3]); (0xAB70, [0x13A0]);
    (0xAB71, [0x13A1]); (0xAB72, [0x13A2]); (0xAB73, [0x13A3]);
    (0xAB74, [0x13A4]); (0xAB75, [0x13A5]); (0xAB76, [0x13A6]);
    (0xAB77, [0x13A7]); (0xAB78, [0x13A8]); (0xAB79, [0x13A9]);
    (0xAB7A, [0x13AA]); (0xAB7B, [0x13AB]); (0xAB7C, [0x13AC]);
    (0xAB7D, [0x13AD]); (0xAB7E, [0x13AE]); (0xAB7F, [0x13AF]);
    (0xAB80, [0x13B0]); (0xAB81, [0x13B1]); (0xAB82, [0x13B2]);
    (0xAB83, [0x13B3]); (0xAB84, [0x13B4]); (0xAB85, [0x13B5]);
    (0xAB86, [0x13B6]); (0xAB87, [0x13B7]); (0xAB88, [0x13B8]);
    (0xAB89, [0x13B9]); (0xAB8A, [0x13BA]); (0xAB8B, [0x13BB]);
    (0xAB8C, [0x13BC]); (0xAB8D, [0x13BD]); (0xAB8E, [0x13BE]);
    (0xAB8F, [0x13BF]); (0xAB90, [0x13C0]); (0xAB91, [0x13C1]);
    (0xAB92, [0x13C2]); (0xAB93, [0x13C3]); (0xAB94, [0x13C4]);
    (0xAB95, [0x13C5]); (0xAB96, [0x13C6]); (0xAB97, [0x13C7]);
    (0xAB98, [0x13C8]); (0xAB99, [0x13C9]); (0xAB9A, [0x13CA]);
    (0xAB9B, [0x13CB]); (0xAB9C, [0x13CC]); (0xAB9D, [0x13CD]);
    (0xAB9E, [0x13CE]); (0xAB9F, [0x13CF]); (0xABA0, [0x13D0]);
    (0xABA1, [0x13D1]); (0xABA2, [0x13D2]); (0xABA3, [0x13D3]);
    (0xABA4, [0x13D4]); (0xABA5, [0x13D5]); (0xABA6, [0x13D6]);
    (0xABA7, [0x13D7]); (0xABA8, [0x13D8]); (0xABA9, [0x13D9]);
    (0xABAA, [0x13DA]); (0xABAB, [0x13DB]); (0xABAC, [0x13DC]);
    (0xABAD, [0x13DD]); (0xABAE, [0x13DE]); (0xABAF, [0x13DF]);
    (0xABB0, [0x13E0]); (0xABB1, [0x13E1]); (0xABB2, [0x13E2]);
    (0xABB3, [0x13E3]); (0xABB4, [0x13E4]); (0xABB5, [0x13E5]);
    (0xABB6, [0x13E6]); (0xABB7, [0x13E7]); (0xABB8, [0x13E8]);
    (0xABB9, [0x13E9]); (0xABBA, [0x13EA]); (0xABBB, [0x13EB]);
    (0xABBC, [0x13EC]); (0xABBD, [0x13ED]); (0xABBE, [0x13EE]);
    (0xABBF, [0x13EF]); (0xFB00, [0x46; 0x46]); (0xFB01, [0x46; 0x49]);
    (0xFB02, [0x46; 0x4C]); (0xFB03, [0x46; 0x46; 0x49]);
    (0xFB04, [0x46; 0x46; 0x4C]); (0xFB05, [0x53; 0x54]);
    (0xFB06, [0x53; 0x54]); (0xFB13, [0x544; 0x546]); (0xFB14, [0x544; 0x535]);
    (0xFB15, [0x544; 0x53B]); (0xFB16, [0x54E; 0x546]);
    (0xFB17, [0x544; 0x53D]); (0xFF41, [0xFF21]); (0xFF42, [0xFF22]);
    (0xFF43, [0xFF23]); (0xFF44, [0xFF24]); (0xFF45, [0xFF25]);
    (0xFF46, [0xFF26]); (0xFF47, [0xFF27]); (0xFF48, [0xFF28]);
    (0xFF49, [0xFF29]); (0xFF4A, [0xFF2A]); (0xFF4B, [0xFF2B]);
    (0xFF4C, [0xFF2C]); (0xFF4D, [0xFF2D]); (0xFF4E, [0xFF2E]);
    (0xFF4F, [0xFF2F]); (0xFF50, [0xFF30]); (0xFF51, [0xFF31]);
    (0xFF52, [0xFF32]); (0xFF53, [0xFF33]); (0xFF54, [0xFF34]);
    (0xFF55, [0xFF35]); (0xFF56, [0xFF36]); (0xFF57, [0xFF37]);
    (0xFF58, [0xFF38]); (0xFF59, [0xFF39]); (0xFF5A, [0xFF3A]);
    (0x10428, [0x10400]); (0x10429, [0x10401]); (0x1042A, [0x10402]);
    (0x1042B, [0x10403]); (0x1042C, [0x10404]); (0x1042D, [0x10405]);
    (0x1042E, [0x10406]); (0x1042F, [0x10407]); (0x10430, [0x10408]);
    (0x10431, [0x10409]); (0x10432, [0x1040A]); (0x10433, [0x1040B]);
    (0x10434, [0x1040C]); (0x10435, [0x1040D]); (0x10436, [0x1040E]);
    (0x10437, [0x1040F]); (0x10438, [0x10410]); (0x10439, [0x10411]);
    (0x1043A, [0x10412]); (0x1043B, [0x10413]); (0x1043C, [0x10414]);
    (0x1043D, [0x10415]); (0x1043E, [0x10416]); (0x1043F, [0x10417]);
    (0x10440, [0x10418]); (0x10441, [0x10419]); (0x10442, [0x1041A]);
    (0x10443, [0x1041B]); (0x10444, [0x1041C]); (0x10445, [0x1041D]);
    (0x10446, [0x1041E]); (0x10447, [0x1041F]); (0x10448, [0x10420]);
    (0x10449, [0x10421]); (0x1044A, [0x10422]); (0x1044B, [0x10423]);
    (0x1044C, [0x10424]); (0x1044D, [0x10425]); (0x1044E, [0x10426]);
    (0x1044F, [0x10427]); (0x104D8, [0x104B0]); (0x104D9, [0x104B1]);
    (0x104DA, [0x104B2]); (0x104DB, [0x104B3]); (0x104DC, [0x104B4]);
    (0x104DD, [0x104B5]); (0x104DE, [0x104B6]); (0x104DF, [0x104B7]);
    (0x104E0, [0x104B8]); (0x104E1, [0x104B9]); (0x104E2, [0x104BA]);
    (0x104E3, [0x104BB]); (0x104E4, [0x104BC]); (0x104E5, [0x104BD]);
    (0x104E6, [0x104BE]); (0x104E7, [0x104BF]); (0x104E8, [0x104C0]);
    (0x104E9, [0x104C1]); (0x104EA, [0x104C2]); (0x104EB, [0x104C3]);
    (0x104EC, [0x104C4]); (0x104ED, [0x104C5]); (0x104EE, [0x104C6]);
    (0x104EF, [0x104C7]); (0x104F0, [0x104C8]); (0x104F1, [0x104C9]);
    (0x104F2, [0x104CA]); (0x104F3, [0x104CB]); (0x104F4, [0x104CC]);
    (0x104F5, [0x104CD]); (0x104F6, [0x104CE]); (0x104F7, [0x104CF]);
    (0x104F8, [0x104D0]); (0x104F9, [0x104D1]); (0x104FA, [0x104D2]);
    (0x104FB, [0x104D3]); (0x10597, [0x10570]); (0x10598, [0x10571]);
    (0x10599, [0x10572]); (0x1059A, [0x10573]); (0x1059B, [0x10574]);
    (0x1059C, [0x10575]); (0x1059D, [0x10576]); (0x1059E, [0x10577]);
    (0x1059F, [0x10578]); (0x105A0, [0x10579]); (0x105A1, [0x1057A]);
    (0x105A3, [0x1057C]); (0x105A4, [0x1057D]); (0x105A5, [0x1057E]);
    (0x105A6, [0x1057F]); (0x105A7, [0x10580]); (0x105A8, [0x10581]);
    (0x105A9, [0x10582]); (0x105AA, [0x10583]); (0x105AB, [0x10584]);
    (0x105AC, [0x10585]); (0x105AD, [0x10586]); (0x105AE, [0x10587]);
    (0x105AF, [0x10588]); (0x105B0, [0x10589]); (0x105B1, [0x1058A]);
    (0x105B3, [0x1058C]); (0x105B4, [0x1058D]); (0x105B5, [0x1058E]);
    (0x105B6, [0x1058F]); (0x105B7, [0x10590]); (0x105B8, [0x10591]);
    (0x105B9, [0x10592]); (0x105BB, [0x10594]); (0x105BC, [0x10595]);
    (0x10CC0, [0x10C80]); (0x10CC1, [0x10C81]); (0x10CC2, [0x10C82]);
    (0x10CC3, [0x10C83]); (0x10CC4, [0x10C84]); (0x10CC5, [0x10C85]);
    (0x10CC6, [0x10C86]); (0x10CC7, [0x10C87]); (0x10CC8, [0x10C88]);
    (0x10CC9, [0x10C89]); (0x10CCA, [0x10C8A]); (0x10CCB, [0x10C8B]);
    (0x10CCC, [0x10C8C]); (0x10CCD, [0x10C8D]); (0x10CCE, [0x10C8E]);
    (0x10CCF, [0x10C8F]); (0x10CD0, [0x10C90]); (0x10CD1, [0x10C91]);
    (0x10CD2, [0x10C92]); (0x10CD3, [0x10C93]); (0x10CD4, [0x10C94]);
    (0x10CD5, [0x10C95]); (0x10CD6, [0x10C96]); (0x10CD7, [0x10C97]);
    (0x10CD8, [0x10C98]); (0x10CD9, [0x10C99]); (0x10CDA, [0x10C9A]);
    (0x10CDB, [0x10C9B]); (0x10CDC, [0x10C9C]); (0x10CDD, [0x10C9D]);
    (0x10CDE, [0x10C9E]); (0x10CDF, [0x10C9F]); (0x10CE0, [0x10CA0]);
    (0x10CE1, [0x10CA1]); (0x10CE2, [0x10CA2]); (0x10CE3, [0x10CA3]);
    (0x10CE4, [0x10CA4]); (0x10CE5, [0x10CA5]); (0x10CE6, [0x10CA6]);
    (0x10CE7, [0x10CA7]); (0x10CE8, [0x10CA8]); (0x10CE9, [0x10CA9]);
    (0x10CEA, [0x10CAA]); (0x10CEB, [0x10CAB]); (0x10CEC, [0x10CAC]);
    (0x10CED, [0x10CAD]); (0x10CEE, [0x10CAE]); (0x10CEF, [0x10CAF]);
    (0x10CF0, [0x10CB0]); (0x10CF1, [0x10CB1]); (0x10CF2, [0x10CB2]);
    (0x118C0, [0x118A0]); (0x118C1, [0x118A1]); (0x118C2, [0x118A2]);
    (0x118C3, [0x118A3]); (0x118C4, [0x118A4]); (0x118C5, [0x118A5]);
    (0x118C6, [0x118A6]); (0x118C7, [0x118A7]); (0x118C8, [0x118A8]);
    (0x118C9, [0x118A9]); (0x118CA, [0x118AA]); (0x118CB, [0x118AB]);
    (0x118CC, [0x118AC]); (0x118CD, [0x118AD]); (0x118CE, [0x118AE]);
    (0x118CF, [0x118AF]); (0x118D0, [0x118B0]); (0x118D1, [0x118B1]);
    (0x118D2, [0x118B2]); (0x118D3, [0x118B3]); (0x118D4, [0x118B4]);
    (0x118D5, [0x118B5]); (0x118D6, [0x118B6]); (0x118D7, [0x118B7]);
    (0x118D8, [0x118B8]); (0x118D9, [0x118B9]); (0x118DA, [0x118BA]);
    (0x118DB, [0x118BB]); (0x118DC, [0x118BC]); (0x118DD, [0x118BD]);
    (0x118DE, [0x118BE]); (0x118DF, [0x118BF]); (0x16E60, [0x16E40]);
    (0x16E61, [0x16E41]); (0x16E62, [0x16E42]); (0x16E63, [0x16E43]);
    (0x16E64, [0x16E44]); (0x16E65, [0x16E45]); (0x16E66, [0x16E46]);
    (0x16E67, [0x16E47]); (0x16E68, [0x16E48]); (0x16E69, [0x16E49]);
    (0x16E6A, [0x16E4A]); (0x16E6B, [0x16E4B]); (0x16E6C, [0x16E4C]);
    (0x16E6D, [0x16E4D]); (0x16E6E, [0x16E4E]); (0x16E6F, [0x16E4F]);
    (0x16E70, [0x16E50]); (0x16E71, [0x16E51]); (0x16E72, [0x16E52]);
    (0x16E73, [0x16E53]); (0x16E74, [0x16E54]); (0x16E75, [0x16E55]);
    (0x16E76, [0x16E56]); (0x16E77, [0x16E57]); (0x16E78, [0x16E58]);
    (0x16E79, [0x16E59]); (0x16E7A, [0x16E5A]); (0x16E7B, [0x16E5B]);
    (0x16E7C, [0x16E5C]); (0x16E7D, [0x16E5D]); (0x16E7E, [0x16E5E]);
    (0x16E7F, [0x16E5F]); (0x1E922, [0x1E900]); (0x1E923, [0x1E901]);
    (0x1E924, [0x1E902]); (0x1E925, [0x1E903]); (0x1E926, [0x1E904]);
    (0x1E927, [0x1E905]); (0x1E928, [0x1E906]); (0x1E929, [0x1E907]);
    (0x1E92A, [0x1E908]); (0x1E92B, [0x1E909]); (0x1E92C, [0x1E90A]);
    (0x1E92D, [0x1E90B]); (0x1E92E, [0x1E90C]); (0x1E92F, [0x1E90D]);
    (0x1E930, [0x1E90E]); (0x1E931, [0x1E90F]); (0x1E932, [0x1E910]);
    (0x1E933, [0x1E911]); (0x1E934, [0x1E912]); (0x1E935, [0x1E913]);
    (0x1E936, [0x1E914]); (0x1E937, [0x1E915]); (0x1E938, [0x1E916]);
    (0x1E939, [0x1E917]); (0x1E93A, [0x1E918]); (0x1E93B, [0x1E919]);
    (0x1E93C, [0x1E91A]); (0x1E93D, [0x1E91B]); (0x1E93E, [0x1E91C]);
    (0x1E93F, [0x1E91D]); (0x1E940, [0x1E91E]); (0x1E941, [0x1E91F]);
    (0x1E942, [0x1E920]); (0x1E943, [0x1E921])
  ]%N.

Fixpoint find_cp (cp : N) (table : list (N * list N)) : option (list N) :=
  match table with
  | [] => None
  | (k, v) :: rest => if (cp =? k)%N then Some v else find_cp cp rest
  end.

(** One character in upper case: [original] is the character as it stands
    in the text, [cp] its code point. *)
Definition upper_cp (cp : N) (original : string) : string :=
  match find_cp cp upper_table with
  | Some cps => String.concat "" (map encode cps)
  | None => original
  end.

(** [s.upper()]: the text is read one character at a time (one byte below
    128, else a lead byte and its continuation bytes; a byte that fits
    neither stays as it is). *)
Fixpoint upper (s : string) : string :=
  match s with
  | EmptyString => EmptyString
  | String c r =>
      if (byte c <? 0x80)%N
      then upper_cp (byte c) (String c EmptyString) ++ upper r
      else
        match r with
        | EmptyString => String c (upper r)
        | String d r2 =>
            if is_lead2 c && is_cont d
            then upper_cp (cp2 c d) (String c (String d EmptyString)) ++ upper r2
            else
              match r2 with
              | EmptyString => String c (upper r)
              | String e r3 =>
                  if is_lead3 c && is_cont d && is_cont e
                  then upper_cp (cp3 c d e)
                         (String c (String d (String e EmptyString))) ++ upper r3
                  else
                    match r3 with
                    | EmptyString => String c (upper r)
                    | String f r4 =>
                        if is_lead4 c && is_cont d && is_cont e && is_cont f
                        then upper_cp (cp4 c d e f)
                               (String c (String d (String e (String f EmptyString))))
                             ++ upper r4
                        else String c (upper r)
                    end
              end
        end
  end.

(** The characters of a text, read the same way: what iterating over a
    str visits. *)
Fixpoint chars (s : string) : list string :=
  match s with
  | EmptyString => []
  | String c r =>
      if (byte c <? 0x80)%N
      then String c EmptyString :: chars r
      else
        match r with
        | EmptyString => String c EmptyString :: chars r
        | String d r2 =>
            if is_lead2 c && is_cont d
            then String c (String d EmptyString) :: chars r2
            else
              match r2 with
              | EmptyString => String c EmptyString :: chars r
              | String e r3 =>
                  if is_lead3 c && is_cont d && is_cont e
                  then String c (String d (String e EmptyString)) :: chars r3
                  else
                    match r3 with
                    | EmptyString => String c EmptyString :: chars r
                    | String f r4 =>
                        if is_lead4 c && is_cont d && is_cont e && is_cont f
                        then String c (String d (String e (String f EmptyString)))
                             :: chars r4
                        else String c EmptyString :: chars r
                    end
              end
        end
  end.

(** *** [str.strip] *)

(** [str.isspace] on one code point: the white space of Unicode as CPython
    has it (tab to carriage return, the separators 28-31, the space,
    U+0085, U+00A0, U+1680, U+2000 to U+200A, U+2028, U+2029, U+202F,
    U+205F and U+3000). *)
Definition is_space_cp (cp : N) : bool :=
  (((0x09 <=? cp) && (cp <=? 0x0D)) || ((0x1C <=? cp) && (cp <=? 0x20))
   || (cp =? 0x85) || (cp =? 0xA0) || (cp =? 0x1680)
   || ((0x2000 <=? cp) && (cp <=? 0x200A))
   || (cp =? 0x2028) || (cp =? 0x2029) || (cp =? 0x202F) || (cp =? 0x205F)
   || (cp =? 0x3000))%N.

(** A white-space character of one, two or three bytes (none has four). *)
Definition space1 (c : ascii) : bool := (byte c <? 0x80)%N && is_space_cp (byte c).
Definition space2 (c d : ascii) : bool :=
  is_lead2 c && is_cont d && is_space_cp (cp2 c d).
Definition space3 (c d e : ascii) : bool :=
  is_lead3 c && is_cont d && is_cont e && is_space_cp (cp3 c d e).

(** White space is dropped at the left end, one character at a time. *)
Fixpoint lstrip (s : string) : string :=
  match s with
  | EmptyString => EmptyString
  | String c r =>
      if space1 c then lstrip r
      else
        match r with
        | EmptyString => s
        | String d r2 =>
            if space2 c d then lstrip r2
            else
              match r2 with
              | EmptyString => s
              | String e r3 => if space3 c d e then lstrip r3 else s
              end
        end
  end.

(** The text is made of white-space characters only. *)
Fixpoint all_space (s : string) : bool :=
  match s with
  | EmptyString => true
  | String c r =>
      if space1 c then all_space r
      else
        match r with
        | EmptyString => false
        | String d r2 =>
            if space2 c d then all_space r2
            else
              match r2 with
              | EmptyString => false
              | String e r3 => space3 c d e && all_space r3
              end
        end
  end.

(** White space is dropped at the right end: the text is cut where what
    remains is white space only. *)
Fixpoint rstrip (s : string) : string :=
  match s with
  | EmptyString => EmptyString
  | String c r => if all_space s then EmptyString else String c (rstrip r)
  end.

(** [s.strip()]. *)
Definition strip (s : string) : string := rstrip (lstrip s).

(** [sep.join(parts)]. *)
Fixpoint join (sep : string) (parts : list string) : string :=
  match parts with
  | [] => EmptyString
  | [p] => p
  | p :: rest => p ++ sep ++ join sep rest
  end.

(** [s.split(sep)] for a one-character separator: the pieces between the
    separators, always at least one. *)
Fixpoint split_on (sep : ascii) (s : string) : list string :=
  match s with
  | EmptyString => [EmptyString]
  | String c r =>
      if Ascii.eqb c sep then EmptyString :: split_on sep r
      else match split_on sep r with
           | [] => [String c EmptyString]
           | p :: ps => String c p :: ps
           end
  end.

(** The lines of a text: [s.split(newline)]. *)
Definition lines (s : string) : list string := split_on (ascii_of_nat 10) s.

(** [s.split(" ", 1)]: cut once, at the first space. *)
Fixpoint split_space_once (s : string) : list string :=
  match s with
  | EmptyString => [EmptyString]
  | String c r =>
      if Ascii.eqb c " "%char then [EmptyString; r]
      else match split_space_once r with
           | [] => [String c EmptyString]
           | p :: ps => String c p :: ps
           end
  end.

(** [xs[-n:]]: the last [n] elements, all of them when there are fewer. *)
Definition last_n {A : Type} (n : nat) (xs : list A) : list A :=
  skipn (List.length xs - n) xs.

(** *** [repr], [str] and [==] *)

Definition hex_digit (n : nat) : ascii :=
  ascii_of_nat (if (n <? 10)%nat then 48 + n else 87 + n).

Definition quote1 : ascii := "'"%char.
Definition quote2 : ascii := ascii_of_nat 34.
Definition backslash : ascii := ascii_of_nat 92.

Fixpoint contains_char (c : ascii) (s : string) : bool :=
  match s with
  | EmptyString => false
  | String d r => Ascii.eqb c d || contains_char c r
  end.

(** [n] in hexadecimal, on [width] digits. *)
Fixpoint hex (width : nat) (n : N) : string :=
  match width with
  | O => EmptyString
  | S w => hex w (n / 16) ++ String (hex_digit (N.to_nat (n mod 16))) EmptyString
  end.

(** The code points from 128 up that [str.isprintable] refuses (CPython
    3.11, Unicode 14.0), as ranges with both ends included: the controls,
    the format characters, the separators other than the ASCII space, the
    surrogates, the private use and the unassigned code points. *)
Definition unprintable_table : list (N * N) :=
  [
    (0x80, 0xA0); (0xAD, 0xAD); (0x378, 0x379); (0x380, 0x383);
    (0x38B, 0x38B); (0x38D, 0x38D); (0x3A2, 0x3A2); (0x530, 0x530);
    (0x557, 0x558); (0x58B, 0x58C); (0x590, 0x590); (0x5C8, 0x5CF);
    (0x5EB, 0x5EE); (0x5F5, 0x605); (0x61C, 0x61C); (0x6DD, 0x6DD);
    (0x70E, 0x70F); (0x74B, 0x74C); (0x7B2, 0x7BF); (0x7FB, 0x7FC);
    (0x82E, 0x82F); (0x83F, 0x83F); (0x85C, 0x85D); (0x85F, 0x85F);
    (0x86B, 0x86F); (0x88F, 0x897); (0x8E2, 0x8E2); (0x984, 0x984);
    (0x98D, 0x98E); (0x991, 0x992); (0x9A9, 0x9A9); (0x9B1, 0x9B1);
    (0x9B3, 0x9B5); (0x9BA, 0x9BB); (0x9C5, 0x9C6); (0x9C9, 0x9CA);
    (0x9CF, 0x9D6); (0x9D8, 0x9DB); (0x9DE, 0x9DE); (0x9E4, 0x9E5);
    (0x9FF, 0xA00); (0xA04, 0xA04); (0xA0B, 0xA0E); (0xA11, 0xA12);
    (0xA29, 0xA29); (0xA31, 0xA31); (0xA34, 0xA34); (0xA37, 0xA37);
    (0xA3A, 0xA3B); (0xA3D, 0xA3D); (0xA43, 0xA46); (0xA49, 0xA4A);
    (0xA4E, 0xA50); (0xA52, 0xA58); (0xA5D, 0xA5D); (0xA5F, 0xA65);
    (0xA77, 0xA80); (0xA84, 0xA84); (0xA8E, 0xA8E); (0xA92, 0xA92);
    (0xAA9, 0xAA9); (0xAB1, 0xAB1); (0xAB4, 0xAB4); (0xABA, 0xABB);
    (0xAC6, 0xAC6); (0xACA, 0xACA); (0xACE, 0xACF); (0xAD1, 0xADF);
    (0xAE4, 0xAE5); (0xAF2, 0xAF8); (0xB00, 0xB00); (0xB04, 0xB04);
    (0xB0D, 0xB0E); (0xB11, 0xB12); (0xB29, 0xB29); (0xB31, 0xB31);
    (0xB34, 0xB34); (0xB3A, 0xB3B); (0xB45, 0xB46); (0xB49, 0xB4A);
    (0xB4E, 0xB54); (0xB58, 0xB5B); (0xB5E, 0xB5E); (0xB64, 0xB65);
    (0xB78, 0xB81); (0xB84, 0xB84); (0xB8B, 0xB8D); (0xB91, 0xB91);
    (0xB96, 0xB98); (0xB9B, 0xB9B); (0xB9D, 0xB9D); (0xBA0, 0xBA2);
    (0xBA5, 0xBA7); (0xBAB, 0xBAD); (0xBBA, 0xBBD); (0xBC3, 0xBC5);
    (0xBC9, 0xBC9); (0xBCE, 0xBCF); (0xBD1, 0xBD6); (0xBD8, 0xBE5);
    (0xBFB, 0xBFF); (0xC0D, 0xC0D); (0xC11, 0xC11); (0xC29, 0xC29);
    (0xC3A, 0xC3B); (0xC45, 0xC45); (0xC49, 0xC49); (0xC4E, 0xC54);
    (0xC57, 0xC57); (0xC5B, 0xC5C); (0xC5E, 0xC5F); (0xC64, 0xC65);
    (0xC70, 0xC76); (0xC8D, 0xC8D); (0xC91, 0xC91); (0xCA9, 0xCA9);
    (0xCB4, 0xCB4); (0xCBA, 0xCBB); (0xCC5, 0xCC5); (0xCC9, 0xCC9);
    (0xCCE, 0xCD4); (0xCD7, 0xCDC); (0xCDF, 0xCDF); (0xCE4, 0xCE5);
    (0xCF0, 0xCF0); (0xCF3, 0xCFF); (0xD0D, 0xD0D); (0xD11, 0xD11);
    (0xD45, 0xD45); (0xD49, 0xD49); (0xD50, 0xD53); (0xD64, 0xD65);
    (0xD80, 0xD80); (0xD84, 0xD84); (0xD97, 0xD99); (0xDB2, 0xDB2);
    (0xDBC, 0xDBC); (0xDBE, 0xDBF); (0xDC7, 0xDC9); (0xDCB, 0xDCE);
    (0xDD5, 0xDD5); (0xDD7, 0xDD7); (0xDE0, 0xDE5); (0xDF0, 0xDF1);
    (0xDF5, 0xE00); (0xE3B, 0xE3E); (0xE5C, 0xE80); (0xE83, 0xE83);
    (0xE85, 0xE85); (0xE8B, 0xE8B); (0xEA4, 0xEA4); (0xEA6, 0xEA6);
    (0xEBE, 0xEBF); (0xEC5, 0xEC5); (0xEC7, 0xEC7); (0xECE, 0xECF);
    (0xEDA, 0xEDB); (0xEE0, 0xEFF); (0xF48, 0xF48); (0xF6D, 0xF70);
    (0xF98, 0xF98); (0xFBD, 0xFBD); (0xFCD, 0xFCD); (0xFDB, 0xFFF);
    (0x10C6, 0x10C6); (0x10C8, 0x10CC); (0x10CE, 0x10CF); (0x1249, 0x1249);
    (0x124E, 0x124F); (0x1257, 0x1257); (0x1259, 0x1259); (0x125E, 0x125F);
    (0x1289, 0x1289); (0x128E, 0x128F); (0x12B1, 0x12B1); (0x12B6, 0x12B7);
    (0x12BF, 0x12BF); (0x12C1, 0x12C1); (0x12C6, 0x12C7); (0x12D7, 0x12D7);
    (0x1311, 0x1311); (0x1316, 0x1317); (0x135B, 0x135C); (0x137D, 0x137F);
    (0x139A, 0x139F); (0x13F6, 0x13F7); (0x13FE, 0x13FF); (0x1680, 0x1680);
    (0x169D, 0x169F); (0x16F9, 0x16FF); (0x1716, 0x171E); (0x1737, 0x173F);
    (0x1754, 0x175F); (0x176D, 0x176D); (0x1771, 0x1771); (0x1774, 0x177F);
    (0x17DE, 0x17DF); (0x17EA, 0x17EF); (0x17FA, 0x17FF); (0x180E, 0x180E);
    (0x181A, 0x181F); (0x1879, 0x187F); (0x18AB, 0x18AF); (0x18F6, 0x18FF);
    (0x191F, 0x191F); (0x192C, 0x192F); (0x193C, 0x193F); (0x1941, 0x1943);
    (0x196E, 0x196F); (0x1975, 0x197F); (0x19AC, 0x19AF); (0x19CA, 0x19CF);
    (0x19DB, 0x19DD); (0x1A1C, 0x1A1D); (0x1A5F, 0x1A5F); (0x1A7D, 0x1A7E);
    (0x1A8A, 0x1A8F); (0x1A9A, 0x1A9F); (0x1AAE, 0x1AAF); (0x1ACF, 0x1AFF);
    (0x1B4D, 0x1B4F); (0x1B7F, 0x1B7F); (0x1BF4, 0x1BFB); (0x1C38, 0x1C3A);
    (0x1C4A, 0x1C4C); (0x1C89, 0x1C8F); (0x1CBB, 0x1CBC); (0x1CC8, 0x1CCF);
    (0x1CFB, 0x1CFF); (0x1F16, 0x1F17); (0x1F1E, 0x1F1F); (0x1F46, 0x1F47);
    (0x1F4E, 0x1F4F); (0x1F58, 0x1F58); (0x1F5A, 0x1F5A); (0x1F5C, 0x1F5C);
    (0x1F5E, 0x1F5E); (0x1F7E, 0x1F7F); (0x1FB5, 0x1FB5); (0x1FC5, 0x1FC5);
    (0x1FD4, 0x1FD5); (0x1FDC, 0x1FDC); (0x1FF0, 0x1FF1); (0x1FF5, 0x1FF5);
    (0x1FFF, 0x200F); (0x2028, 0x202F); (0x205F, 0x206F); (0x2072, 0x2073);
    (0x208F, 0x208F); (0x209D, 0x209F); (0x20C1, 0x20CF); (0x20F1, 0x20FF);
    (0x218C, 0x218F); (0x2427, 0x243F); (0x244B, 0x245F); (0x2B74, 0x2B75);
    (0x2B96, 0x2B96); (0x2CF4, 0x2CF8); (0x2D26, 0x2D26); (0x2D28, 0x2D2C);
    (0x2D2E, 0x2D2F); (0x2D68, 0x2D6E); (0x2D71, 0x2D7E); (0x2D97, 0x2D9F);
    (0x2DA7, 0x2DA7); (0x2DAF, 0x2DAF); (0x2DB7, 0x2DB7); (0x2DBF, 0x2DBF);
    (0x2DC7, 0x2DC7); (0x2DCF, 0x2DCF); (0x2DD7, 0x2DD7); (0x2DDF, 0x2DDF);
    (0x2E5E, 0x2E7F); (0x2E9A, 0x2E9A); (0x2EF4, 0x2EFF); (0x2FD6, 0x2FEF);
    (0x2FFC, 0x3000); (0x3040, 0x3040); (0x3097, 0x3098); (0x3100, 0x3104);
    (0x3130, 0x3130); (0x318F, 0x318F); (0x31E4, 0x31EF); (0x321F, 0x321F);
    (0xA48D, 0xA48F); (0xA4C7, 0xA4CF); (0xA62C, 0xA63F); (0xA6F8, 0xA6FF);
    (0xA7CB, 0xA7CF); (0xA7D2, 0xA7D2); (0xA7D4, 0xA7D4); (0xA7DA, 0xA7F1);
    (0xA82D, 0xA82F); (0xA83A, 0xA83F); (0xA878, 0xA87F); (0xA8C6, 0xA8CD);
    (0xA8DA, 0xA8DF); (0xA954, 0xA95E); (0xA97D, 0xA97F); (0xA9CE, 0xA9CE);
    (0xA9DA, 0xA9DD); (0xA9FF, 0xA9FF); (0xAA37, 0xAA3F); (0xAA4E, 0xAA4F);
    (0xAA5A, 0xAA5B); (0xAAC3, 0xAADA); (0xAAF7, 0xAB00); (0xAB07, 0xAB08);
    (0xAB0F, 0xAB10); (0xAB17, 0xAB1F); (0xAB27, 0xAB27); (0xAB2F, 0xAB2F);
    (0xAB6C, 0xAB6F); (0xABEE, 0xABEF); (0xABFA, 0xABFF); (0xD7A4, 0xD7AF);
    (0xD7C7, 0xD7CA); (0xD7FC, 0xF8FF); (0xFA6E, 0xFA6F); (0xFADA, 0xFAFF);
    (0xFB07, 0xFB12); (0xFB18, 0xFB1C); (0xFB37, 0xFB37); (0xFB3D, 0xFB3D);
    (0xFB3F, 0xFB3F); (0xFB42, 0xFB42); (0xFB45, 0xFB45); (0xFBC3, 0xFBD2);
    (0xFD90, 0xFD91); (0xFDC8, 0xFDCE); (0xFDD0, 0xFDEF); (0xFE1A, 0xFE1F);
    (0xFE53, 0xFE53); (0xFE67, 0xFE67); (0xFE6C, 0xFE6F); (0xFE75, 0xFE75);
    (0xFEFD, 0xFF00); (0xFFBF, 0xFFC1); (0xFFC8, 0xFFC9); (0xFFD0, 0xFFD1);
    (0xFFD8, 0xFFD9); (0xFFDD, 0xFFDF); (0xFFE7, 0xFFE7); (0xFFEF, 0xFFFB);
    (0xFFFE, 0xFFFF); (0x1000C, 0x1000C); (0x10027, 0x10027);
    (0x1003B, 0x1003B); (0x1003E, 0x1003E); (0x1004E, 0x1004F);
    (0x1005E, 0x1007F); (0x100FB, 0x100FF); (0x10103, 0x10106);
    (0x10134, 0x10136); (0x1018F, 0x1018F); (0x1019D, 0x1019F);
    (0x101A1, 0x101CF); (0x101FE, 0x1027F); (0x1029D, 0x1029F);
    (0x102D1, 0x102DF); (0x102FC, 0x102FF); (0x10324, 0x1032C);
    (0x1034B, 0x1034F); (0x1037B, 0x1037F); (0x1039E, 0x1039E);
    (0x103C4, 0x103C7); (0x103D6, 0x103FF); (0x1049E, 0x1049F);
    (0x104AA, 0x104AF); (0x104D4, 0x104D7); (0x104FC, 0x104FF);
    (0x10528, 0x1052F); (0x10564, 0x1056E); (0x1057B, 0x1057B);
    (0x1058B, 0x1058B); (0x10593, 0x10593); (0x10596, 0x10596);
    (0x105A2, 0x105A2); (0x105B2, 0x105B2); (0x105BA, 0x105BA);
    (0x105BD, 0x105FF); (0x10737, 0x1073F); (0x10756, 0x1075F);
    (0x10768, 0x1077F); (0x10786, 0x10786); (0x107B1, 0x107B1);
    (0x107BB, 0x107FF); (0x10806, 0x10807); (0x10809, 0x10809);
    (0x10836, 0x10836); (0x10839, 0x1083B); (0x1083D, 0x1083E);
    (0x10856, 0x10856); (0x1089F, 0x108A6); (0x108B0, 0x108DF);
    (0x108F3, 0x108F3); (0x108F6, 0x108FA); (0x1091C, 0x1091E);
    (0x1093A, 0x1093E); (0x10940, 0x1097F); (0x109B8, 0x109BB);
    (0x109D0, 0x109D1); (0x10A04, 0x10A04); (0x10A07, 0x10A0B);
    (0x10A14, 0x10A14); (0x10A18, 0x10A18); (0x10A36, 0x10A37);
    (0x10A3B, 0x10A3E); (0x10A49, 0x10A4F); (0x10A59, 0x10A5F);
    (0x10AA0, 0x10ABF); (0x10AE7, 0x10AEA); (0x10AF7, 0x10AFF);
    (0x10B36, 0x10B38); (0x10B56, 0x10B57); (0x10B73, 0x10B77);
    (0x10B92, 0x10B98); (0x10B9D, 0x10BA8); (0x10BB0, 0x10BFF);
    (0x10C49, 0x10C7F); (0x10CB3, 0x10CBF); (0x10CF3, 0x10CF9);
    (0x10D28, 0x10D2F); (0x10D3A, 0x10E5F); (0x10E7F, 0x10E7F);
    (0x10EAA, 0x10EAA); (0x10EAE, 0x10EAF); (0x10EB2, 0x10EFF);
    (0x10F28, 0x10F2F); (0x10F5A, 0x10F6F); (0x10F8A, 0x10FAF);
    (0x10FCC, 0x10FDF); (0x10FF7, 0x10FFF); (0x1104E, 0x11051);
    (0x11076, 0x1107E); (0x110BD, 0x110BD); (0x110C3, 0x110CF);
    (0x110E9, 0x110EF); (0x110FA, 0x110FF); (0x11135, 0x11135);
    (0x11148, 0x1114F); (0x11177, 0x1117F); (0x111E0, 0x111E0);
    (0x111F5, 0x111FF); (0x11212, 0x11212); (0x1123F, 0x1127F);
    (0x11287, 0x11287); (0x11289, 0x11289); (0x1128E, 0x1128E);
    (0x1129E, 0x1129E); (0x112AA, 0x112AF); (0x112EB, 0x112EF);
    (0x112FA, 0x112FF); (0x11304, 0x11304); (0x1130D, 0x1130E);
    (0x11311, 0x11312); (0x11329, 0x11329); (0x11331, 0x11331);
    (0x11334, 0x11334); (0x1133A, 0x1133A); (0x11345, 0x11346);
    (0x11349, 0x1134A); (0x1134E, 0x1134F); (0x11351, 0x11356);
    (0x11358, 0x1135C); (0x11364, 0x11365); (0x1136D, 0x1136F);
    (0x11375, 0x113FF); (0x1145C, 0x1145C); (0x11462, 0x1147F);
    (0x114C8, 0x114CF); (0x114DA, 0x1157F); (0x115B6, 0x115B7);
    (0x115DE, 0x115FF); (0x11645, 0x1164F); (0x1165A, 0x1165F);
    (0x1166D, 0x1167F); (0x116BA, 0x116BF); (0x116CA, 0x116FF);
    (0x1171B, 0x1171C); (0x1172C, 0x1172F); (0x11747, 0x117FF);
    (0x1183C, 0x1189F); (0x118F3, 0x118FE); (0x11907, 0x11908);
    (0x1190A, 0x1190B); (0x11914, 0x11914); (0x11917, 0x11917);
    (0x11936, 0x11936); (0x11939, 0x1193A); (0x11947, 0x1194F);
    (0x1195A, 0x1199F); (0x119A8, 0x119A9); (0x119D8, 0x119D9);
    (0x119E5, 0x119FF); (0x11A48, 0x11A4F); (0x11AA3, 0x11AAF);
    (0x11AF9, 0x11BFF); (0x11C09, 0x11C09); (0x11C37, 0x11C37);
    (0x11C46, 0x11C4F); (0x11C6D, 0x11C6F); (0x11C90, 0x11C91);
    (0x11CA8, 0x11CA8); (0x11CB7, 0x11CFF); (0x11D07, 0x11D07);
    (0x11D0A, 0x11D0A); (0x11D37, 0x11D39); (0x11D3B, 0x11D3B);
    (0x11D3E, 0x11D3E); (0x11D48, 0x11D4F); (0x11D5A, 0x11D5F);
    (0x11D66, 0x11D66); (0x11D69, 0x11D69); (0x11D8F, 0x11D8F);
    (0x11D92, 0x11D92); (0x11D99, 0x11D9F); (0x11DAA, 0x11EDF);
    (0x11EF9, 0x11FAF); (0x11FB1, 0x11FBF); (0x11FF2, 0x11FFE);
    (0x1239A, 0x123FF); (0x1246F, 0x1246F); (0x12475, 0x1247F);
    (0x12544, 0x12F8F); (0x12FF3, 0x12FFF); (0x1342F, 0x143FF);
    (0x14647, 0x167FF); (0x16A39, 0x16A3F); (0x16A5F, 0x16A5F);
    (0x16A6A, 0x16A6D); (0x16ABF, 0x16ABF); (0x16ACA, 0x16ACF);
    (0x16AEE, 0x16AEF); (0x16AF6, 0x16AFF); (0x16B46, 0x16B4F);
    (0x16B5A, 0x16B5A); (0x16B62, 0x16B62); (0x16B78, 0x16B7C);
    (0x16B90, 0x16E3F); (0x16E9B, 0x16EFF); (0x16F4B, 0x16F4E);
    (0x16F88, 0x16F8E); (0x16FA0, 0x16FDF); (0x16FE5, 0x16FEF);
    (0x16FF2, 0x16FFF); (0x187F8, 0x187FF); (0x18CD6, 0x18CFF);
    (0x18D09, 0x1AFEF); (0x1AFF4, 0x1AFF4); (0x1AFFC, 0x1AFFC);
    (0x1AFFF, 0x1AFFF); (0x1B123, 0x1B14F); (0x1B153, 0x1B163);
    (0x1B168, 0x1B16F); (0x1B2FC, 0x1BBFF); (0x1BC6B, 0x1BC6F);
    (0x1BC7D, 0x1BC7F); (0x1BC89, 0x1BC8F); (0x1BC9A, 0x1BC9B);
    (0x1BCA0, 0x1CEFF); (0x1CF2E, 0x1CF2F); (0x1CF47, 0x1CF4F);
    (0x1CFC4, 0x1CFFF); (0x1D0F6, 0x1D0FF); (0x1D127, 0x1D128);
    (0x1D173, 0x1D17A); (0x1D1EB, 0x1D1FF); (0x1D246, 0x1D2DF);
    (0x1D2F4, 0x1D2FF); (0x1D357, 0x1D35F); (0x1D379, 0x1D3FF);
    (0x1D455, 0x1D455); (0x1D49D, 0x1D49D); (0x1D4A0, 0x1D4A1);
    (0x1D4A3, 0x1D4A4); (0x1D4A7, 0x1D4A8); (0x1D4AD, 0x1D4AD);
    (0x1D4BA, 0x1D4BA); (0x1D4BC, 0x1D4BC); (0x1D4C4, 0x1D4C4);
    (0x1D506, 0x1D506); (0x1D50B, 0x1D50C); (0x1D515, 0x1D515);
    (0x1D51D, 0x1D51D); (0x1D53A, 0x1D53A); (0x1D53F, 0x1D53F);
    (0x1D545, 0x1D545); (0x1D547, 0x1D549); (0x1D551, 0x1D551);
    (0x1D6A6, 0x1D6A7); (0x1D7CC, 0x1D7CD); (0x1DA8C, 0x1DA9A);
    (0x1DAA0, 0x1DAA0); (0x1DAB0, 0x1DEFF); (0x1DF1F, 0x1DFFF);
    (0x1E007, 0x1E007); (0x1E019, 0x1E01A); (0x1E022, 0x1E022);
    (0x1E025, 0x1E025); (0x1E02B, 0x1E0FF); (0x1E12D, 0x1E12F);
    (0x1E13E, 0x1E13F); (0x1E14A, 0x1E14D); (0x1E150, 0x1E28F);
    (0x1E2AF, 0x1E2BF); (0x1E2FA, 0x1E2FE); (0x1E300, 0x1E7DF);
    (0x1E7E7, 0x1E7E7); (0x1E7EC, 0x1E7EC); (0x1E7EF, 0x1E7EF);
    (0x1E7FF, 0x1E7FF); (0x1E8C5, 0x1E8C6); (0x1E8D7, 0x1E8FF);
    (0x1E94C, 0x1E94F); (0x1E95A, 0x1E95D); (0x1E960, 0x1EC70);
    (0x1ECB5, 0x1ED00); (0x1ED3E, 0x1EDFF); (0x1EE04, 0x1EE04);
    (0x1EE20, 0x1EE20); (0x1EE23, 0x1EE23); (0x1EE25, 0x1EE26);
    (0x1EE28, 0x1EE28); (0x1EE33, 0x1EE33); (0x1EE38, 0x1EE38);
    (0x1EE3A, 0x1EE3A); (0x1EE3C, 0x1EE41); (0x1EE43, 0x1EE46);
    (0x1EE48, 0x1EE48); (0x1EE4A, 0x1EE4A); (0x1EE4C, 0x1EE4C);
    (0x1EE50, 0x1EE50); (0x1EE53, 0x1EE53); (0x1EE55, 0x1EE56);
    (0x1EE58, 0x1EE58); (0x1EE5A, 0x1EE5A); (0x1EE5C, 0x1EE5C);
    (0x1EE5E, 0x1EE5E); (0x1EE60, 0x1EE60); (0x1EE63, 0x1EE63);
    (0x1EE65, 0x1EE66); (0x1EE6B, 0x1EE6B); (0x1EE73, 0x1EE73);
    (0x1EE78, 0x1EE78); (0x1EE7D, 0x1EE7D); (0x1EE7F, 0x1EE7F);
    (0x1EE8A, 0x1EE8A); (0x1EE9C, 0x1EEA0); (0x1EEA4, 0x1EEA4);
    (0x1EEAA, 0x1EEAA); (0x1EEBC, 0x1EEEF); (0x1EEF2, 0x1EFFF);
    (0x1F02C, 0x1F02F); (0x1F094, 0x1F09F); (0x1F0AF, 0x1F0B0);
    (0x1F0C0, 0x1F0C0); (0x1F0D0, 0x1F0D0); (0x1F0F6, 0x1F0FF);
    (0x1F1AE, 0x1F1E5); (0x1F203, 0x1F20F); (0x1F23C, 0x1F23F);
    (0x1F249, 0x1F24F); (0x1F252, 0x1F25F); (0x1F266, 0x1F2FF);
    (0x1F6D8, 0x1F6DC); (0x1F6ED, 0x1F6EF); (0x1F6FD, 0x1F6FF);
    (0x1F774, 0x1F77F); (0x1F7D9, 0x1F7DF); (0x1F7EC, 0x1F7EF);
    (0x1F7F1, 0x1F7FF); (0x1F80C, 0x1F80F); (0x1F848, 0x1F84F);
    (0x1F85A, 0x1F85F); (0x1F888, 0x1F88F); (0x1F8AE, 0x1F8AF);
    (0x1F8B2, 0x1F8FF); (0x1FA54, 0x1FA5F); (0x1FA6E, 0x1FA6F);
    (0x1FA75, 0x1FA77); (0x1FA7D, 0x1FA7F); (0x1FA87, 0x1FA8F);
    (0x1FAAD, 0x1FAAF); (0x1FABB, 0x1FABF); (0x1FAC6, 0x1FACF);
    (0x1FADA, 0x1FADF); (0x1FAE8, 0x1FAEF); (0x1FAF7, 0x1FAFF);
    (0x1FB93, 0x1FB93); (0x1FBCB, 0x1FBEF); (0x1FBFA, 0x1FFFF);
    (0x2A6E0, 0x2A6FF); (0x2B739, 0x2B73F); (0x2B81E, 0x2B81F);
    (0x2CEA2, 0x2CEAF); (0x2EBE1, 0x2F7FF); (0x2FA1E, 0x2FFFF);
    (0x3134B, 0xE00FF); (0xE01F0, 0x10FFFF)
  ]%N.

Fixpoint in_ranges (cp : N) (table : list (N * N)) : bool :=
  match table with
  | [] => false
  | (lo, hi) :: rest => ((lo <=? cp) && (cp <=? hi))%N || in_ranges cp rest
  end.

(** One ASCII character of [repr(s)] inside the quotes [q]. *)
Definition escape_char (q c : ascii) : string :=
  let n := nat_of_ascii c in
  if Ascii.eqb c backslash then String backslash (String backslash EmptyString)
  else if Ascii.eqb c q then String backslash (String q EmptyString)
  else if (n =? 10)%nat then String backslash "n"
  else if (n =? 13)%nat then String backslash "r"
  else if (n =? 9)%nat then String backslash "t"
  else if (n <? 32)%nat || (n =? 127)%nat then
    String backslash (String "x" (String (hex_digit (n / 16)) (String (hex_digit (n mod 16)) EmptyString)))
  else String c EmptyString.

(** One character of [repr(s)] beyond ASCII: [original] is the character as
    it stands in the text, [cp] its code point.  A printable character is
    copied; another is written as its code point on two, four or eight
    hexadecimal digits. *)
Definition escape_cp (cp : N) (original : string) : string :=
  if negb (in_ranges cp unprintable_table) then original
  else if (cp <? 0x100)%N then String backslash (String "x" (hex 2 cp))
  else if (cp <? 0x10000)%N then String backslash (String "u" (hex 4 cp))
  else String backslash (String "U" (hex 8 cp)).

(** One character of [repr(s)], as [chars] cuts the text. *)
Definition escape_one (q : ascii) (ch : string) : string :=
  match ch with
  | String c EmptyString => if (byte c <? 0x80)%N then escape_char q c else ch
  | String c (String d EmptyString) => escape_cp (cp2 c d) ch
  | String c (String d (String e EmptyString)) => escape_cp (cp3 c d e) ch
  | String c (String d (String e (String f EmptyString))) => escape_cp (cp4 c d e f) ch
  | _ => ch
  end.

Definition escape (q : ascii) (s : string) : string :=
  String.concat "" (map (escape_one q) (chars s)).

(** [repr(s)] of a str: single quotes, unless the text has a single quote
    and no double quote; inside them the backslash, the quote and the
    characters that are not printable are escaped. *)
Definition repr_str (s : string) : string :=
  let q := if contains_char quote1 s && negb (contains_char quote2 s)
           then quote2 else quote1 in
  String q (escape q s ++ String q EmptyString).

Definition str_of_Z (n : Z) : string := NilZero.string_of_int (Z.to_int n).

(** [repr(v)]. *)
Fixpoint repr (v : value) : string :=
  match v with
  | VNone => "None"
  | VBool b => if b then "True" else "False"
  | VInt n => str_of_Z n
  | VStr s => repr_str s
  | VList xs => "[" ++ join ", " (map repr xs) ++ "]"
  | VDict kvs =>
      "{" ++ join ", " (map (fun kv => let '(k, x) := kv in
                                       repr_str k ++ ": " ++ repr x) kvs) ++ "}"
  | VObj _ _ _ r => r
  | VGenerated _ _ _ _ r => r
  end.

(** [str(v)], which is also what an f-string field [{v}] prints; printing a
    [VGenerated] runs its own code. *)
Definition str (v : value) : answer string :=
  match v with
  | VStr s => Gives s
  | VObj _ _ s _ => Gives s
  | VGenerated _ _ _ s _ => s
  | _ => Gives (repr v)
  end.

(** [a == b]: numbers by value ([True == 1]), text by content, lists
    point-wise, dicts by their bindings, objects by identity. *)
Fixpoint eq (a b : value) {struct a} : bool :=
  match a, b with
  | VNone, VNone => true
  | VBool x, VBool y => Bool.eqb x y
  | VBool x, VInt n => (n =? (if x then 1 else 0))%Z
  | VInt n, VBool x => (n =? (if x then 1 else 0))%Z
  | VInt n, VInt m => (n =? m)%Z
  | VStr s, VStr t => (s =? t)
  | VList xs, VList ys =>
      (fix go (xs ys : list value) : bool :=
         match xs, ys with
         | [], [] => true
         | x :: xs', y :: ys' => eq x y && go xs' ys'
         | _, _ => false
         end) xs ys
  | VDict kvs, VDict kvs' =>
      (List.length kvs =? List.length kvs')%nat &&
      (fix go (kvs : list (string * value)) : bool :=
         match kvs with
         | [] => true
         | (k, x) :: rest =>
             match lookup k kvs' with
             | Some y => eq x y
             | None => false
             end && go rest
         end) kvs
  | VObj i _ _ _, VObj j _ _ _ => (i =? j)%nat
  | VGenerated i _ _ _ _, VGenerated j _ _ _ _ => (i =? j)%nat
  | _, _ => false
  end.

(** [a != b]. *)
Definition ne (a b : value) : bool := negb (eq a b).

End Py.

(* ================================================================== *)
(** ** Effects: collaborator calls, their log, exceptions *)
(* ================================================================== *)

Module Eff.
Import Py.

(** A query as the store's builder chain describes it:
    [supabase.table(t).select(cols).eq(col, val).order(o, desc=False)
    .limit(n).single()], each of the last three optional. *)
Record query : Type := {
  q_table : string;
  q_columns : string;
  q_eq : string * string;
  q_order : option string;
  q_limit : option nat;
  q_single : bool
}.

(** One call to a collaborator, with what is passed to it. *)
Inductive call : Type :=
| AuthGetUser (token : string)
| StoreSelect (q : query)
| StoreInsert (table : string) (rows : value)
| ModelGenerate (model prompt : string).

Definition is_store_call (c : call) : bool :=
  match c with StoreSelect _ | StoreInsert _ _ => true | _ => false end.
Definition is_model_call (c : call) : bool :=
  match c with ModelGenerate _ _ => true | _ => false end.

(** What a collaborator call does: it returns a value or it raises.  The
    collaborators are third-party SDKs: what they raise is an exception of
    their own classes (below [Exception]), with a class name and a message;
    it is never the web framework's [HTTPException]. *)
Inductive outcome : Type :=
| Returns (v : value)
| Raises (cls msg : string).

(** The exceptions that travel through a handler: the framework's
    [HTTPException], the errors the interpreter and pydantic raise on
    ill-typed values, and whatever a collaborator raised.  All of them are
    below [Exception], so [except Exception] catches every one. *)
Inductive exn : Type :=
| HTTPException (status_code : Z) (detail : string)
| AttributeError
| TypeError
| IndexError
| ValidationError
| CollaboratorError (cls msg : string).

Inductive result (A : Type) : Type :=
| Ok (a : A)
| Err (e : exn).
Arguments Ok {A} a.
Arguments Err {A} e.

Section Monad.

(** The state of the outside world (token registry, tables, model), which
    only the collaborators read and write. *)
Variable W : Type.

(** The collaborators of one deployment. *)
Definition sdk : Type := call -> W -> outcome * W.

Record state : Type := { world : W; log : list call }.

Definition M (A : Type) : Type := state -> result A * state.

Definition ret {A : Type} (a : A) : M A := fun st => (Ok a, st).

Definition raise {A : Type} (e : exn) : M A := fun st => (Err e, st).

Definition bind {A B : Type} (m : M A) (k : A -> M B) : M B :=
  fun st =>
    match m st with
    | (Ok a, st') => k a st'
    | (Err e, st') => (Err e, st')
    end.

(** [try: m  except ...: h e]. *)
Definition try_except {A : Type} (m : M A) (h : exn -> M A) : M A :=
  fun st =>
    match m st with
    | (Ok a, st') => (Ok a, st')
    | (Err e, st') => h e st'
    end.

(** A pure computation that may raise. *)
Definition lift {A : Type} (r : result A) : M A := fun st => (r, st).

(** Calling a collaborator: the call is logged, the world moves on. *)
Definition invoke (env : sdk) (c : call) : M value :=
  fun st =>
    let (o, w') := env c (world st) in
    let st' := {| world := w'; log := log st ++ [c] |} in
    match o with
    | Returns v => (Ok v, st')
    | Raises cls msg => (Err (CollaboratorError cls msg), st')
    end.

End Monad.

Arguments ret {W A} a.
Arguments raise {W A} e.
Arguments bind {W A B} m k.
Arguments try_except {W A} m h.
Arguments lift {W A} r.
Arguments invoke {W} env c.
Arguments world {W} s.
Arguments log {W} s.

End Eff.

Declare Scope eff_scope.
Delimit Scope eff_scope with eff.
Notation "x <- m ;; k" := (Eff.bind m (fun x => k))
  (at level 61, m at next level, right associativity) : eff_scope.
Notation "m ;;; k" := (Eff.bind m (fun _ => k))
  (at level 61, right associativity) : eff_scope.

(* ================================================================== *)
(** ** The handlers of backend/main.py *)
(* ================================================================== *)

Module Backend.
Import Py Eff.
Local Open Scope eff_scope.

(** *** Models *)

Record StartConversationReq : Type := { title : option string }.
Record ChatReq : Type := { conversation_id : string; message : string }.
Record ChatResp : Type := { reply : string }.

(** [ChatResp(reply=v)]: the field is declared [reply: str]; a str is taken
    as it is, anything else is refused by the model's validation. *)
Definition ChatResp_new (v : value) : result ChatResp :=
  match v with
  | VStr s => Ok {| reply := s |}
  | _ => Err ValidationError
  end.

(** *** Operations on values that may raise *)

Definition and_then {A B : Type} (r : result A) (k : A -> result B) : result B :=
  match r with
  | Ok a => k a
  | Err e => Err e
  end.

(** An exception raised by an object's own code is an exception of the
    SDK the object comes from. *)
Definition of_answer {A : Type} (a : answer A) : result A :=
  match a with
  | Gives x => Ok x
  | Throws cls msg => Err (CollaboratorError cls msg)
  end.

(** [v.get(k, default)] on a value of unknown type: only a dict has [get]. *)
Definition method_get (v : value) (k : string) (default : value) : result value :=
  match v with
  | VDict kvs => Ok (dict_get kvs k default)
  | _ => Err AttributeError
  end.

(** [v.upper()]: only a str has [upper]. *)
Definition method_upper (v : value) : result string :=
  match v with
  | VStr s => Ok (upper s)
  | _ => Err AttributeError
  end.

(** [xs[i]] on a list of strings. *)
Definition item (i : nat) (xs : list string) : result string :=
  match nth_error xs i with
  | Some x => Ok x
  | None => Err IndexError
  end.

(** The values the loop [for h in history[-8:]] visits.  A list gives its
    last eight elements, a str its last eight characters; the other types
    cannot be sliced (a dict refuses the slice as a key). *)
Definition slice_last8 (history : value) : result (list value) :=
  match history with
  | VList xs => Ok (last_n 8 xs)
  | VStr s => Ok (map VStr (last_n 8 (chars s)))
  | _ => Err TypeError
  end.

(** *** The prompt (chat, lines 146-156) *)

(** [h.get(name) if isinstance(h, dict) else getattr(h, name, "")]. *)
Definition field (h : value) (name : string) : result value :=
  match h with
  | VDict kvs => Ok (dict_get kvs name VNone)
  | _ => of_answer (read h name (VStr ""))
  end.

(** One pass of the loop body: the two fields are read, then the f-string
    is built, the role in upper case first and the content printed after
    it; the text is appended to [parts]. *)
Definition render (h : value) : result string :=
  and_then (field h "role") (fun role =>
  and_then (field h "content") (fun content =>
  and_then (method_upper role) (fun r =>
  and_then (of_answer (str content)) (fun c =>
  Ok (r ++ ": " ++ c))))).

(** The loop: it stops at the first record that raises. *)
Fixpoint render_all (hs : list value) : result (list string) :=
  match hs with
  | [] => Ok []
  | h :: rest =>
      and_then (render h) (fun p =>
      and_then (render_all rest) (fun ps => Ok (p :: ps)))
  end.

(** [parts] once the line of the new message is appended. *)
Definition prompt_parts (history : value) (user_msg : string) : result (list string) :=
  and_then (slice_last8 history) (fun hs =>
  and_then (render_all hs) (fun parts =>
  Ok (List.app parts ["USER: " ++ user_msg]))).

Definition build_prompt (history : value) (user_msg : string) : result string :=
  and_then (prompt_parts history user_msg) (fun parts => Ok (join newline parts)).

(** [(payload.message or "").strip()]. *)
Definition user_msg_of (payload : ChatReq) : string :=
  strip (if message payload =? "" then "" else message payload).

Definition fallback_reply : string :=
  "Sorry, I couldn't generate a response right now.".

(** [getattr(result, "text", None) or getattr(result, "content", None)
    or str(result)], from left to right: an operand is evaluated only when
    those before it are falsy, and what its evaluation raises goes on to
    the [except] around it. *)
Definition extract_reply (result : value) : Eff.result value :=
  and_then (of_answer (read result "text" VNone)) (fun text =>
  if truthy text then Ok text
  else
    and_then (of_answer (read result "content" VNone)) (fun content =>
    if truthy content then Ok content
    else and_then (of_answer (str result)) (fun s => Ok (VStr s)))).

(** *** The shapes of the identity service's answer (lines 66-81) *)

(** [user_obj]: the [user] attribute of an object when it is there and
    truthy, else, for a dict, [resp.get("data", {}).get("user") or
    resp.get("user")], else [None]. *)
Definition extract_user (resp : value) : result value :=
  if hasattr resp "user" && truthy (getattr resp "user" VNone)
  then Ok (getattr resp "user" VNone)
  else match resp with
       | VDict kvs =>
           and_then (method_get (dict_get kvs "data" (VDict [])) "user" VNone)
             (fun data_user => Ok (por data_user (dict_get kvs "user" VNone)))
       | _ => Ok VNone
       end.

(** [user_id]: [user_obj.get("id")] for a dict, [getattr(user_obj, "id",
    None)] otherwise. *)
Definition extract_id (user_obj : value) : value :=
  match user_obj with
  | VDict kvs => dict_get kvs "id" VNone
  | _ => getattr user_obj "id" VNone
  end.

(** *** HTTP *)

Record response : Type := { status : Z; body : value }.

(** What the framework sends for the way a handler ends: 200 with the
    returned value, the status and detail of an [HTTPException], 500 for
    any other exception. *)
Definition respond (r : result value) : response :=
  match r with
  | Ok v => {| status := 200; body := v |}
  | Err (HTTPException s d) => {| status := s; body := VDict [("detail", VStr d)] |}
  | Err _ => {| status := 500; body := VStr "Internal Server Error" |}
  end.

Definition messages_query (cid : string) (cols : string) (lim : option nat) : query :=
  {| q_table := "chat_messages"; q_columns := cols;
     q_eq := ("conversation_id", cid); q_order := Some "created_at";
     q_limit := lim; q_single := false |}.

Definition conversation_query (cid : string) : query :=
  {| q_table := "conversations"; q_columns := "*";
     q_eq := ("id", cid); q_order := None;
     q_limit := None; q_single := true |}.

(** The three collaborator calls of [chat]: the select of the recent
    messages (lines 136-143), [generate_content] on the fixed model (lines
    161-163) and the insert of the two new rows (lines 172-185). *)
Definition history_call (payload : ChatReq) : call :=
  StoreSelect (messages_query (conversation_id payload) "role, content" (Some 20)).

Definition generate_call (prompt : string) : call :=
  ModelGenerate "gemini-2.0-flash" prompt.

Definition insert_call (payload : ChatReq) (user_id : value) (user_msg : string)
    (reply_text : value) : call :=
  StoreInsert "chat_messages"
    (VList [ VDict [("conversation_id", VStr (conversation_id payload));
                    ("user_id", user_id);
                    ("role", VStr "user");
                    ("content", VStr user_msg)];
             VDict [("conversation_id", VStr (conversation_id payload));
                    ("user_id", user_id);
                    ("role", VStr "assistant");
                    ("content", reply_text)] ]).

(** [getattr(history_resp, "data", []) or []]. *)
Definition history_of (history_resp : value) : value :=
  por (getattr history_resp "data" (VList [])) (VList []).

Section Handlers.

Variable W : Type.
Variable env : sdk W.

(** *** Auth helper (lines 51-90) *)

(** The part of [get_user_id] inside [try:], before the [except] clauses. *)
Definition validate_token (token : string) : M W value :=
  resp <- invoke env (AuthGetUser token) ;;
  user_obj <- lift (extract_user resp) ;;
  if negb (truthy user_obj)
  then raise (HTTPException 401 "Invalid token")
  else
    let user_id := extract_id user_obj in
    if negb (truthy user_id)
    then raise (HTTPException 401 "Invalid token")
    else ret user_id.

Definition get_user_id (authorization : option string) : M W value :=
  match authorization with
  | None => raise (HTTPException 401 "Missing bearer token")
  | Some a =>
      if negb (truthy (VStr a)) || negb (startswith "bearer " (lower a))
      then raise (HTTPException 401 "Missing bearer token")
      else
        token <- lift (item 1 (split_space_once a)) ;;
        try_except (validate_token token)
          (fun e =>
             match e with
             | HTTPException _ _ => raise e
             | _ => raise (HTTPException 401 "Invalid token")
             end)
  end.

(** *** Routes *)

(** [POST /start-conversation] (lines 97-114). *)
Definition start_conversation (payload : StartConversationReq) (user_id : value)
  : M W value :=
  let title :=
    match title payload with
    | Some t => if t =? "" then "New Conversation" else t
    | None => "New Conversation"
    end in
  conv <- invoke env (StoreInsert "conversations"
                        (VDict [("user_id", user_id); ("title", VStr title)])) ;;
  let conv_data := por (getattr conv "data" VNone) (VList []) in
  conv_id <-
    match conv_data with
    | VList (first :: _) => lift (method_get first "id" VNone)
    | VDict kvs => ret (dict_get kvs "id" VNone)
    | _ => ret VNone
    end ;;
  if negb (truthy conv_id)
  then raise (HTTPException 500 "Failed to create conversation")
  else ret (VDict [("conversation_id", conv_id)]).

(** [not conv_data or (isinstance(conv_data, dict)
    and conv_data.get("user_id") != user_id)]. *)
Definition not_found (conv_data user_id : value) : bool :=
  negb (truthy conv_data) ||
  match conv_data with
  | VDict kvs => ne (dict_get kvs "user_id" VNone) user_id
  | _ => false
  end.

(** [GET /history/{conversation_id}] (lines 116-131). *)
Definition history (conversation_id : string) (user_id : value) : M W value :=
  conv <- invoke env (StoreSelect (conversation_query conversation_id)) ;;
  let conv_data := getattr conv "data" VNone in
  if not_found conv_data user_id
  then raise (HTTPException 404 "Conversation not found")
  else
    msgs <- invoke env (StoreSelect (messages_query conversation_id "*" None)) ;;
    ret (VDict [("messages", por (getattr msgs "data" (VList [])) (VList []))]).

(** The model call with its fallback (lines 158-168). *)
Definition generate_reply (prompt : string) : M W value :=
  try_except
    (result <- invoke env (generate_call prompt) ;;
     lift (extract_reply result))
    (fun _ => ret (VStr fallback_reply)).

(** The best-effort insert of the two messages (lines 170-188). *)
Definition persist (payload : ChatReq) (user_id : value) (user_msg : string)
    (reply_text : value) : M W unit :=
  try_except
    (invoke env (insert_call payload user_id user_msg reply_text) ;;; ret tt)
    (fun _ => ret tt).

(** [POST /chat] (lines 133-190). *)
Definition chat (payload : ChatReq) (user_id : value) : M W ChatResp :=
  history_resp <- invoke env (history_call payload) ;;
  let history := history_of history_resp in
  let user_msg := user_msg_of payload in
  prompt <- lift (build_prompt history user_msg) ;;
  reply_text <- generate_reply prompt ;;
  persist payload user_id user_msg reply_text ;;;
  lift (ChatResp_new reply_text).

(** *** The protected routes behind [Depends(get_user_id)] *)

Inductive request : Type :=
| StartConversation (payload : StartConversationReq)
| History (conversation_id : string)
| Chat (payload : ChatReq).

Definition dump (r : ChatResp) : value := VDict [("reply", VStr (reply r))].

Definition handle (authorization : option string) (r : request) : M W value :=
  user_id <- get_user_id authorization ;;
  match r with
  | StartConversation payload => start_conversation payload user_id
  | History cid => history cid user_id
  | Chat payload => resp <- chat payload user_id ;; ret (dump resp)
  end.

(** One request served from a given state: the response and the state after. *)
Definition serve (authorization : option string) (r : request) (st : state W)
  : response * state W :=
  let (res, st') := handle authorization r st in (respond res, st').

End Handlers.

Arguments validate_token {W} env token.
Arguments get_user_id {W} env authorization.
Arguments start_conversation {W} env payload user_id.
Arguments history {W} env conversation_id user_id.
Arguments generate_reply {W} env prompt.
Arguments persist {W} env payload user_id user_msg reply_text.
Arguments chat {W} env payload user_id.
Arguments handle {W} env authorization r.
Arguments serve {W} env authorization r st.

End Backend.

(* ================================================================== *)
(** ** Start-up settings (main.py, lines 13-21) *)
(* ================================================================== *)

Module Config.
Import Py.

(** The process environment once [load_dotenv()] has run: [os.getenv(name)]
    is [environ name]. *)
Definition environ : Type := string -> option string.

(** [os.getenv(name, default)]. *)
Definition getenv (e : environ) (name default : string) : string :=
  match e name with
  | Some v => v
  | None => default
  end.

(** The truth value of [os.getenv(name)]: set, and not the empty text. *)
Definition present (e : environ) (name : string) : bool :=
  match e name with
  | Some v => negb (v =? "")
  | None => false
  end.

Record settings : Type := {
  SUPABASE_URL : string;
  SUPABASE_SERVICE_KEY : string;
  GEMINI_API_KEY : string;
  ALLOWED_ORIGINS : list string
}.

(** [os.getenv("ALLOWED_ORIGINS","*").split(",")]. *)
Definition allowed_origins (e : environ) : list string :=
  split_on ","%char (getenv e "ALLOWED_ORIGINS" "*").

(** The module body up to the check of line 20: the settings, or the
    message of the [RuntimeError] that stops the process. *)
Definition load (e : environ) : string + settings :=
  if negb (present e "SUPABASE_URL" && present e "SUPABASE_SERVICE_KEY"
           && present e "GEMINI_API_KEY")
  then inl "Missing env vars for Supabase/Gemini"
  else inr {| SUPABASE_URL := getenv e "SUPABASE_URL" "";
              SUPABASE_SERVICE_KEY := getenv e "SUPABASE_SERVICE_KEY" "";
              GEMINI_API_KEY := getenv e "GEMINI_API_KEY" "";
              ALLOWED_ORIGINS := allowed_origins e |}.

End Config.

(* ================================================================== *)
(** ** Scripted collaborators, for the concrete runs *)
(* ================================================================== *)

Module Scenario.
Import Py Eff Backend.

(** Collaborators that answer from a script, one answer per kind of call;
    their world has nothing to remember. *)
Record script : Type := {
  on_auth : outcome;
  on_conversation : outcome;
  on_messages : outcome;
  on_generate : outcome;
  on_insert : outcome
}.

Definition scripted (s : script) : sdk unit :=
  fun c w =>
    (match c with
     | AuthGetUser _ => on_auth s
     | StoreSelect q =>
         if q_table q =? "conversations" then on_conversation s else on_messages s
     | StoreInsert _ _ => on_insert s
     | ModelGenerate _ _ => on_generate s
     end, w).

Definition fresh : state unit := {| world := tt; log := [] |}.

(** An SDK object with the given attributes. *)
Definition obj (oid : nat) (cls : string) (attrs : list (string * value)) : value :=
  VObj oid attrs cls cls.

(** The identity service knows the token: [resp.user.id] is [uid]. *)
Definition known_user (uid : string) : outcome :=
  Returns (obj 1 "UserResponse" [("user", obj 2 "User" [("id", VStr uid)])]).

(** The store's answer, with [data] in its [data] attribute. *)
Definition api_response (data : value) : outcome :=
  Returns (obj 3 "APIResponse" [("data", data)]).

(** A message row as a mapping. *)
Definition row (role content : string) : value :=
  VDict [("role", VStr role); ("content", VStr content)].

(** The model's answer, with its text. *)
Definition generated (text : string) : outcome :=
  Returns (obj 4 "GenerateContentResponse" [("text", VStr text)]).

(** The model's answer when it was blocked: reading its text raises. *)
Definition blocked_answer : value :=
  VGenerated 4 (Some (Throws "ValueError" "the response has no valid part")) None
    (Gives "response: blocked") "response: blocked".

Definition down : outcome := Raises "ConnectionError" "collaborator unreachable".

(** A deployment where everything answers: the token belongs to user u-1,
    conversation c-1 is theirs and holds two messages, the model says
    "hi there". *)
Definition usual : script :=
  {| on_auth := known_user "u-1";
     on_conversation :=
       api_response (VDict [("id", VStr "c-1"); ("user_id", VStr "u-1")]);
     on_messages := api_response (VList [row "user" "hi"; row "assistant" "hello"]);
     on_generate := generated "hi there";
     on_insert := api_response (VList []) |}.

Definition with_auth (o : outcome) (s : script) : script :=
  {| on_auth := o; on_conversation := on_conversation s;
     on_messages := on_messages s; on_generate := on_generate s;
     on_insert := on_insert s |}.
Definition with_conversation (o : outcome) (s : script) : script :=
  {| on_auth := on_auth s; on_conversation := o;
     on_messages := on_messages s; on_generate := on_generate s;
     on_insert := on_insert s |}.
Definition with_messages (o : outcome) (s : script) : script :=
  {| on_auth := on_auth s; on_conversation := on_conversation s;
     on_messages := o; on_generate := on_generate s;
     on_insert := on_insert s |}.
Definition with_generate (o : outcome) (s : script) : script :=
  {| on_auth := on_auth s; on_conversation := on_conversation s;
     on_messages := on_messages s; on_generate := o;
     on_insert := on_insert s |}.
Definition with_insert (o : outcome) (s : script) : script :=
  {| on_auth := on_auth s; on_conversation := on_conversation s;
     on_messages := on_messages s; on_generate := on_generate s;
     on_insert := o |}.

Definition hello : ChatReq := {| conversation_id := "c-1"; message := "hello" |}.

(** A store that answers an insert with the row it was given, as a list of
    one row, after giving it the id [new_id] when there is one; the other
    calls are answered as in [usual]. *)
Definition returning_store (new_id : option string) : sdk unit :=
  fun c w =>
    match c with
    | StoreInsert _ (VDict fields) =>
        (api_response
           (VList [VDict (match new_id with
                          | Some i => ("id", VStr i) :: fields
                          | None => fields
                          end)]), w)
    | _ => scripted usual c w
    end.

End Scenario.

(* ================================================================== *)
(** ** The vocabulary of the properties *)
(* ================================================================== *)

Import Py Eff Backend.

(** *** Responses and errors named in the properties *)

(** The guard of [get_user_id], as the handler evaluates it. *)
Definition has_bearer (authorization : option string) : bool :=
  match authorization with
  | None => false
  | Some a => startswith (lower "Bearer ") (lower a)
  end.

Definition missing_bearer : response :=
  {| status := 401; body := VDict [("detail", VStr "Missing bearer token")] |}.

Definition invalid_token : exn := HTTPException 401 "Invalid token".

Definition conversation_not_found : exn :=
  HTTPException 404 "Conversation not found".

Definition replied (r : string) : response :=
  {| status := 200; body := VDict [("reply", VStr r)] |}.

(** *** Reading a run of [chat] *)

(** The state once the call [c] has been made from [st]. *)
Definition after {W : Type} (env : sdk W) (c : call) (st : state W) : state W :=
  {| world := snd (env c (world st)); log := log st ++ [c] |}.

(** [reply_text] once the [try] around the model call is over. *)
Definition reply_text_of (o : outcome) : value :=
  match o with
  | Returns result =>
      match extract_reply result with
      | Ok reply_text => reply_text
      | Err _ => VStr fallback_reply
      end
  | Raises _ _ => VStr fallback_reply
  end.

(** The prompts handed to the model, read off a log. *)
Fixpoint prompts_sent (l : list call) : list string :=
  match l with
  | [] => []
  | ModelGenerate _ prompt :: rest => prompt :: prompts_sent rest
  | _ :: rest => prompts_sent rest
  end.

(** A call that reads or writes the [conversations] table. *)
Definition on_conversations (c : call) : bool :=
  match c with
  | StoreSelect q => q_table q =? "conversations"
  | StoreInsert table _ => table =? "conversations"
  | _ => false
  end.

(** *** Lines and white space *)

Definition line_feed : ascii := ascii_of_nat 10.

(** The text has no line break. *)
Definition one_line (s : string) : Prop := contains_char line_feed s = false.

(** The record [h] reads as the role [role] and prints its content as
    [text]. *)
Definition reads_as (h : value) (role text : string) : Prop :=
  field h "role" = Ok (VStr role) /\
  exists content, field h "content" = Ok content /\ str content = Gives text.

Definition role_is_text (h : value) : Prop :=
  exists role text, reads_as h role text.

(** Upper case on the ASCII letters alone, written without the table: the
    letters a to z move down by 32, every other byte stays. *)
Definition ascii_upper (s : string) : string := map_string upper_char s.

Fixpoint is_ascii (s : string) : bool :=
  match s with
  | EmptyString => true
  | String c r => (byte c <? 0x80)%N && is_ascii r
  end.

(** [e] is the line of the record [h]: its role in upper case, a colon, a
    space, its content. *)
Definition entry_of (h : value) (e : string) : Prop :=
  exists role text, reads_as h role text /\ e = upper role ++ ": " ++ text.

(** The text left when one white-space character is taken off the head. *)
Definition after_space (s : string) : option string :=
  match s with
  | EmptyString => None
  | String c r =>
      if space1 c then Some r
      else
        match r with
        | EmptyString => None
        | String d r2 =>
            if space2 c d then Some r2
            else
              match r2 with
              | EmptyString => None
              | String e r3 => if space3 c d e then Some r3 else None
              end
        end
  end.

(** The text does not start, does not end, with white space: no piece of
    white space can be split off that end. *)
Definition starts_clean (s : string) : Prop :=
  forall b p, s = b ++ p -> all_space b = true -> b = "".
Definition ends_clean (s : string) : Prop :=
  forall p b, s = p ++ b -> all_space b = true -> b = "".

(** *** Calls and statuses of the other routes *)

(** [payload.title or "New Conversation"]: the title that is kept. *)
Definition kept_title (payload : StartConversationReq) : string :=
  match title payload with
  | Some t => if t =? "" then "New Conversation" else t
  | None => "New Conversation"
  end.

(** The insert of [start_conversation] for the title that is kept. *)
Definition create_call (user_id : value) (kept_title : string) : call :=
  StoreInsert "conversations" (VDict [("user_id", user_id); ("title", VStr kept_title)]).

Definition conversation_call (conversation_id : string) : call :=
  StoreSelect (conversation_query conversation_id).

Definition messages_call (conversation_id : string) : call :=
  StoreSelect (messages_query conversation_id "*" None).

Definition creation_failed : exn :=
  HTTPException 500 "Failed to create conversation".

(** Lines 103-114 of [start_conversation] on the normalised [conv_data]:
    the id is looked for, and the answer or the 500 follows. *)
Definition created (conv_data : value) : result value :=
  and_then
    (match conv_data with
     | VList (first :: _) => method_get first "id" VNone
     | VDict kvs => Ok (dict_get kvs "id" VNone)
     | _ => Ok VNone
     end)
    (fun conv_id =>
       if negb (truthy conv_id) then Err creation_failed
       else Ok (VDict [("conversation_id", conv_id)])).

(** A call to the store or to the model. *)
Definition beyond_identity (c : call) : bool := is_store_call c || is_model_call c.

(** An environment where the three secrets and the origins are set. *)
Definition sample_environ : Config.environ :=
  fun name =>
    if name =? "SUPABASE_URL" then Some "https://db.example"
    else if name =? "SUPABASE_SERVICE_KEY" then Some "service-key"
    else if name =? "GEMINI_API_KEY" then Some "model-key"
    else if name =? "ALLOWED_ORIGINS" then Some "https://a.example,https://b.example"
    else None.

(** *** Data of the concrete runs *)

(** The conversation of another user, once as the mapping and once as the
    object an SDK may hand out. *)
Definition bobs_conversation_mapping : value :=
  VDict [("id", VStr "c-1"); ("user_id", VStr "bob")].
Definition bobs_conversation_object : value :=
  Scenario.obj 5 "Conversation" [("id", VStr "c-1"); ("user_id", VStr "bob")].

(** Ten records, two kept out of the prompt and eight kept in. *)
Definition ten_records : list value :=
  [ Scenario.row "user" "m1"; Scenario.row "assistant" "m2";
    Scenario.row "user" "m3"; Scenario.row "assistant" "m4";
    Scenario.row "user" "m5"; Scenario.row "assistant" "m6";
    Scenario.row "user" "m7"; Scenario.row "assistant" "m8";
    Scenario.row "user" "m9"; Scenario.row "assistant" "m10" ].

(** Ten records of two lines each. *)
Definition ten_long_records : list value :=
  repeat (Scenario.row "user" ("one" ++ newline ++ "two")) 10.

(* ================================================================== *)
(** ** Properties *)
(* ================================================================== *)

(** *** Running the monad *)

Section Run.
Context {W : Type}.
Implicit Types (st : state W) (env : sdk W).

Lemma run_bind {A B : Type} (m : M W A) (k : A -> M W B) st :
  bind m k st =
  match m st with
  | (Ok a, st') => k a st'
  | (Err e, st') => (Err e, st')
  end.
Proof. reflexivity. Qed.

Lemma run_invoke_returns env c st v w' :
  env c (world st) = (Returns v, w') ->
  invoke env c st = (Ok v, {| world := w'; log := log st ++ [c] |}).
Proof. intros H. unfold invoke. rewrite H. reflexivity. Qed.

Lemma run_invoke_raises env c st cls msg w' :
  env c (world st) = (Raises cls msg, w') ->
  invoke env c st =
  (Err (CollaboratorError cls msg), {| world := w'; log := log st ++ [c] |}).
Proof. intros H. unfold invoke. rewrite H. reflexivity. Qed.

End Run.

(** *** The bearer header *)

Lemma has_bearer_nonempty a :
  has_bearer (Some a) = true -> truthy (VStr a) = true.
Proof. destruct a; [discriminate | reflexivity]. Qed.

Lemma lower_char_is_space c :
  lower_char c = " "%char -> c = " "%char.
Proof.
  destruct c as [[] [] [] [] [] [] [] []]; vm_compute; intros H;
    first [reflexivity | discriminate H].
Qed.

Lemma prefix_cons x p y s :
  String.prefix (String x p) (String y s) = true ->
  x = y /\ String.prefix p s = true.
Proof. cbn. destruct (ascii_dec x y); [auto | discriminate]. Qed.

Lemma split_space_once_letter c r :
  lower_char c <> " "%char ->
  split_space_once (String c r) =
  match split_space_once r with
  | [] => [String c EmptyString]
  | p :: ps => String c p :: ps
  end.
Proof.
  intros H. cbn. destruct (Ascii.eqb_spec c " "%char) as [->|_]; [|reflexivity].
  exfalso. apply H. reflexivity.
Qed.

(** Under the guard the header is six letters, a space, and the token;
    [split(" ", 1)[1]] is the token. *)
Lemma token_after_guard a :
  has_bearer (Some a) = true ->
  exists scheme tok,
    a = scheme ++ " " ++ tok /\ lower scheme = "bearer" /\
    item 1 (split_space_once a) = Ok tok.
Proof.
  unfold has_bearer, startswith.
  change (lower "Bearer ") with "bearer ".
  destruct a as [|c1 [|c2 [|c3 [|c4 [|c5 [|c6 [|c7 tok]]]]]]]; intros H;
    cbn [lower map_string] in H;
    repeat match type of H with
           | String.prefix (String _ _) (String _ _) = true =>
               apply prefix_cons in H; destruct H as [? H]
           end;
    try discriminate H.
  assert (c7 = " "%char) by (apply lower_char_is_space; congruence).
  subst c7.
  exists (String c1 (String c2 (String c3 (String c4 (String c5 (String c6 EmptyString)))))), tok.
  split; [reflexivity|]. split.
  - cbn. congruence.
  - rewrite !split_space_once_letter by (intros E; congruence).
    reflexivity.
Qed.

Lemma get_user_id_missing {W : Type} (env : sdk W) authorization (st : state W) :
  has_bearer authorization = false ->
  get_user_id env authorization st =
  (Err (HTTPException 401 "Missing bearer token"), st).
Proof.
  intros H. destruct authorization as [a|]; [|reflexivity].
  unfold get_user_id. unfold has_bearer in H.
  change (lower "Bearer ") with "bearer " in H. rewrite H.
  rewrite orb_true_r. reflexivity.
Qed.

(** C6.  A request to a protected route (start-conversation, history or
    chat) whose Authorization header is absent, or does not start with
    "Bearer " when letter case is ignored, is answered 401 "Missing bearer
    token", and the state after it is the state before it: the world is
    untouched and the log of collaborator calls has not grown, so neither
    the identity service, the store nor the model was called. *)
Theorem no_bearer_no_calls {W : Type} (env : sdk W) authorization
    (r : request) (st : state W) :
  has_bearer authorization = false ->
  serve env authorization r st = (missing_bearer, st) /\
  log (snd (serve env authorization r st)) = log st.
Proof.
  intros H.
  assert (E : serve env authorization r st = (missing_bearer, st)).
  { unfold serve, handle. rewrite run_bind, (get_user_id_missing env _ st H).
    reflexivity. }
  rewrite E. split; reflexivity.
Qed.

(** C6 on a chat request with Basic credentials in front of collaborators
    that would all answer. *)
Lemma no_bearer_no_calls_witness :
  has_bearer (Some "Basic dXNlcjpwdw==") = false /\
  serve (Scenario.scripted Scenario.usual) (Some "Basic dXNlcjpwdw==")
        (Chat Scenario.hello) Scenario.fresh
  = (missing_bearer, Scenario.fresh).
Proof.
  split; [reflexivity|].
  apply (no_bearer_no_calls _ (Some "Basic dXNlcjpwdw==") _ Scenario.fresh).
  reflexivity.
Defined.

(** *** Token validation *)

(** What [get_user_id] does once the header has passed the guard. *)
Lemma get_user_id_guarded {W : Type} (env : sdk W) a tok (st : state W) :
  has_bearer (Some a) = true ->
  item 1 (split_space_once a) = Ok tok ->
  get_user_id env (Some a) st =
  try_except (validate_token env tok)
    (fun e => match e with
              | HTTPException _ _ => raise e
              | _ => raise invalid_token
              end) st.
Proof.
  intros H Htok. unfold get_user_id.
  rewrite (has_bearer_nonempty a H).
  unfold has_bearer in H. change (lower "Bearer ") with "bearer " in H.
  rewrite H. cbn [negb orb]. rewrite run_bind. unfold lift. rewrite Htok.
  reflexivity.
Qed.

(** C7.  Once the header has passed the guard, token validation ends in one
    of two ways only: it returns the (truthy) user id, or it raises 401
    "Invalid token".  It raises exactly that error when the identity
    collaborator raises, whatever the class and message of its exception,
    when no user object can be extracted from its answer (or the
    extraction itself fails), and when the user object has no id; the
    collaborator's class and message appear in no outcome. *)
Theorem invalid_token_is_the_only_error {W : Type} (env : sdk W) a
    (st : state W) :
  has_bearer (Some a) = true ->
  let out := fst (get_user_id env (Some a) st) in
  (forall e, out = Err e -> e = invalid_token) /\
  (exists tok, item 1 (split_space_once a) = Ok tok /\
     match fst (env (AuthGetUser tok) (world st)) with
     | Raises _ _ => out = Err invalid_token
     | Returns resp =>
         match extract_user resp with
         | Err _ => out = Err invalid_token
         | Ok user_obj =>
             if truthy user_obj
             then if truthy (extract_id user_obj)
                  then out = Ok (extract_id user_obj)
                  else out = Err invalid_token
             else out = Err invalid_token
         end
     end).
Proof.
  intros H out.
  destruct (token_after_guard a H) as (scheme & tok & _ & _ & Htok).
  assert (Hout : out = fst (try_except (validate_token env tok)
            (fun e => match e with
                      | HTTPException _ _ => raise e
                      | _ => raise invalid_token
                      end) st)).
  { unfold out. rewrite (get_user_id_guarded env a tok st H Htok). reflexivity. }
  assert (Hcases :
     match fst (env (AuthGetUser tok) (world st)) with
     | Raises _ _ => out = Err invalid_token
     | Returns resp =>
         match extract_user resp with
         | Err _ => out = Err invalid_token
         | Ok user_obj =>
             if truthy user_obj
             then if truthy (extract_id user_obj)
                  then out = Ok (extract_id user_obj)
                  else out = Err invalid_token
             else out = Err invalid_token
         end
     end).
  { rewrite Hout. unfold try_except, validate_token.
    rewrite run_bind. unfold invoke.
    destruct (env (AuthGetUser tok) (world st)) as [[resp|cls msg] w'];
      cbn [fst]; [|reflexivity].
    rewrite run_bind. unfold lift.
    destruct (extract_user resp) as [user_obj|e] eqn:Eu.
    - destruct (truthy user_obj); cbn [negb]; [|reflexivity].
      destruct (truthy (extract_id user_obj)); reflexivity.
    - assert (e = AttributeError) as ->.
      { unfold extract_user in Eu.
        destruct (hasattr resp "user" && truthy (getattr resp "user" VNone));
          [discriminate|].
        destruct resp; try discriminate.
        unfold and_then, method_get in Eu.
        destruct (dict_get kvs "data" (VDict [])); congruence. }
      reflexivity. }
  split.
  - intros e He.
    destruct (fst (env (AuthGetUser tok) (world st))) as [resp|cls msg].
    + destruct (extract_user resp) as [user_obj|e'].
      * destruct (truthy user_obj); [|congruence].
        destruct (truthy (extract_id user_obj)); congruence.
      * congruence.
    + congruence.
  - exists tok. split; [exact Htok | exact Hcases].
Qed.

(** C7 with an identity service that is down: the connection error comes
    out as 401 "Invalid token". *)
Lemma invalid_token_is_the_only_error_witness :
  has_bearer (Some "Bearer abc") = true /\
  forall e,
    fst (get_user_id
           (Scenario.scripted (Scenario.with_auth Scenario.down Scenario.usual))
           (Some "Bearer abc") Scenario.fresh) = Err e ->
    e = invalid_token.
Proof.
  split; [reflexivity|].
  exact (proj1 (invalid_token_is_the_only_error _ "Bearer abc" Scenario.fresh eq_refl)).
Defined.

(** *** One run of [chat] *)

Section ChatRun.
Context {W : Type} (env : sdk W).

Lemma invoke_run c st :
  invoke env c st =
  (match fst (env c (world st)) with
   | Returns v => Ok v
   | Raises cls msg => Err (CollaboratorError cls msg)
   end, after env c st).
Proof.
  unfold invoke, after. destruct (env c (world st)) as [[v|cls msg] w']; reflexivity.
Qed.

Lemma generate_reply_run prompt st :
  generate_reply env prompt st =
  (Ok (reply_text_of (fst (env (generate_call prompt) (world st)))),
   after env (generate_call prompt) st).
Proof.
  unfold generate_reply, try_except. rewrite run_bind, invoke_run.
  destruct (fst (env (generate_call prompt) (world st))) as [result|cls msg];
    [|reflexivity].
  unfold lift. cbn [reply_text_of]. destruct (extract_reply result); reflexivity.
Qed.

Lemma persist_run payload user_id user_msg reply_text st :
  persist env payload user_id user_msg reply_text st =
  (Ok tt, after env (insert_call payload user_id user_msg reply_text) st).
Proof.
  unfold persist, try_except. rewrite run_bind, invoke_run.
  destruct (fst (env (insert_call payload user_id user_msg reply_text) (world st)));
    reflexivity.
Qed.

(** The whole handler, call by call. *)
Lemma chat_run payload user_id st :
  chat env payload user_id st =
  let st1 := after env (history_call payload) st in
  match fst (env (history_call payload) (world st)) with
  | Raises cls msg => (Err (CollaboratorError cls msg), st1)
  | Returns history_resp =>
      match build_prompt (history_of history_resp) (user_msg_of payload) with
      | Err e => (Err e, st1)
      | Ok prompt =>
          let reply_text :=
            reply_text_of (fst (env (generate_call prompt) (world st1))) in
          let st2 := after env (generate_call prompt) st1 in
          (ChatResp_new reply_text,
           after env (insert_call payload user_id (user_msg_of payload) reply_text) st2)
      end
  end.
Proof.
  unfold chat. rewrite run_bind, invoke_run.
  destruct (fst (env (history_call payload) (world st))) as [history_resp|cls msg];
    [|reflexivity].
  rewrite run_bind. unfold lift at 1.
  destruct (build_prompt (history_of history_resp) (user_msg_of payload))
    as [prompt|e]; [|reflexivity].
  rewrite run_bind, generate_reply_run, run_bind, persist_run.
  reflexivity.
Qed.

(** The chat route once the caller is authenticated. *)
Lemma serve_chat authorization payload st user_id st0 :
  get_user_id env authorization st = (Ok user_id, st0) ->
  serve env authorization (Chat payload) st =
  (respond (match fst (chat env payload user_id st0) with
            | Ok resp => Ok (dump resp)
            | Err e => Err e
            end),
   snd (chat env payload user_id st0)).
Proof.
  intros H. unfold serve, handle. rewrite run_bind, H, run_bind.
  destruct (chat env payload user_id st0) as [[resp|e] st']; reflexivity.
Qed.

End ChatRun.

(** C4.  For an authenticated chat request whose history was fetched and
    whose prompt was assembled, if the model collaborator raises, whatever
    the class and message of its exception, the request is answered 200
    with exactly the fallback sentence as reply: no exception leaves the
    handler.  The fallback is also what the handler then asks the store to
    keep as the assistant's message. *)
Theorem model_failure_gives_fallback {W : Type} (env : sdk W) authorization
    payload (st st0 : state W) user_id history_resp w1 prompt cls msg w2 :
  get_user_id env authorization st = (Ok user_id, st0) ->
  env (history_call payload) (world st0) = (Returns history_resp, w1) ->
  build_prompt (history_of history_resp) (user_msg_of payload) = Ok prompt ->
  env (generate_call prompt) w1 = (Raises cls msg, w2) ->
  fst (serve env authorization (Chat payload) st) = replied fallback_reply /\
  fst (chat env payload user_id st0) = Ok {| reply := fallback_reply |} /\
  log (snd (serve env authorization (Chat payload) st)) =
  (log st0 ++ [history_call payload; generate_call prompt;
               insert_call payload user_id (user_msg_of payload)
                 (VStr fallback_reply)])%list.
Proof.
  intros Hauth Hhist Hprompt Hgen.
  rewrite (serve_chat env _ _ _ _ _ Hauth), chat_run.
  assert (Hw : world (after env (history_call payload) st0) = w1)
    by (unfold after; rewrite Hhist; reflexivity).
  rewrite Hhist. cbn [fst]. rewrite Hprompt. cbv zeta.
  rewrite !Hw, Hgen. cbn [fst snd reply_text_of ChatResp_new].
  split; [reflexivity|]. split; [reflexivity|].
  unfold after. cbn [log]. rewrite <- !app_assoc. reflexivity.
Qed.

(** C4 with a model that is unreachable. *)
Lemma model_failure_gives_fallback_witness :
  Scenario.on_generate (Scenario.with_generate Scenario.down Scenario.usual)
    = Raises "ConnectionError" "collaborator unreachable" /\
  fst (serve (Scenario.scripted (Scenario.with_generate Scenario.down Scenario.usual))
         (Some "Bearer abc") (Chat Scenario.hello) Scenario.fresh)
  = replied "Sorry, I couldn't generate a response right now.".
Proof.
  split; [reflexivity|].
  eapply (proj1 (model_failure_gives_fallback
                   (Scenario.scripted (Scenario.with_generate Scenario.down Scenario.usual))
                   (Some "Bearer abc") Scenario.hello Scenario.fresh
                   _ _ _ _ _ _ _ _ eq_refl eq_refl eq_refl eq_refl)).
Defined.

(** C5.  For an authenticated chat request that has reached its reply (the
    text [r], from the model or the fallback), if the insert of the user
    and assistant messages raises, whatever the exception, the request is
    still answered 200 with [r] as reply; the failed insert is the last
    call of the request. *)
Theorem persistence_failure_is_swallowed {W : Type} (env : sdk W) authorization
    payload (st st0 : state W) user_id history_resp w1 prompt r cls msg w3 :
  get_user_id env authorization st = (Ok user_id, st0) ->
  env (history_call payload) (world st0) = (Returns history_resp, w1) ->
  build_prompt (history_of history_resp) (user_msg_of payload) = Ok prompt ->
  reply_text_of (fst (env (generate_call prompt) w1)) = VStr r ->
  env (insert_call payload user_id (user_msg_of payload) (VStr r))
      (snd (env (generate_call prompt) w1)) = (Raises cls msg, w3) ->
  serve env authorization (Chat payload) st =
  (replied r,
   {| world := w3;
      log := log st0 ++ [history_call payload; generate_call prompt;
                         insert_call payload user_id (user_msg_of payload) (VStr r)] |}).
Proof.
  intros Hauth Hhist Hprompt Hreply Hins.
  rewrite (serve_chat env _ _ _ _ _ Hauth), chat_run.
  assert (Hw : world (after env (history_call payload) st0) = w1)
    by (unfold after; rewrite Hhist; reflexivity).
  rewrite Hhist. cbn [fst]. rewrite Hprompt. cbv zeta.
  rewrite !Hw, Hreply. cbn [fst snd ChatResp_new].
  unfold after. cbn [world log]. rewrite Hhist. cbn [snd].
  rewrite Hins. cbn [snd]. rewrite <- !app_assoc. reflexivity.
Qed.

(** C5 with a store that refuses the insert after the model has answered. *)
Lemma persistence_failure_is_swallowed_witness :
  Scenario.on_insert (Scenario.with_insert Scenario.down Scenario.usual)
    = Raises "ConnectionError" "collaborator unreachable" /\
  fst (serve (Scenario.scripted (Scenario.with_insert Scenario.down Scenario.usual))
         (Some "Bearer abc") (Chat Scenario.hello) Scenario.fresh)
  = replied "hi there".
Proof.
  split; [reflexivity|].
  exact (f_equal fst
    (persistence_failure_is_swallowed
       (Scenario.scripted (Scenario.with_insert Scenario.down Scenario.usual))
       (Some "Bearer abc") Scenario.hello Scenario.fresh
       _ _ _ _ _ "hi there" _ _ _ eq_refl eq_refl eq_refl eq_refl eq_refl)).
Defined.

(** *** The prompt depends on the history and the message alone *)

Lemma prompts_sent_app l l' :
  prompts_sent (l ++ l') = (prompts_sent l ++ prompts_sent l')%list.
Proof.
  induction l as [|c l IH]; [reflexivity|].
  destruct c; cbn; rewrite IH; reflexivity.
Qed.

(** What [chat] adds to the list of prompts sent. *)
Lemma chat_prompts_sent {W : Type} (env : sdk W) payload user_id (st : state W)
    history_resp :
  fst (env (history_call payload) (world st)) = Returns history_resp ->
  prompts_sent (log (snd (chat env payload user_id st))) =
  (prompts_sent (log st) ++
   match build_prompt (history_of history_resp) (user_msg_of payload) with
   | Ok prompt => [prompt]
   | Err _ => []
   end)%list.
Proof.
  intros H. rewrite chat_run, H. cbv zeta.
  destruct (build_prompt (history_of history_resp) (user_msg_of payload)) as [prompt|e];
    unfold after; cbn [snd log]; rewrite !prompts_sent_app; cbn;
    rewrite ?app_nil_r; reflexivity.
Qed.

(** C9.  Take two chat requests, possibly in different deployments, from
    different users, on different conversations and in different states of
    the world.  If the store hands both the same history and the two new
    messages are the same, then prompt assembly gives the same outcome in
    both, and the prompts the two requests send to the model are the same
    strings. *)
Theorem prompt_is_deterministic {W1 W2 : Type} (env1 : sdk W1) (env2 : sdk W2)
    payload1 payload2 user_id1 user_id2 (st1 : state W1) (st2 : state W2)
    history_resp1 history_resp2 :
  fst (env1 (history_call payload1) (world st1)) = Returns history_resp1 ->
  fst (env2 (history_call payload2) (world st2)) = Returns history_resp2 ->
  history_of history_resp1 = history_of history_resp2 ->
  message payload1 = message payload2 ->
  build_prompt (history_of history_resp1) (user_msg_of payload1) =
  build_prompt (history_of history_resp2) (user_msg_of payload2) /\
  exists sent,
    prompts_sent (log (snd (chat env1 payload1 user_id1 st1))) =
      (prompts_sent (log st1) ++ sent)%list /\
    prompts_sent (log (snd (chat env2 payload2 user_id2 st2))) =
      (prompts_sent (log st2) ++ sent)%list.
Proof.
  intros H1 H2 Hh Hm.
  assert (E : build_prompt (history_of history_resp1) (user_msg_of payload1) =
              build_prompt (history_of history_resp2) (user_msg_of payload2)).
  { unfold user_msg_of. rewrite Hh, Hm. reflexivity. }
  split; [exact E|].
  rewrite (chat_prompts_sent env1 _ _ _ _ H1), (chat_prompts_sent env2 _ _ _ _ H2), E.
  eexists. split; reflexivity.
Qed.

(** C9 on two deployments: in one the model answers, in the other it is
    down and the requests come from another user on another conversation;
    the history and the message are the same. *)
Lemma prompt_is_deterministic_witness :
  build_prompt
    (history_of (Scenario.obj 3 "APIResponse"
                   [("data", VList [Scenario.row "user" "hi";
                                    Scenario.row "assistant" "hello"])]))
    (user_msg_of Scenario.hello) =
  build_prompt
    (history_of (Scenario.obj 3 "APIResponse"
                   [("data", VList [Scenario.row "user" "hi";
                                    Scenario.row "assistant" "hello"])]))
    (user_msg_of {| conversation_id := "c-2"; message := "hello" |}) /\
  exists sent,
    prompts_sent (log (snd (chat (Scenario.scripted Scenario.usual)
                              Scenario.hello (VStr "u-1") Scenario.fresh))) =
      (prompts_sent (log Scenario.fresh) ++ sent)%list /\
    prompts_sent (log (snd (chat (Scenario.scripted
                                    (Scenario.with_generate Scenario.down Scenario.usual))
                              {| conversation_id := "c-2"; message := "hello" |}
                              (VStr "u-2") Scenario.fresh))) =
      (prompts_sent (log Scenario.fresh) ++ sent)%list.
Proof.
  exact (prompt_is_deterministic
           (Scenario.scripted Scenario.usual)
           (Scenario.scripted (Scenario.with_generate Scenario.down Scenario.usual))
           Scenario.hello {| conversation_id := "c-2"; message := "hello" |}
           (VStr "u-1") (VStr "u-2") Scenario.fresh Scenario.fresh
           _ _ eq_refl eq_refl eq_refl eq_refl).
Defined.

(** *** [chat] and the conversations table *)

Lemma after_agree {W : Type} (env env' : sdk W) c (st : state W) :
  env' c (world st) = env c (world st) -> after env' c st = after env c st.
Proof. intros H. unfold after. rewrite H. reflexivity. Qed.

(** C10.  [chat] never looks the conversation up.  (1) The calls it makes
    are the select on chat_messages, the model call and the insert into
    chat_messages: none is on the conversations table.  (2) Its outcome is
    the same under any other behaviour of the conversations table, so it
    does not matter whether the conversation exists or whose it is.  (3)
    The result does not depend on the user who asks.  (4) Hence, as soon
    as the messages select returns, the prompt builds and the reply is a
    text, the request ends with that reply (status 200), for any
    conversation id. *)
Theorem chat_checks_no_conversation {W : Type} (env : sdk W) payload user_id
    (st : state W) :
  (exists calls,
     log (snd (chat env payload user_id st)) = (log st ++ calls)%list /\
     forallb (fun c => negb (on_conversations c)) calls = true) /\
  (forall env' : sdk W,
     (forall c w, on_conversations c = false -> env' c w = env c w) ->
     chat env' payload user_id st = chat env payload user_id st) /\
  (forall user_id', fst (chat env payload user_id' st) = fst (chat env payload user_id st)) /\
  (forall history_resp prompt r,
     fst (env (history_call payload) (world st)) = Returns history_resp ->
     build_prompt (history_of history_resp) (user_msg_of payload) = Ok prompt ->
     reply_text_of (fst (env (generate_call prompt)
                           (snd (env (history_call payload) (world st))))) = VStr r ->
     fst (chat env payload user_id st) = Ok {| reply := r |} /\
     respond (Ok (dump {| reply := r |})) = replied r).
Proof.
  split; [|split; [|split]].
  - rewrite chat_run. cbv zeta.
    destruct (fst (env (history_call payload) (world st))) as [history_resp|cls msg].
    + destruct (build_prompt (history_of history_resp) (user_msg_of payload))
        as [prompt|e].
      * exists [history_call payload; generate_call prompt;
                insert_call payload user_id (user_msg_of payload)
                  (reply_text_of (fst (env (generate_call prompt)
                     (world (after env (history_call payload) st)))))].
        split; [|reflexivity].
        unfold after. cbn [snd log]. rewrite <- !app_assoc. reflexivity.
      * exists [history_call payload]. split; reflexivity.
    + exists [history_call payload]. split; reflexivity.
  - intros env' Hagree. rewrite !chat_run. cbv zeta.
    assert (A1 : after env' (history_call payload) st = after env (history_call payload) st)
      by (apply after_agree, Hagree; reflexivity).
    rewrite A1, (Hagree (history_call payload) (world st) eq_refl).
    destruct (fst (env (history_call payload) (world st))) as [history_resp|cls msg];
      [|reflexivity].
    destruct (build_prompt (history_of history_resp) (user_msg_of payload))
      as [prompt|e]; [|reflexivity].
    rewrite (Hagree (generate_call prompt) _ eq_refl).
    rewrite (after_agree env env' (generate_call prompt)) by (apply Hagree; reflexivity).
    rewrite (after_agree env env' (insert_call _ _ _ _)) by (apply Hagree; reflexivity).
    reflexivity.
  - intros user_id'. rewrite !chat_run. cbv zeta.
    destruct (fst (env (history_call payload) (world st))) as [history_resp|cls msg];
      [|reflexivity].
    destruct (build_prompt (history_of history_resp) (user_msg_of payload));
      reflexivity.
  - intros history_resp prompt r Hhist Hprompt Hreply.
    split; [|reflexivity].
    rewrite chat_run, Hhist. cbv zeta. rewrite Hprompt.
    unfold after. cbn [world fst]. rewrite Hreply. reflexivity.
Qed.

(** Two runs in front of a store that would refuse the history: the
    conversation is unknown, or it is Bob's and Alice asks.  [history]
    answers 404 both times, [chat] answers 200 with the model's text. *)
Lemma chat_on_unknown_or_foreign_conversation :
  let unknown := Scenario.scripted
                   (Scenario.with_conversation (Scenario.api_response VNone)
                      (Scenario.with_messages (Scenario.api_response (VList []))
                         Scenario.usual)) in
  let foreign := Scenario.scripted
                   (Scenario.with_auth (Scenario.known_user "alice")
                      (Scenario.with_conversation
                         (Scenario.api_response bobs_conversation_mapping)
                         Scenario.usual)) in
  status (fst (serve unknown (Some "Bearer abc") (History "c-9") Scenario.fresh)) = 404%Z /\
  fst (serve unknown (Some "Bearer abc")
         (Chat {| conversation_id := "c-9"; message := "hello" |}) Scenario.fresh)
    = replied "hi there" /\
  status (fst (serve foreign (Some "Bearer abc") (History "c-1") Scenario.fresh)) = 404%Z /\
  fst (serve foreign (Some "Bearer abc") (Chat Scenario.hello) Scenario.fresh)
    = replied "hi there".
Proof. repeat split. Qed.

(** *** The ownership check of [history] *)

(** The rows the store returns are parsed JSON, so mappings, and on those
    the comparison is made: Alice, asking for Bob's conversation, is
    answered 404 (third part).  The guard [isinstance(conv_data, dict)]
    is what a row handed out as an object would slip through (first two
    parts); [single().execute()] hands out no such row. *)
Lemma history_object_row_not_checked :
  ne (getattr bobs_conversation_object "user_id" VNone) (VStr "alice") = true /\
  fst (serve (Scenario.scripted
                (Scenario.with_auth (Scenario.known_user "alice")
                   (Scenario.with_conversation
                      (Scenario.api_response bobs_conversation_object)
                      Scenario.usual)))
         (Some "Bearer abc") (History "c-1") Scenario.fresh)
  = {| status := 200;
       body := VDict [("messages", VList [Scenario.row "user" "hi";
                                          Scenario.row "assistant" "hello"])] |} /\
  fst (serve (Scenario.scripted
                (Scenario.with_auth (Scenario.known_user "alice")
                   (Scenario.with_conversation
                      (Scenario.api_response bobs_conversation_mapping)
                      Scenario.usual)))
         (Some "Bearer abc") (History "c-1") Scenario.fresh)
  = {| status := 404; body := VDict [("detail", VStr "Conversation not found")] |}.
Proof. repeat split. Qed.

(** C1.  The conversation row is a mapping, as the store returns it.
    Whatever the shape of the store's answer [conv], a mapping (which has
    no [data] attribute) or an object with the row as its [data]: when the
    row's user_id is [!=] the authenticated user's id, [history] raises
    404 "Conversation not found", and it does not read the messages.  The
    same holds when the answer carries no row at all. *)
Theorem history_foreign_mapping_is_404 {W : Type} (env : sdk W) conversation_id
    user_id (st : state W) conv w1 :
  env (StoreSelect (conversation_query conversation_id)) (world st) = (Returns conv, w1) ->
  is_dict conv = true \/
  truthy (getattr conv "data" VNone) = false \/
  (exists row, getattr conv "data" VNone = VDict row /\
               ne (dict_get row "user_id" VNone) user_id = true) ->
  history env conversation_id user_id st =
  (Err conversation_not_found,
   {| world := w1;
      log := log st ++ [StoreSelect (conversation_query conversation_id)] |}) /\
  respond (Err conversation_not_found) =
  {| status := 404; body := VDict [("detail", VStr "Conversation not found")] |}.
Proof.
  intros Hconv Hcase. split; [|reflexivity].
  unfold history. rewrite run_bind, (run_invoke_returns env _ st conv w1 Hconv).
  assert (Hnf : not_found (getattr conv "data" VNone) user_id = true).
  { unfold not_found. destruct Hcase as [Hd | [Hf | (row & Hrow & Hne)]].
    - destruct conv; try discriminate Hd. reflexivity.
    - rewrite Hf. reflexivity.
    - rewrite Hrow, Hne. apply orb_true_r. }
  rewrite Hnf. reflexivity.
Qed.

(** C1 on Bob's conversation, asked for by Alice. *)
Lemma history_foreign_mapping_is_404_witness :
  ne (dict_get [("id", VStr "c-1"); ("user_id", VStr "bob")] "user_id" VNone)
     (VStr "alice") = true /\
  fst (history (Scenario.scripted
                  (Scenario.with_conversation
                     (Scenario.api_response bobs_conversation_mapping)
                     Scenario.usual))
         "c-1" (VStr "alice") Scenario.fresh) = Err conversation_not_found.
Proof.
  split; [reflexivity|].
  refine (f_equal fst (proj1
    (history_foreign_mapping_is_404
       (Scenario.scripted
          (Scenario.with_conversation
             (Scenario.api_response bobs_conversation_mapping) Scenario.usual))
       "c-1" (VStr "alice") Scenario.fresh _ tt eq_refl _))).
  right. right. exists [("id", VStr "c-1"); ("user_id", VStr "bob")].
  split; reflexivity.
Defined.

(** *** Field extraction in the prompt loop *)

(** An object record reads a missing role or content as the empty string. *)
Lemma field_object_default oid attrs shown repred name :
  lookup name attrs = None ->
  field (VObj oid attrs shown repred) name = Ok (VStr "").
Proof. intros H. cbn. rewrite H. reflexivity. Qed.

(** A mapping record reads a missing role or content as [None]. *)
Lemma field_mapping_default row name :
  lookup name row = None -> field (VDict row) name = Ok VNone.
Proof. intros H. cbn. unfold dict_get. rewrite H. reflexivity. Qed.

(** A mapping record without a role stops the loop with an AttributeError. *)
Lemma render_mapping_without_role row :
  lookup "role" row = None -> render (VDict row) = Err AttributeError.
Proof.
  intros H. unfold render. rewrite (field_mapping_default row "role" H).
  reflexivity.
Qed.

(** An object record with a text as content always gives a line when its
    role is absent. *)
Lemma render_object_without_role oid attrs shown repred content :
  lookup "role" attrs = None ->
  lookup "content" attrs = Some (VStr content) ->
  render (VObj oid attrs shown repred) = Ok (": " ++ content).
Proof.
  intros H Hc. unfold render. rewrite (field_object_default _ _ _ _ "role" H).
  cbn. rewrite Hc. reflexivity.
Qed.

(** C2, the code at the failing input.  The history holds one record, a
    mapping with a content and no role (or with a null role).  The object
    with the same fields gives the line ": hi"; the mapping makes
    [role.upper()] raise, the request ends in 500, and the model is never
    called. *)
Theorem mapping_record_without_role_raises :
  render (Scenario.obj 6 "Row" [("content", VStr "hi")]) = Ok ": hi" /\
  render (VDict [("content", VStr "hi")]) = Err AttributeError /\
  render (VDict [("role", VNone); ("content", VStr "hi")]) = Err AttributeError /\
  serve (Scenario.scripted
           (Scenario.with_messages
              (Scenario.api_response (VList [VDict [("content", VStr "hi")]]))
              Scenario.usual))
        (Some "Bearer abc") (Chat Scenario.hello) Scenario.fresh
  = ({| status := 500; body := VStr "Internal Server Error" |},
     {| world := tt;
        log := [AuthGetUser "abc"; history_call Scenario.hello] |}).
Proof. repeat split. Qed.

(** *** The reply text *)


(** A mapping has no attributes: its text key is not read, the reply is the
    mapping printed. *)
Lemma mapping_answer_is_printed :
  extract_reply (VDict [("text", VStr "hi")]) = Ok (VStr "{'text': 'hi'}").
Proof. reflexivity. Qed.

(** What printing shows of the texts inside a mapping or a list: quotes
    around them, double ones when the text holds a single quote, and escapes
    for the line feed and for the characters that are not printable, as the
    no-break space and the line separator; a letter with an accent is
    printed as it is. *)
Lemma repr_examples :
  repr (VList [VInt 1; VNone; VBool true; VStr "x"]) = "[1, None, True, 'x']" /\
  repr (VStr "it's") = String quote2 ("it's" ++ String quote2 "") /\
  repr (VStr ("a" ++ newline ++ "b")) = "'a\nb'" /\
  repr (VStr (encode 0xE9)) = "'" ++ encode 0xE9 ++ "'" /\
  repr (VStr (encode 0xA0)) = "'\xa0'" /\
  repr (VStr (encode 0x2028)) = "'\u2028'".
Proof. vm_compute. repeat split. Qed.

(** An answer whose text cannot be read (the model SDK raises ValueError
    from [text] when the answer was blocked): nothing of it is used, the
    reply is the fallback sentence. *)
Lemma blocked_answer_gives_fallback :
  extract_reply Scenario.blocked_answer
    = Err (CollaboratorError "ValueError" "the response has no valid part") /\
  fst (serve (Scenario.scripted
                (Scenario.with_generate (Returns Scenario.blocked_answer)
                   Scenario.usual))
         (Some "Bearer abc") (Chat Scenario.hello) Scenario.fresh)
  = replied fallback_reply.
Proof. repeat split. Qed.



(** *** The shape of the prompt *)

Lemma user_msg_of_strip payload : user_msg_of payload = strip (message payload).
Proof.
  unfold user_msg_of. destruct (message payload =? "") eqn:E; [|reflexivity].
  apply String.eqb_eq in E. rewrite E. reflexivity.
Qed.

Lemma last_n_length {A : Type} n (xs : list A) :
  List.length (last_n n xs) = Nat.min n (List.length xs).
Proof. unfold last_n. rewrite length_skipn. lia. Qed.

(** The entries are the last ones, in their order: [last_n] cuts a prefix
    off. *)
Lemma last_n_suffix {A : Type} n (xs : list A) :
  exists older, xs = (older ++ last_n n xs)%list.
Proof.
  exists (firstn (List.length xs - n) xs). unfold last_n.
  symmetry. apply firstn_skipn.
Qed.

Lemma render_reads h role text :
  reads_as h role text -> render h = Ok (upper role ++ ": " ++ text).
Proof.
  intros (Hrole & content & Hcontent & Hstr). unfold render.
  rewrite Hrole. cbn [and_then]. rewrite Hcontent. cbn [and_then method_upper].
  rewrite Hstr. reflexivity.
Qed.

Lemma render_all_entries hs :
  Forall role_is_text hs ->
  exists entries, render_all hs = Ok entries /\ Forall2 entry_of hs entries.
Proof.
  induction 1 as [|h hs (role & text & Hr) _ (entries & Hall & Hent)].
  - exists []. split; [reflexivity | constructor].
  - exists ((upper role ++ ": " ++ text) :: entries).
    split.
    + cbn [render_all]. rewrite (render_reads h role text Hr). cbn [and_then].
      rewrite Hall. reflexivity.
    + constructor; [|exact Hent]. exists role, text. split; [exact Hr | reflexivity].
Qed.

Lemma split_on_one_piece sep s :
  contains_char sep s = false -> split_on sep s = [s].
Proof.
  induction s as [|c s IH]; [reflexivity|].
  cbn. rewrite (Ascii.eqb_sym c sep).
  destruct (Ascii.eqb sep c); [discriminate|]. cbn. intros H.
  rewrite (IH H). reflexivity.
Qed.

Lemma split_on_first_piece sep s t :
  contains_char sep s = false ->
  split_on sep (s ++ String sep t) = s :: split_on sep t.
Proof.
  induction s as [|c s IH].
  - intros _. cbn. rewrite Ascii.eqb_refl. reflexivity.
  - cbn. rewrite (Ascii.eqb_sym c sep).
    destruct (Ascii.eqb sep c); [discriminate|]. cbn. intros H.
    rewrite (IH H). reflexivity.
Qed.

(** Joined with line feeds, texts without a line feed are the lines of the
    result. *)
Lemma lines_join parts :
  parts <> [] -> Forall one_line parts -> lines (join newline parts) = parts.
Proof.
  intros Hne Hall. induction Hall as [|p parts Hp Hall IH]; [congruence|].
  destruct parts as [|q parts].
  - cbn. apply split_on_one_piece. exact Hp.
  - change (join newline (p :: q :: parts))
      with (p ++ String line_feed (join newline (q :: parts))).
    unfold lines. change (ascii_of_nat 10) with line_feed.
    rewrite split_on_first_piece by exact Hp.
    f_equal. apply IH. discriminate.
Qed.

(** *** What [upper] does *)

(** On a byte below 128 the table agrees with the rule of the ASCII
    letters. *)
Lemma upper_cp_ascii c :
  (byte c <? 0x80)%N = true ->
  upper_cp (byte c) (String c EmptyString) = String (upper_char c) EmptyString.
Proof.
  destruct c as [b0 b1 b2 b3 b4 b5 b6 b7].
  destruct b7; [destruct b0, b1, b2, b3, b4, b5, b6; discriminate|].
  intros _. destruct b0, b1, b2, b3, b4, b5, b6; vm_compute; reflexivity.
Qed.

(** On ASCII text [upper] is the upper case of the letters a to z. *)
Lemma upper_ascii s : is_ascii s = true -> upper s = ascii_upper s.
Proof.
  induction s as [|c s IH]; [reflexivity|].
  cbn [is_ascii]. intros H. apply andb_prop in H. destruct H as [Hc Hs].
  change (upper (String c s))
    with (if (byte c <? 0x80)%N
          then upper_cp (byte c) (String c EmptyString) ++ upper s
          else match s with
               | EmptyString => String c (upper s)
               | String d r2 =>
                   if is_lead2 c && is_cont d
                   then upper_cp (cp2 c d) (String c (String d EmptyString)) ++ upper r2
                   else
                     match r2 with
                     | EmptyString => String c (upper s)
                     | String e r3 =>
                         if is_lead3 c && is_cont d && is_cont e
                         then upper_cp (cp3 c d e)
                                (String c (String d (String e EmptyString))) ++ upper r3
                         else
                           match r3 with
                           | EmptyString => String c (upper s)
                           | String f r4 =>
                               if is_lead4 c && is_cont d && is_cont e && is_cont f
                               then upper_cp (cp4 c d e f)
                                      (String c (String d (String e (String f EmptyString))))
                                    ++ upper r4
                               else String c (upper s)
                           end
                     end
               end).
  rewrite Hc, (upper_cp_ascii c Hc), (IH Hs). reflexivity.
Qed.

(** Beyond ASCII: a letter with an accent, a letter that becomes two, a
    Greek and a Cyrillic letter, and a text where nothing changes. *)
Lemma upper_examples :
  upper "user" = "USER" /\ upper "assistant" = "ASSISTANT" /\
  upper "Model-2" = "MODEL-2" /\
  upper (encode 0xE9) = encode 0xC9 /\
  upper ("stra" ++ encode 0xDF ++ "e") = "STRASSE" /\
  upper (encode 0x3C9) = encode 0x3A9 /\
  upper (encode 0x44F) = encode 0x42F /\
  upper (encode 0x4E2D ++ encode 0x1F600) = encode 0x4E2D ++ encode 0x1F600.
Proof. vm_compute. repeat split. Qed.

(** *** What [strip] takes away *)

Lemma lstrip_step s :
  lstrip s = match after_space s with Some rest => lstrip rest | None => s end.
Proof.
  destruct s as [|c r]; [reflexivity|].
  change (lstrip (String c r)) with
    (if space1 c then lstrip r
     else match r with
          | EmptyString => String c r
          | String d r2 =>
              if space2 c d then lstrip r2
              else match r2 with
                   | EmptyString => String c r
                   | String e r3 => if space3 c d e then lstrip r3 else String c r
                   end
          end).
  cbn [after_space]. destruct (space1 c); [reflexivity|].
  destruct r as [|d r2]; [reflexivity|]. destruct (space2 c d); [reflexivity|].
  destruct r2 as [|e r3]; [reflexivity|]. destruct (space3 c d e); reflexivity.
Qed.

Lemma all_space_step s :
  all_space s =
  match s with
  | EmptyString => true
  | _ => match after_space s with Some rest => all_space rest | None => false end
  end.
Proof.
  destruct s as [|c r]; [reflexivity|].
  change (all_space (String c r)) with
    (if space1 c then all_space r
     else match r with
          | EmptyString => false
          | String d r2 =>
              if space2 c d then all_space r2
              else match r2 with
                   | EmptyString => false
                   | String e r3 => space3 c d e && all_space r3
                   end
          end).
  cbn [after_space]. destruct (space1 c); [reflexivity|].
  destruct r as [|d r2]; [reflexivity|]. destruct (space2 c d); [reflexivity|].
  destruct r2 as [|e r3]; [reflexivity|]. destruct (space3 c d e); reflexivity.
Qed.

Lemma append_assoc (a b c : string) : (a ++ b) ++ c = a ++ (b ++ c).
Proof. induction a as [|x a IH]; cbn; [reflexivity | rewrite IH; reflexivity]. Qed.

Lemma length_append (a b : string) :
  String.length (a ++ b) = (String.length a + String.length b)%nat.
Proof. induction a as [|x a IH]; cbn; [reflexivity | rewrite IH; reflexivity]. Qed.

(** One white-space character [b] heads [s]; it heads every text that
    starts with the same bytes. *)
Lemma after_space_head s rest :
  after_space s = Some rest ->
  exists b, s = b ++ rest /\ b <> "" /\ forall t, after_space (b ++ t) = Some t.
Proof.
  destruct s as [|c r]; [discriminate|]. cbn [after_space].
  destruct (space1 c) eqn:E1.
  { intros H. injection H as <-. exists (String c ""). repeat split; [discriminate|].
    intros t. cbn. rewrite E1. reflexivity. }
  destruct r as [|d r2]; [discriminate|].
  destruct (space2 c d) eqn:E2.
  { intros H. injection H as <-. exists (String c (String d "")).
    repeat split; [discriminate|]. intros t. cbn. rewrite E1, E2. reflexivity. }
  destruct r2 as [|e r3]; [discriminate|].
  destruct (space3 c d e) eqn:E3; [|discriminate].
  intros H. injection H as <-. exists (String c (String d (String e ""))).
  repeat split; [discriminate|]. intros t. cbn. rewrite E1, E2, E3. reflexivity.
Qed.

Lemma string_length_ind (P : string -> Prop) :
  (forall s, (forall t, (String.length t < String.length s)%nat -> P t) -> P s) ->
  forall s, P s.
Proof.
  intros H s. remember (String.length s) as n eqn:E. revert s E.
  induction n as [n IH] using lt_wf_ind. intros s ->.
  apply H. intros t Ht. exact (IH _ Ht t eq_refl).
Qed.

Lemma after_space_shorter s rest :
  after_space s = Some rest -> (String.length rest < String.length s)%nat.
Proof.
  intros H. destruct (after_space_head s rest H) as (b & -> & Hb & _).
  rewrite length_append. destruct b; [contradiction | cbn; lia].
Qed.

Lemma all_space_cons_head b t :
  (forall u, after_space (b ++ u) = Some u) -> b <> "" ->
  all_space (b ++ t) = all_space t.
Proof.
  intros H Hb. rewrite all_space_step, H.
  destruct b; [contradiction | reflexivity].
Qed.

Lemma all_space_app a b :
  all_space a = true -> all_space b = true -> all_space (a ++ b) = true.
Proof.
  induction a as [a IH] using string_length_ind. intros Ha Hb.
  rewrite all_space_step in Ha. destruct a as [|c r] eqn:Ea; [exact Hb|].
  rewrite <- Ea in *. destruct (after_space a) as [rest|] eqn:E; [|discriminate].
  destruct (after_space_head a rest E) as (h & Hs & Hh & Hall).
  rewrite Hs, append_assoc, (all_space_cons_head h _ Hall Hh).
  apply IH; [|exact Ha | exact Hb]. apply after_space_shorter. exact E.
Qed.

(** A text whose head is no white-space character has no white-space
    start at all. *)
Lemma no_space_head_clean s : after_space s = None -> starts_clean s.
Proof.
  intros H b p Hs Hb. destruct b as [|c r] eqn:Eb; [reflexivity|]. exfalso.
  rewrite <- Eb in *. rewrite all_space_step in Hb.
  assert (Hne : b <> "") by (subst b; discriminate).
  destruct b as [|c' r'] eqn:Eb'; [contradiction|]. rewrite <- Eb' in *.
  destruct (after_space b) as [rest|] eqn:E; [|discriminate].
  destruct (after_space_head b rest E) as (h & Hh & _ & Hall).
  rewrite Hs, Hh, append_assoc, Hall in H. discriminate.
Qed.

Lemma lstrip_spec s :
  exists l, s = l ++ lstrip s /\ all_space l = true /\ starts_clean (lstrip s).
Proof.
  induction s as [s IH] using string_length_ind.
  rewrite lstrip_step. destruct (after_space s) as [rest|] eqn:E.
  - destruct (IH rest (after_space_shorter _ _ E)) as (l & Hl & Hsp & Hc).
    destruct (after_space_head s rest E) as (h & Hh & Hne & Hall).
    exists (h ++ l). repeat split.
    + rewrite append_assoc, <- Hl. exact Hh.
    + rewrite (all_space_cons_head h l Hall Hne). exact Hsp.
    + exact Hc.
  - exists "". repeat split. apply no_space_head_clean. exact E.
Qed.

Lemma rstrip_spec s :
  exists r, s = rstrip s ++ r /\ all_space r = true /\ ends_clean (rstrip s).
Proof.
  induction s as [|c s (r & Hs & Hr & Hc)].
  - exists "". repeat split. intros p b H _.
    destruct p; [cbn in H; auto | discriminate].
  - cbn [rstrip]. destruct (all_space (String c s)) eqn:E.
    + exists (String c s). repeat split; [exact E|].
      intros p b H _. destruct p; [cbn in H; auto | discriminate].
    + exists r. repeat split.
      * cbn. rewrite <- Hs. reflexivity.
      * exact Hr.
      * intros p b H Hb. destruct p as [|x p].
        -- cbn in H. exfalso.
           assert (Hall : all_space (String c s) = true).
           { rewrite Hs. change (String c (rstrip s ++ r)) with (String c (rstrip s) ++ r).
             rewrite H. apply all_space_app; assumption. }
           congruence.
        -- cbn in H. injection H as _ H. exact (Hc p b H Hb).
Qed.

(** [strip] takes white space off both ends and nothing else. *)
Lemma strip_spec s :
  exists l r,
    s = l ++ strip s ++ r /\ all_space l = true /\ all_space r = true /\
    starts_clean (strip s) /\ ends_clean (strip s).
Proof.
  destruct (lstrip_spec s) as (l & Hs & Hl & Hstart).
  destruct (rstrip_spec (lstrip s)) as (r & Ht & Hr & Hend).
  exists l, r. unfold strip. repeat split; try assumption.
  - rewrite <- Ht. exact Hs.
  - intros b p H Hb. apply (Hstart b (p ++ r)); [|exact Hb].
    rewrite Ht at 1. rewrite H, append_assoc. reflexivity.
Qed.

Lemma lstrip_blank s : all_space s = true -> lstrip s = "".
Proof.
  induction s as [s IH] using string_length_ind. intros H.
  rewrite lstrip_step. rewrite all_space_step in H.
  destruct s as [|c r] eqn:Es; [reflexivity|]. rewrite <- Es in *.
  destruct (after_space s) as [rest|] eqn:E; [|discriminate].
  apply IH; [apply after_space_shorter; exact E | exact H].
Qed.

(** Beyond ASCII: a no-break space, a line separator and an ideographic
    space go from the ends, and stay inside. *)
Lemma strip_examples :
  strip (encode 0xA0 ++ " hello" ++ encode 0x2028 ++ encode 0x3000) = "hello" /\
  strip ("a" ++ encode 0xA0 ++ "b") = "a" ++ encode 0xA0 ++ "b" /\
  strip (" " ++ newline ++ chr 9) = "".
Proof. vm_compute. repeat split. Qed.

(** *** The prompt *)

(** C8 as stated fails on texts of several lines.  Ten records and a new
    message: when the contents hold a line break the prompt has seventeen
    lines, not nine; and a message of two lines does not leave the prompt
    ending in the line "USER: <message>". *)
Lemma prompt_of_long_records_has_more_lines :
  List.length ten_long_records = 10%nat /\
  (exists p, build_prompt (VList ten_long_records)
               (user_msg_of {| conversation_id := "c-1"; message := "hello" |}) = Ok p /\
             List.length (lines p) = 17%nat) /\
  (exists p, build_prompt (VList [])
               (user_msg_of {| conversation_id := "c-1";
                               message := "first" ++ newline ++ "second" |}) = Ok p /\
             last (lines p) "" = "second").
Proof.
  split; [reflexivity|]. split; eexists; split; reflexivity.
Qed.

(** C8, amended.  For a history list whose last eight records read as a
    role that is a text and a content that prints, the prompt is built,
    and it is the join by line feeds of one entry per record of the last
    eight (all of them when there are fewer), in the order of the history,
    each "<ROLE IN UPPER CASE>: <content>", followed by the entry
    "USER: <message stripped>".  That makes min(8, n) + 1 entries, nine
    for ten records.  The entries are exactly the lines of the prompt when
    none of them holds a line break.

    Upper case is Python's: on an ASCII role the letters a to z become A
    to Z and nothing else changes, and beyond ASCII the mapping is the one
    of Unicode (U+00E9 becomes U+00C9, U+00DF becomes "SS").  The stripped
    message is the message less the white space of Unicode at its two
    ends: the message is white space, the stripped message, white space,
    and the stripped message neither starts nor ends with white space. *)
Theorem prompt_entries (hs : list value) (payload : ChatReq) :
  Forall role_is_text (last_n 8 hs) ->
  exists entries,
    let final := "USER: " ++ strip (message payload) in
    Forall2 entry_of (last_n 8 hs) entries /\
    build_prompt (VList hs) (user_msg_of payload) =
      Ok (join newline (entries ++ [final])) /\
    List.length (entries ++ [final]) = (Nat.min 8 (List.length hs) + 1)%nat /\
    (Forall one_line (entries ++ [final]) ->
     lines (join newline (entries ++ [final])) = (entries ++ [final])%list) /\
    (forall role, is_ascii role = true -> upper role = ascii_upper role) /\
    (upper (encode 0xE9) = encode 0xC9 /\
     upper ("stra" ++ encode 0xDF ++ "e") = "STRASSE") /\
    (exists l r,
       message payload = l ++ strip (message payload) ++ r /\
       all_space l = true /\ all_space r = true /\
       starts_clean (strip (message payload)) /\
       ends_clean (strip (message payload))).
Proof.
  intros Hroles.
  destruct (render_all_entries _ Hroles) as (entries & Hall & Hent).
  exists entries. cbv zeta.
  split; [exact Hent|]. split; [|split; [|split; [|split; [|split]]]].
  - unfold build_prompt, prompt_parts. cbn [slice_last8 and_then].
    rewrite Hall. cbn [and_then]. rewrite user_msg_of_strip. reflexivity.
  - rewrite length_app. cbn [List.length].
    rewrite <- (Forall2_length Hent), last_n_length. reflexivity.
  - intros Hlines. apply lines_join; [|exact Hlines].
    destruct entries; discriminate.
  - exact upper_ascii.
  - split; vm_compute; reflexivity.
  - apply strip_spec.
Qed.

(** C8, amended, on ten records and a message with white space around,
    no-break spaces among it: the prompt in full. *)
Lemma prompt_entries_witness :
  Forall role_is_text (last_n 8 ten_records) /\
  build_prompt (VList ten_records)
    (user_msg_of {| conversation_id := "c-1";
                    message := encode 0xA0 ++ "  hello " ++ encode 0xA0 |}) =
  Ok ("USER: m3" ++ newline ++ "ASSISTANT: m4" ++ newline ++
      "USER: m5" ++ newline ++ "ASSISTANT: m6" ++ newline ++
      "USER: m7" ++ newline ++ "ASSISTANT: m8" ++ newline ++
      "USER: m9" ++ newline ++ "ASSISTANT: m10" ++ newline ++
      "USER: hello") /\
  exists entries,
    Forall2 entry_of (last_n 8 ten_records) entries /\
    build_prompt (VList ten_records)
      (user_msg_of {| conversation_id := "c-1";
                      message := encode 0xA0 ++ "  hello " ++ encode 0xA0 |}) =
      Ok (join newline (entries ++ ["USER: hello"])) /\
    List.length (entries ++ ["USER: hello"]) = 9%nat.
Proof.
  assert (Hroles : Forall role_is_text (last_n 8 ten_records)).
  { repeat constructor; eexists; eexists; (split; [reflexivity|]);
      eexists; split; reflexivity. }
  split; [exact Hroles|]. split; [vm_compute; reflexivity|].
  destruct (prompt_entries ten_records
              {| conversation_id := "c-1";
                 message := encode 0xA0 ++ "  hello " ++ encode 0xA0 |} Hroles)
    as (entries & H1 & H2 & H3 & _).
  exists entries. split; [exact H1|]. split; [exact H2 | exact H3].
Defined.

(* ================================================================== *)
(** ** Further properties of the handlers *)
(* ================================================================== *)

(** *** [get_user_id]: what it calls and what it returns *)

Section Identity.
Context {W : Type} (env : sdk W).
Implicit Types (st : state W).

Lemma validate_token_state tok st :
  snd (validate_token env tok st) = after env (AuthGetUser tok) st.
Proof.
  unfold validate_token. rewrite run_bind, invoke_run.
  destruct (fst (env (AuthGetUser tok) (world st))) as [resp|cls msg]; [|reflexivity].
  rewrite run_bind. unfold lift.
  destruct (extract_user resp) as [user_obj|e]; [|reflexivity].
  destruct (truthy user_obj); cbn [negb]; [|reflexivity].
  destruct (truthy (extract_id user_obj)); reflexivity.
Qed.

Lemma validate_token_result tok st :
  match fst (validate_token env tok st) with
  | Ok v => truthy v = true
  | Err e => e = invalid_token \/ e = AttributeError \/
             exists cls msg, e = CollaboratorError cls msg
  end.
Proof.
  unfold validate_token. rewrite run_bind, invoke_run.
  destruct (fst (env (AuthGetUser tok) (world st))) as [resp|cls msg];
    [|cbn; eauto].
  rewrite run_bind. unfold lift.
  destruct (extract_user resp) as [user_obj|e] eqn:Eu.
  - destruct (truthy user_obj); cbn [negb]; [|cbn; auto].
    destruct (truthy (extract_id user_obj)) eqn:Ei; cbn; auto.
  - cbn. right. left.
    unfold extract_user in Eu.
    destruct (hasattr resp "user" && truthy (getattr resp "user" VNone));
      [discriminate|].
    destruct resp; try discriminate.
    unfold and_then, method_get in Eu.
    destruct (dict_get kvs "data" (VDict [])); congruence.
Qed.

(** The two ways [get_user_id] can go: the header is refused and nothing
    is called, or the identity service is asked once about the token. *)
Lemma get_user_id_outcome authorization st :
  (has_bearer authorization = false /\
   get_user_id env authorization st =
   (Err (HTTPException 401 "Missing bearer token"), st)) \/
  (exists a tok,
     authorization = Some a /\ has_bearer authorization = true /\
     item 1 (split_space_once a) = Ok tok /\
     snd (get_user_id env authorization st) = after env (AuthGetUser tok) st /\
     match fst (get_user_id env authorization st) with
     | Ok v => truthy v = true
     | Err e => e = invalid_token
     end).
Proof.
  destruct (has_bearer authorization) eqn:H.
  - right. destruct authorization as [a|]; [|discriminate].
    destruct (token_after_guard a H) as (scheme & tok & _ & _ & Htok).
    exists a, tok. repeat split; try assumption.
    + rewrite (get_user_id_guarded env a tok st H Htok). unfold try_except.
      pose proof (validate_token_state tok st) as Hs.
      destruct (validate_token env tok st) as [[v|e] st']; cbn [snd] in Hs.
      * exact Hs.
      * destruct e; exact Hs.
    + rewrite (get_user_id_guarded env a tok st H Htok). unfold try_except.
      pose proof (validate_token_result tok st) as Hr.
      destruct (validate_token env tok st) as [[v|e] st']; cbn [fst] in Hr |- *.
      * exact Hr.
      * destruct Hr as [-> | [-> | (cls & msg & ->)]]; reflexivity.
  - left. split; [reflexivity|]. apply get_user_id_missing. exact H.
Qed.

End Identity.

(** X1.  Whatever the header, [get_user_id] calls nothing but the identity
    service, and that at most once: the log grows by no call (the header is
    refused) or by the one call [get_user(token)].  When it returns, the id
    is truthy; when it raises, the error is 401 with one of the two details
    "Missing bearer token" and "Invalid token". *)
Theorem get_user_id_asks_identity_once {W : Type} (env : sdk W) authorization
    (st : state W) :
  (exists calls,
     log (snd (get_user_id env authorization st)) = (log st ++ calls)%list /\
     (calls = [] \/ exists tok, calls = [AuthGetUser tok])) /\
  match fst (get_user_id env authorization st) with
  | Ok v => truthy v = true /\ has_bearer authorization = true
  | Err e => e = HTTPException 401 "Missing bearer token" \/ e = invalid_token
  end.
Proof.
  destruct (get_user_id_outcome env authorization st)
    as [[H E] | (a & tok & _ & H & _ & Hs & Hr)].
  - rewrite E. cbn [fst snd]. split; [|left; reflexivity].
    exists []. rewrite app_nil_r. split; [reflexivity | left; reflexivity].
  - split.
    + exists [AuthGetUser tok]. rewrite Hs. split; [reflexivity|].
      right. exists tok. reflexivity.
    + destruct (fst (get_user_id env authorization st)); [split; assumption|].
      right. exact Hr.
Qed.

Lemma prefix_same x p s :
  String.prefix (String x p) (String x s) = String.prefix p s.
Proof. cbn [String.prefix]. destruct (ascii_dec x x); congruence. Qed.

Lemma lower_bearer_scheme scheme :
  lower scheme = "bearer" ->
  exists c1 c2 c3 c4 c5 c6,
    scheme = String c1 (String c2 (String c3 (String c4 (String c5 (String c6 EmptyString))))) /\
    lower_char c1 <> " "%char /\ lower_char c2 <> " "%char /\
    lower_char c3 <> " "%char /\ lower_char c4 <> " "%char /\
    lower_char c5 <> " "%char /\ lower_char c6 <> " "%char.
Proof.
  destruct scheme as [|c1 [|c2 [|c3 [|c4 [|c5 [|c6 [|c7 rest]]]]]]];
    cbn; intros H; try discriminate H.
  injection H as H1 H2 H3 H4 H5 H6.
  exists c1, c2, c3, c4, c5, c6. split; [reflexivity|].
  repeat split; intros E; congruence.
Qed.

(** A header with a scheme that is "bearer" in lower case passes the guard
    and its token is what follows the space. *)
Lemma bearer_header scheme tok :
  lower scheme = "bearer" ->
  has_bearer (Some (scheme ++ " " ++ tok)) = true /\
  item 1 (split_space_once (scheme ++ " " ++ tok)) = Ok tok.
Proof.
  intros Hs.
  destruct (lower_bearer_scheme scheme Hs)
    as (c1 & c2 & c3 & c4 & c5 & c6 & -> & N1 & N2 & N3 & N4 & N5 & N6).
  split.
  - unfold has_bearer, startswith. change (lower "Bearer ") with "bearer ".
    cbn in Hs. injection Hs as H1 H2 H3 H4 H5 H6.
    unfold lower. cbn [map_string append]. rewrite H1, H2, H3, H4, H5, H6.
    change (lower_char " ") with " "%char.
    rewrite !prefix_same. destruct tok; reflexivity.
  - cbn [append]. rewrite !split_space_once_letter by assumption. reflexivity.
Qed.

(** X2.  The scheme is read without regard to letter case and the token is
    everything after the first space.  For a header made of a scheme that
    is "bearer" in lower case, one space and any text [tok] (empty, or with
    spaces of its own), the header passes the guard, the identity service
    is asked about exactly [tok], and the outcome is the one of the header
    "Bearer " followed by [tok]. *)
Theorem bearer_scheme_any_case {W : Type} (env : sdk W) scheme tok (st : state W) :
  lower scheme = "bearer" ->
  has_bearer (Some (scheme ++ " " ++ tok)) = true /\
  log (snd (get_user_id env (Some (scheme ++ " " ++ tok)) st)) =
    (log st ++ [AuthGetUser tok])%list /\
  get_user_id env (Some (scheme ++ " " ++ tok)) st =
  get_user_id env (Some ("Bearer " ++ tok)) st.
Proof.
  intros Hs.
  destruct (bearer_header scheme tok Hs) as [Hb Htok].
  destruct (bearer_header "Bearer" tok eq_refl) as [Hb' Htok'].
  split; [exact Hb|].
  rewrite (get_user_id_guarded env _ tok st Hb Htok).
  change ("Bearer " ++ tok) with ("Bearer" ++ " " ++ tok).
  rewrite (get_user_id_guarded env _ tok st Hb' Htok').
  split; [|reflexivity].
  unfold try_except.
  pose proof (validate_token_state env tok st) as Hst.
  destruct (validate_token env tok st) as [[v|e] st']; cbn [snd] in Hst |- *.
  - rewrite Hst. reflexivity.
  - destruct e; cbn [snd raise]; rewrite Hst; reflexivity.
Qed.

(** X2 on an upper-case scheme and a token with a space in it. *)
Lemma bearer_scheme_any_case_witness :
  lower "BEARER" = "bearer" /\
  log (snd (get_user_id (Scenario.scripted Scenario.usual)
              (Some "BEARER abc def") Scenario.fresh)) = [AuthGetUser "abc def"].
Proof.
  split; [reflexivity|].
  exact (proj1 (proj2 (bearer_scheme_any_case (Scenario.scripted Scenario.usual)
                         "BEARER" "abc def" Scenario.fresh eq_refl))).
Defined.

(** X3.  The identity service may answer in three shapes and all three
    give the same user id: an object whose [user] attribute is the user, a
    mapping with the user under data.user, and a mapping with the user
    under user (and no data).  With a truthy user that has a truthy id,
    [get_user_id] returns that id after the one identity call. *)
Theorem identity_answer_shapes {W : Type} (env : sdk W) tok (st : state W)
    resp w1 user_obj :
  env (AuthGetUser tok) (world st) = (Returns resp, w1) ->
  getattr resp "user" VNone = user_obj \/
  (exists kvs data, resp = VDict kvs /\ lookup "data" kvs = Some (VDict data) /\
                    lookup "user" data = Some user_obj) \/
  (exists kvs, resp = VDict kvs /\ lookup "data" kvs = None /\
               lookup "user" kvs = Some user_obj) ->
  truthy user_obj = true ->
  truthy (extract_id user_obj) = true ->
  get_user_id env (Some ("Bearer " ++ tok)) st =
  (Ok (extract_id user_obj),
   {| world := w1; log := log st ++ [AuthGetUser tok] |}).
Proof.
  intros Henv Hshape Hu Hid.
  destruct (bearer_header "Bearer" tok eq_refl) as [Hb Htok].
  change ("Bearer " ++ tok) with ("Bearer" ++ " " ++ tok).
  rewrite (get_user_id_guarded env _ tok st Hb Htok).
  unfold try_except, validate_token.
  rewrite run_bind, (run_invoke_returns env _ st resp w1 Henv), run_bind.
  assert (Hx : extract_user resp = Ok user_obj).
  { unfold extract_user.
    destruct Hshape as [Ho | [(kvs & data & -> & Hd & Hud) | (kvs & -> & Hd & Huk)]].
    - destruct resp; cbn in Ho; try (subst user_obj; discriminate Hu).
      cbn [hasattr getattr]. destruct (lookup "user" attrs) as [x|];
        [|subst user_obj; discriminate Hu].
      subst x. rewrite Hu. reflexivity.
    - cbn [hasattr andb]. unfold dict_get at 1. rewrite Hd.
      cbn [method_get and_then]. unfold dict_get at 1. rewrite Hud.
      unfold por. rewrite Hu. reflexivity.
    - cbn [hasattr andb]. unfold dict_get at 1. rewrite Hd.
      cbn [method_get and_then dict_get lookup por truthy].
      unfold dict_get. rewrite Huk. reflexivity. }
  unfold lift. rewrite Hx, Hu. cbn [negb]. rewrite Hid. reflexivity.
Qed.

(** X3 on the mapping shape with the user under data.user. *)
Lemma identity_answer_shapes_witness :
  fst (get_user_id
         (Scenario.scripted
            (Scenario.with_auth
               (Returns (VDict [("data", VDict [("user", VDict [("id", VStr "u-7")])])]))
               Scenario.usual))
         (Some "Bearer abc") Scenario.fresh) = Ok (VStr "u-7").
Proof.
  refine (f_equal fst
    (identity_answer_shapes
       (Scenario.scripted
          (Scenario.with_auth
             (Returns (VDict [("data", VDict [("user", VDict [("id", VStr "u-7")])])]))
             Scenario.usual))
       "abc" Scenario.fresh _ tt (VDict [("id", VStr "u-7")]) eq_refl _ eq_refl eq_refl)).
  right. left. eexists. eexists. repeat split.
Defined.

Lemma status_of_plain_error e :
  (forall s d, e <> HTTPException s d) ->
  status (respond (@Err value e)) = 500%Z.
Proof.
  intros H. destruct e; try reflexivity. exfalso. eapply H. reflexivity.
Qed.

(** X4.  When authentication fails, for whatever reason, the request stops
    there on every protected route: the answer is 401, and no call to the
    store or to the model has been made. *)
Theorem failed_authentication_stops_the_request {W : Type} (env : sdk W)
    authorization (r : request) (st : state W) e :
  fst (get_user_id env authorization st) = Err e ->
  status (fst (serve env authorization r st)) = 401%Z /\
  exists calls,
    log (snd (serve env authorization r st)) = (log st ++ calls)%list /\
    forallb (fun c => negb (beyond_identity c)) calls = true.
Proof.
  intros He.
  assert (Hserve : serve env authorization r st =
                   (respond (Err e), snd (get_user_id env authorization st))).
  { unfold serve, handle. rewrite run_bind.
    destruct (get_user_id env authorization st) as [[v|e'] st'];
      cbn [fst snd] in *; [discriminate|]. congruence. }
  rewrite Hserve. cbn [fst snd].
  destruct (get_user_id_outcome env authorization st)
    as [[H E] | (a & tok & _ & H & _ & Hs & Hr)].
  - rewrite E in He |- *. cbn [fst snd] in *. injection He as <-.
    split; [reflexivity|]. exists []. rewrite app_nil_r. split; reflexivity.
  - rewrite He in Hr. subst e. split; [reflexivity|].
    exists [AuthGetUser tok]. rewrite Hs. split; reflexivity.
Qed.

(** X4 on a history request with a token the identity service rejects. *)
Lemma failed_authentication_stops_the_request_witness :
  status (fst (serve (Scenario.scripted
                        (Scenario.with_auth
                           (Raises "AuthApiError" "invalid JWT") Scenario.usual))
                 (Some "Bearer abc") (History "c-1") Scenario.fresh)) = 401%Z.
Proof.
  exact (proj1 (failed_authentication_stops_the_request
                  (Scenario.scripted
                     (Scenario.with_auth
                        (Raises "AuthApiError" "invalid JWT") Scenario.usual))
                  (Some "Bearer abc") (History "c-1") Scenario.fresh _ eq_refl)).
Defined.

(** *** [start_conversation] *)

(** The handler, call by call: one insert with the title that is kept,
    then the reading of the id. *)
Lemma start_conversation_run {W : Type} (env : sdk W) payload user_id
    (st : state W) :
  exists kept,
    (title payload = None \/ title payload = Some "" -> kept = "New Conversation") /\
    (forall t, title payload = Some t -> t <> "" -> kept = t) /\
    start_conversation env payload user_id st =
    (match fst (env (create_call user_id kept) (world st)) with
     | Raises cls msg => Err (CollaboratorError cls msg)
     | Returns conv => created (por (getattr conv "data" VNone) (VList []))
     end,
     after env (create_call user_id kept) st).
Proof.
  exists (match title payload with
          | Some t => if t =? "" then "New Conversation" else t
          | None => "New Conversation"
          end).
  split; [|split].
  - intros [-> | ->]; reflexivity.
  - intros t -> Ht. destruct (String.eqb_spec t ""); [contradiction | reflexivity].
  - unfold start_conversation. rewrite run_bind.
    fold (create_call user_id
            (match title payload with
             | Some t => if t =? "" then "New Conversation" else t
             | None => "New Conversation"
             end)).
    rewrite invoke_run.
    destruct (fst (env _ (world st))) as [conv|cls msg]; [|reflexivity].
    rewrite run_bind. unfold created.
    destruct (por (getattr conv "data" VNone) (VList [])) as [| | | |xs|kvs| |];
      try reflexivity.
    + destruct xs as [|first rest]; [reflexivity|].
      unfold lift. destruct (method_get first "id" VNone) as [conv_id|e]; [|reflexivity].
      cbn [and_then]. destruct (truthy conv_id); reflexivity.
    + unfold ret at 1. cbn [and_then].
      destruct (truthy (dict_get kvs "id" VNone)); reflexivity.
Qed.

Lemma start_conversation_run_kept {W : Type} (env : sdk W) payload user_id
    (st : state W) :
  start_conversation env payload user_id st =
  (match fst (env (create_call user_id (kept_title payload)) (world st)) with
   | Raises cls msg => Err (CollaboratorError cls msg)
   | Returns conv => created (por (getattr conv "data" VNone) (VList []))
   end,
   after env (create_call user_id (kept_title payload)) st).
Proof.
  destruct (start_conversation_run env payload user_id st) as (kept & Hd & Ht & E).
  assert (Hk : kept = kept_title payload).
  { unfold kept_title. destruct (title payload) as [t|] eqn:Et.
    - destruct (String.eqb_spec t "") as [->|Hne].
      + apply Hd. right. reflexivity.
      + apply (Ht t eq_refl Hne).
    - apply Hd. left. reflexivity. }
  rewrite <- Hk. exact E.
Qed.

(** X5.  [start_conversation] makes exactly one call, the insert of one
    row into conversations with the caller's id and a title: the title of
    the request when it has one that is not empty, "New Conversation" when
    the title is absent and also when it is the empty text. *)
Theorem start_conversation_inserts_one_titled_row {W : Type} (env : sdk W)
    payload user_id (st : state W) :
  (title payload = None \/ title payload = Some "" ->
   log (snd (start_conversation env payload user_id st)) =
   (log st ++ [StoreInsert "conversations"
                 (VDict [("user_id", user_id);
                         ("title", VStr "New Conversation")])])%list) /\
  (forall t, title payload = Some t -> t <> "" ->
   log (snd (start_conversation env payload user_id st)) =
   (log st ++ [StoreInsert "conversations"
                 (VDict [("user_id", user_id); ("title", VStr t)])])%list).
Proof.
  destruct (start_conversation_run env payload user_id st) as (kept & Hd & Ht & E).
  rewrite E. cbn [snd]. unfold after. cbn [log]. split.
  - intros H. rewrite (Hd H). reflexivity.
  - intros t H1 H2. rewrite (Ht t H1 H2). reflexivity.
Qed.

Lemma created_outcome conv_data :
  match created conv_data with
  | Ok v => exists conv_id, v = VDict [("conversation_id", conv_id)] /\
                            truthy conv_id = true
  | Err e => e = creation_failed \/ e = AttributeError
  end.
Proof.
  unfold created.
  assert (Hk : forall conv_id,
    match (if negb (truthy conv_id) then Err creation_failed
           else Ok (VDict [("conversation_id", conv_id)])) with
    | Ok v => exists c, v = VDict [("conversation_id", c)] /\ truthy c = true
    | Err e => e = creation_failed \/ e = AttributeError
    end).
  { intros conv_id. destruct (truthy conv_id) eqn:E; cbn [negb]; eauto. }
  destruct conv_data as [| | | |xs|kvs| |]; try (cbn [and_then]; apply (Hk VNone)).
  - destruct xs as [|first rest]; [apply (Hk VNone)|].
    destruct first; cbn [method_get and_then]; auto. apply Hk.
  - cbn [and_then]. apply Hk.
Qed.

Lemma start_conversation_outcome {W : Type} (env : sdk W) payload user_id
    (st : state W) :
  match fst (start_conversation env payload user_id st) with
  | Ok v => exists conv_id, v = VDict [("conversation_id", conv_id)] /\
                            truthy conv_id = true
  | Err e => e = creation_failed \/ e = AttributeError \/
             exists cls msg, e = CollaboratorError cls msg
  end.
Proof.
  destruct (start_conversation_run env payload user_id st) as (kept & _ & _ & E).
  rewrite E. cbn [fst].
  destruct (fst (env (create_call user_id kept) (world st))) as [conv|cls msg].
  - pose proof (created_outcome (por (getattr conv "data" VNone) (VList []))) as H.
    destruct (created (por (getattr conv "data" VNone) (VList []))); [exact H|].
    destruct H as [-> | ->]; auto.
  - right. right. eauto.
Qed.

(** X6.  [start_conversation] never hands out an empty conversation id.
    When it returns, the body is one field, conversation_id, with a truthy
    value; otherwise it fails with 500 "Failed to create conversation",
    with the AttributeError of a first row that is no mapping, or with what
    the store raised (the insert is not guarded by any [try]). *)
Theorem start_conversation_id_is_never_empty {W : Type} (env : sdk W) payload
    user_id (st : state W) :
  match fst (start_conversation env payload user_id st) with
  | Ok v => exists conv_id, v = VDict [("conversation_id", conv_id)] /\
                            truthy conv_id = true
  | Err e => e = creation_failed \/ e = AttributeError \/
             exists cls msg, e = CollaboratorError cls msg
  end.
Proof. exact (start_conversation_outcome env payload user_id st). Qed.

(** X7.  The id of the new conversation is read from both shapes of the
    store's answer to the insert that is made (the row with the caller's
    id and the kept title): from the first row when [data] is a list of
    rows, from the row itself when [data] is one mapping.  With a truthy
    id in that row the request is answered 200 with that id. *)
Theorem start_conversation_reads_both_shapes {W : Type} (env : sdk W) payload
    user_id (st : state W) conv row :
  fst (env (create_call user_id (kept_title payload)) (world st)) = Returns conv ->
  (exists rest, getattr conv "data" VNone = VList (VDict row :: rest)) \/
  getattr conv "data" VNone = VDict row ->
  truthy (dict_get row "id" VNone) = true ->
  fst (start_conversation env payload user_id st) =
  Ok (VDict [("conversation_id", dict_get row "id" VNone)]).
Proof.
  intros Henv Hshape Hid.
  rewrite start_conversation_run_kept. cbn [fst]. rewrite Henv.
  destruct Hshape as [(rest & Hl) | Hm].
  - rewrite Hl. cbn [por truthy]. unfold created.
    cbn [method_get and_then]. rewrite Hid. reflexivity.
  - rewrite Hm. unfold por.
    assert (Ht : truthy (VDict row) = true).
    { destruct row; [discriminate Hid | reflexivity]. }
    rewrite Ht. unfold created. cbn [and_then]. rewrite Hid. reflexivity.
Qed.

(** X7 on a store that returns the created row, with its new id. *)
Lemma start_conversation_reads_both_shapes_witness :
  fst (Scenario.returning_store (Some "c-5")
         (create_call (VStr "u-1") "New Conversation") tt)
  = Returns (Scenario.obj 3 "APIResponse"
               [("data", VList [VDict [("id", VStr "c-5"); ("user_id", VStr "u-1");
                                       ("title", VStr "New Conversation")]])]) /\
  fst (start_conversation (Scenario.returning_store (Some "c-5"))
         {| title := None |} (VStr "u-1") Scenario.fresh)
  = Ok (VDict [("conversation_id", VStr "c-5")]).
Proof.
  split; [reflexivity|].
  refine (start_conversation_reads_both_shapes
            (Scenario.returning_store (Some "c-5"))
            {| title := None |} (VStr "u-1") Scenario.fresh _
            [("id", VStr "c-5"); ("user_id", VStr "u-1");
             ("title", VStr "New Conversation")]
            eq_refl _ eq_refl).
  left. exists []. reflexivity.
Defined.

(** X8.  When the store's answer to the insert that is made carries no
    usable row, the creation is reported as failed: [data] missing, None,
    an empty list or an empty mapping, or a row (first of the list, or the
    mapping) without a truthy id, all give 500 "Failed to create
    conversation". *)
Theorem start_conversation_without_id_is_500 {W : Type} (env : sdk W) payload
    user_id (st : state W) conv :
  fst (env (create_call user_id (kept_title payload)) (world st)) = Returns conv ->
  truthy (getattr conv "data" VNone) = false \/
  (exists row rest, getattr conv "data" VNone = VList (VDict row :: rest) /\
                    truthy (dict_get row "id" VNone) = false) \/
  (exists row, getattr conv "data" VNone = VDict row /\
               truthy (dict_get row "id" VNone) = false) ->
  fst (start_conversation env payload user_id st) = Err creation_failed /\
  status (respond (@Err value creation_failed)) = 500%Z.
Proof.
  intros Henv Hcase. split; [|reflexivity].
  rewrite start_conversation_run_kept. cbn [fst]. rewrite Henv.
  destruct Hcase as [Hf | [(row & rest & Hl & Hid) | (row & Hm & Hid)]].
  - unfold por. rewrite Hf. reflexivity.
  - rewrite Hl. cbn [por truthy]. unfold created.
    cbn [method_get and_then]. rewrite Hid. reflexivity.
  - rewrite Hm. unfold por. destruct (truthy (VDict row)).
    + unfold created. cbn [and_then]. rewrite Hid. reflexivity.
    + reflexivity.
Qed.

(** X8 on a store that returns the created row without an id. *)
Lemma start_conversation_without_id_is_500_witness :
  fst (Scenario.returning_store None (create_call (VStr "u-1") "Plans") tt)
  = Returns (Scenario.obj 3 "APIResponse"
               [("data", VList [VDict [("user_id", VStr "u-1");
                                       ("title", VStr "Plans")]])]) /\
  fst (start_conversation (Scenario.returning_store None)
         {| title := Some "Plans" |} (VStr "u-1") Scenario.fresh)
  = Err creation_failed.
Proof.
  split; [reflexivity|].
  refine (proj1 (start_conversation_without_id_is_500
            (Scenario.returning_store None)
            {| title := Some "Plans" |} (VStr "u-1") Scenario.fresh _ eq_refl _)).
  right. left. exists [("user_id", VStr "u-1"); ("title", VStr "Plans")], [].
  split; reflexivity.
Defined.

(** *** [history] *)

(** The handler, call by call. *)
Lemma history_run {W : Type} (env : sdk W) conversation_id user_id (st : state W) :
  history env conversation_id user_id st =
  let st1 := after env (conversation_call conversation_id) st in
  match fst (env (conversation_call conversation_id) (world st)) with
  | Raises cls msg => (Err (CollaboratorError cls msg), st1)
  | Returns conv =>
      if not_found (getattr conv "data" VNone) user_id
      then (Err conversation_not_found, st1)
      else (match fst (env (messages_call conversation_id) (world st1)) with
            | Raises cls msg => Err (CollaboratorError cls msg)
            | Returns msgs =>
                Ok (VDict [("messages",
                            por (getattr msgs "data" (VList [])) (VList []))])
            end,
            after env (messages_call conversation_id) st1)
  end.
Proof.
  unfold history. rewrite run_bind.
  fold (conversation_call conversation_id). rewrite invoke_run.
  destruct (fst (env (conversation_call conversation_id) (world st)))
    as [conv|cls msg]; [|reflexivity].
  cbv zeta. destruct (not_found (getattr conv "data" VNone) user_id); [reflexivity|].
  rewrite run_bind. fold (messages_call conversation_id). rewrite invoke_run.
  destruct (fst (env (messages_call conversation_id) _)); reflexivity.
Qed.

Lemma eq_none_left u : eq VNone u = true -> u = VNone.
Proof. destruct u; cbn; congruence. Qed.

(** X9.  The owner gets the messages.  When the conversation row is a
    mapping whose user_id is [==] the (truthy) id of the caller and the
    messages select returns, [history] returns the rows of [data] as the
    store gave them, and the empty list, never null, when [data] is
    missing or empty. *)
Theorem history_owner_gets_messages {W : Type} (env : sdk W) conversation_id
    user_id (st : state W) conv row msgs :
  truthy user_id = true ->
  fst (env (conversation_call conversation_id) (world st)) = Returns conv ->
  getattr conv "data" VNone = VDict row ->
  eq (dict_get row "user_id" VNone) user_id = true ->
  fst (env (messages_call conversation_id)
         (snd (env (conversation_call conversation_id) (world st)))) = Returns msgs ->
  (truthy (getattr msgs "data" (VList [])) = true ->
   fst (history env conversation_id user_id st) =
   Ok (VDict [("messages", getattr msgs "data" (VList []))])) /\
  (truthy (getattr msgs "data" (VList [])) = false ->
   fst (history env conversation_id user_id st) = Ok (VDict [("messages", VList [])])).
Proof.
  intros Hu Hconv Hrow Hown Hmsgs.
  assert (Hnf : not_found (getattr conv "data" VNone) user_id = false).
  { unfold not_found, ne. rewrite Hrow, Hown.
    destruct row as [|kv row'].
    - cbn in Hown. apply eq_none_left in Hown. subst user_id. discriminate Hu.
    - reflexivity. }
  rewrite history_run, Hconv. cbv zeta. rewrite Hnf. cbn [fst].
  unfold after. cbn [world]. rewrite Hmsgs.
  unfold por. split; intros Ht; rewrite Ht; reflexivity.
Qed.

(** X9 on the usual deployment: u-1 reads their conversation. *)
Lemma history_owner_gets_messages_witness :
  fst (history (Scenario.scripted Scenario.usual) "c-1" (VStr "u-1") Scenario.fresh)
  = Ok (VDict [("messages", VList [Scenario.row "user" "hi";
                                   Scenario.row "assistant" "hello"])]).
Proof.
  exact (proj1 (history_owner_gets_messages (Scenario.scripted Scenario.usual)
                  "c-1" (VStr "u-1") Scenario.fresh _
                  [("id", VStr "c-1"); ("user_id", VStr "u-1")] _
                  eq_refl eq_refl eq_refl eq_refl eq_refl) eq_refl).
Defined.

(** X10.  [history] reads the conversation first and the messages only
    after the check has passed: its calls are the conversation select
    alone, or that select followed by the messages select (all columns,
    ascending creation time, no limit), and the second form occurs only
    when the conversation select returned and the row was not refused. *)
Theorem history_reads_messages_after_the_check {W : Type} (env : sdk W)
    conversation_id user_id (st : state W) :
  exists calls,
    log (snd (history env conversation_id user_id st)) = (log st ++ calls)%list /\
    (calls = [conversation_call conversation_id] \/
     calls = [conversation_call conversation_id; messages_call conversation_id] /\
     exists conv,
       fst (env (conversation_call conversation_id) (world st)) = Returns conv /\
       not_found (getattr conv "data" VNone) user_id = false).
Proof.
  rewrite history_run. cbv zeta.
  destruct (fst (env (conversation_call conversation_id) (world st)))
    as [conv|cls msg] eqn:Hc.
  - destruct (not_found (getattr conv "data" VNone) user_id) eqn:Hnf.
    + exists [conversation_call conversation_id]. split; [reflexivity | left; reflexivity].
    + exists [conversation_call conversation_id; messages_call conversation_id].
      split.
      * unfold after. cbn [snd log]. rewrite <- app_assoc. reflexivity.
      * right. split; [reflexivity|]. exists conv. split; [reflexivity | exact Hnf].
  - exists [conversation_call conversation_id]. split; [reflexivity | left; reflexivity].
Qed.

(** *** The statuses of the protected routes *)

Lemma of_answer_error {A : Type} (a : answer A) e :
  of_answer a = Err e -> exists cls msg, e = CollaboratorError cls msg.
Proof. destruct a; cbn; intros H; [discriminate|]. injection H as <-. eauto. Qed.

Lemma field_error h name e :
  field h name = Err e -> exists cls msg, e = CollaboratorError cls msg.
Proof.
  destruct h; cbn [field]; try apply of_answer_error. discriminate.
Qed.

(** What can stop the loop: a role without [upper], or the code of a
    record that raises when the record is read or printed. *)
Lemma render_error h e :
  render h = Err e ->
  e = AttributeError \/ exists cls msg, e = CollaboratorError cls msg.
Proof.
  unfold render.
  destruct (field h "role") as [role|e1] eqn:Er; cbn [and_then];
    [|intros H; injection H as <-; right; eapply field_error; exact Er].
  destruct (field h "content") as [content|e2] eqn:Ec; cbn [and_then];
    [|intros H; injection H as <-; right; eapply field_error; exact Ec].
  destruct (method_upper role) as [r|e3] eqn:Eu; cbn [and_then].
  - destruct (of_answer (str content)) as [c|e4] eqn:Es; cbn [and_then];
      [discriminate|].
    intros H. injection H as <-. right. eapply of_answer_error. exact Es.
  - intros H. injection H as <-. left.
    destruct role; cbn in Eu; congruence.
Qed.

Lemma render_all_error hs e :
  render_all hs = Err e ->
  e = AttributeError \/ exists cls msg, e = CollaboratorError cls msg.
Proof.
  induction hs as [|h hs IH]; [discriminate|].
  cbn [render_all]. destruct (render h) as [p|e'] eqn:Eh; cbn [and_then].
  - destruct (render_all hs) as [ps|e'']; [discriminate|].
    cbn [and_then]. intros H. injection H as <-. apply IH. reflexivity.
  - intros H. injection H as <-. eapply render_error. exact Eh.
Qed.

Lemma build_prompt_error history user_msg e :
  build_prompt history user_msg = Err e ->
  e = AttributeError \/ e = TypeError \/
  exists cls msg, e = CollaboratorError cls msg.
Proof.
  unfold build_prompt, prompt_parts.
  destruct (slice_last8 history) as [hs|e'] eqn:Es.
  - cbn [and_then]. destruct (render_all hs) as [ps|e''] eqn:Er; [discriminate|].
    cbn [and_then]. intros H. injection H as <-.
    destruct (render_all_error _ _ Er) as [-> | H]; auto.
  - cbn [and_then]. intros H. injection H as <-. right. left.
    destruct history; cbn in Es; congruence.
Qed.

Lemma chat_error {W : Type} (env : sdk W) payload user_id (st : state W) e :
  fst (chat env payload user_id st) = Err e ->
  forall s d, e <> HTTPException s d.
Proof.
  rewrite chat_run. cbv zeta.
  destruct (fst (env (history_call payload) (world st))) as [hr|cls msg].
  - destruct (build_prompt (history_of hr) (user_msg_of payload)) as [p|e'] eqn:Ep.
    + cbn [fst]. destruct (reply_text_of _); cbn; intros H; try discriminate H;
        injection H as <-; discriminate.
    + cbn [fst]. intros H. injection H as <-.
      destruct (build_prompt_error _ _ _ Ep) as [-> | [-> | (cls & msg & ->)]];
        discriminate.
  - cbn [fst]. intros H. injection H as <-. discriminate.
Qed.

(** X11.  The statuses a protected route can answer with.  Whatever the
    header, the body and the collaborators do: start-conversation answers
    200, 401 or 500; history answers 200, 401, 404 or 500; chat answers
    200, 401 or 500, so never 404, whatever the conversation id. *)
Theorem statuses_of_the_routes {W : Type} (env : sdk W) authorization
    (r : request) (st : state W) :
  let s := status (fst (serve env authorization r st)) in
  match r with
  | StartConversation _ => s = 200 \/ s = 401 \/ s = 500
  | History _ => s = 200 \/ s = 401 \/ s = 404 \/ s = 500
  | Chat _ => s = 200 \/ s = 401 \/ s = 500
  end%Z.
Proof.
  cbv zeta.
  destruct (fst (get_user_id env authorization st)) as [user_id|e] eqn:Hauth.
  - assert (Hserve : fst (serve env authorization r st) =
      respond (fst (match r with
                    | StartConversation payload => start_conversation env payload user_id
                    | History cid => history env cid user_id
                    | Chat payload => resp <- chat env payload user_id ;; ret (dump resp)
                    end%eff (snd (get_user_id env authorization st))))).
    { unfold serve, handle. rewrite run_bind.
      destruct (get_user_id env authorization st) as [[v|e'] st'];
        cbn [fst snd] in *; [|discriminate].
      injection Hauth as ->.
      destruct (match r with
                | StartConversation payload => start_conversation env payload user_id
                | History cid => history env cid user_id
                | Chat payload => resp <- chat env payload user_id ;; ret (dump resp)
                end%eff st'); reflexivity. }
    rewrite Hserve. set (st0 := snd (get_user_id env authorization st)).
    destruct r as [payload|cid|payload].
    + pose proof (start_conversation_outcome env payload user_id st0) as H.
      destruct (fst (start_conversation env payload user_id st0)) as [v|e].
      * left. reflexivity.
      * right. right. destruct H as [-> | [-> | (cls & msg & ->)]]; reflexivity.
    + rewrite history_run. cbv zeta.
      destruct (fst (env (conversation_call cid) (world st0))) as [conv|cls msg];
        [|right; right; right; reflexivity].
      destruct (not_found (getattr conv "data" VNone) user_id);
        [right; right; left; reflexivity|].
      cbn [fst]. destruct (fst (env (messages_call cid) _));
        [left | right; right; right]; reflexivity.
    + rewrite run_bind.
      pose proof (chat_error env payload user_id st0) as H.
      destruct (chat env payload user_id st0) as [[resp|e] st']; cbn [fst] in *.
      * left. reflexivity.
      * right. right. apply status_of_plain_error. apply H. reflexivity.
  - assert (Hserve : fst (serve env authorization r st) = respond (Err e)).
    { unfold serve, handle. rewrite run_bind.
      destruct (get_user_id env authorization st) as [[v|e'] st'];
        cbn [fst] in *; [discriminate|]. congruence. }
    rewrite Hserve.
    assert (He : e = HTTPException 401 "Missing bearer token" \/ e = invalid_token).
    { destruct (get_user_id_outcome env authorization st)
        as [[_ E] | (a & tok & _ & _ & _ & _ & Hr)].
      - rewrite E in Hauth. injection Hauth as <-. left. reflexivity.
      - rewrite Hauth in Hr. right. exact Hr. }
    destruct He as [-> | ->]; destruct r; right; left; reflexivity.
Qed.

(** *** [chat]: its calls and what it keeps *)

(** X12.  No retries and a fixed order.  [chat] reads the recent messages
    once (columns role and content, ascending, at most 20).  When that
    select raises, or the prompt cannot be built, nothing else is called
    and no reply is returned.  When the select returns and the prompt is
    built, the model is called exactly once, with that prompt, and then the
    insert is attempted exactly once, with the stripped message and the
    reply text, whether the model answered or raised: these three calls,
    in this order, are all the calls of the request. *)
Theorem chat_calls_in_order {W : Type} (env : sdk W) payload user_id
    (st : state W) :
  match fst (env (history_call payload) (world st)) with
  | Raises _ _ =>
      log (snd (chat env payload user_id st)) = (log st ++ [history_call payload])%list /\
      forall resp, fst (chat env payload user_id st) <> Ok resp
  | Returns history_resp =>
      match build_prompt (history_of history_resp) (user_msg_of payload) with
      | Err _ =>
          log (snd (chat env payload user_id st)) =
            (log st ++ [history_call payload])%list /\
          forall resp, fst (chat env payload user_id st) <> Ok resp
      | Ok prompt =>
          log (snd (chat env payload user_id st)) =
          (log st ++
           [history_call payload;
            generate_call prompt;
            insert_call payload user_id (strip (message payload))
              (reply_text_of
                 (fst (env (generate_call prompt)
                         (snd (env (history_call payload) (world st))))))])%list
      end
  end.
Proof.
  rewrite chat_run. cbv zeta.
  destruct (fst (env (history_call payload) (world st))) as [hr|cls msg].
  - destruct (build_prompt (history_of hr) (user_msg_of payload)) as [prompt|e].
    + unfold after. cbn [snd log world]. rewrite <- !app_assoc, user_msg_of_strip.
      reflexivity.
    + split; [reflexivity | discriminate].
  - split; [reflexivity | discriminate].
Qed.

(** X13.  What is answered is what is kept.  When [chat] returns the reply
    [r], the last call of the request is the insert of two rows into
    chat_messages, both for the conversation id of the request and the
    caller's id: a user row with the message stripped of outer white space,
    then an assistant row whose content is exactly [r]. *)
Theorem chat_keeps_what_it_answers {W : Type} (env : sdk W) payload user_id
    (st : state W) r :
  fst (chat env payload user_id st) = Ok {| reply := r |} ->
  exists earlier,
    log (snd (chat env payload user_id st)) =
    (earlier ++
     [StoreInsert "chat_messages"
        (VList [ VDict [("conversation_id", VStr (conversation_id payload));
                        ("user_id", user_id);
                        ("role", VStr "user");
                        ("content", VStr (strip (message payload)))];
                 VDict [("conversation_id", VStr (conversation_id payload));
                        ("user_id", user_id);
                        ("role", VStr "assistant");
                        ("content", VStr r)] ])])%list.
Proof.
  rewrite chat_run. cbv zeta.
  destruct (fst (env (history_call payload) (world st))) as [hr|cls msg];
    [|discriminate].
  destruct (build_prompt (history_of hr) (user_msg_of payload)) as [prompt|e];
    [|discriminate].
  cbn [fst snd]. intros H.
  destruct (reply_text_of _) as [| | |s| | | |] eqn:Er; cbn in H; try discriminate H.
  injection H as ->.
  eexists. unfold after at 1. cbn [log]. rewrite user_msg_of_strip. reflexivity.
Qed.

(** X13 on the usual deployment. *)
Lemma chat_keeps_what_it_answers_witness :
  exists earlier,
    log (snd (chat (Scenario.scripted Scenario.usual) Scenario.hello (VStr "u-1")
                Scenario.fresh)) =
    (earlier ++
     [StoreInsert "chat_messages"
        (VList [ VDict [("conversation_id", VStr "c-1"); ("user_id", VStr "u-1");
                        ("role", VStr "user"); ("content", VStr "hello")];
                 VDict [("conversation_id", VStr "c-1"); ("user_id", VStr "u-1");
                        ("role", VStr "assistant"); ("content", VStr "hi there")] ])])%list.
Proof.
  exact (chat_keeps_what_it_answers (Scenario.scripted Scenario.usual)
           Scenario.hello (VStr "u-1") Scenario.fresh "hi there" eq_refl).
Defined.

(** X14.  The read of the history is not guarded.  When the select of the
    recent messages raises, [chat] fails with what the store raised (a
    500 for the caller): the model is not called and nothing is inserted,
    unlike a failure of the model or of the insert. *)
Theorem chat_history_failure_is_500 {W : Type} (env : sdk W) payload user_id
    (st : state W) cls msg w1 :
  env (history_call payload) (world st) = (Raises cls msg, w1) ->
  chat env payload user_id st =
  (Err (CollaboratorError cls msg),
   {| world := w1; log := log st ++ [history_call payload] |}) /\
  status (respond (@Err value (CollaboratorError cls msg))) = 500%Z.
Proof.
  intros H. split; [|reflexivity].
  rewrite chat_run. unfold after. rewrite H. reflexivity.
Qed.

(** X14 on a store that cannot be reached for the select. *)
Lemma chat_history_failure_is_500_witness :
  status (fst (serve (Scenario.scripted
                        (Scenario.with_messages Scenario.down Scenario.usual))
                 (Some "Bearer abc") (Chat Scenario.hello) Scenario.fresh)) = 500%Z /\
  fst (chat (Scenario.scripted (Scenario.with_messages Scenario.down Scenario.usual))
         Scenario.hello (VStr "u-1") Scenario.fresh)
  = Err (CollaboratorError "ConnectionError" "collaborator unreachable").
Proof.
  split; [reflexivity|].
  exact (f_equal fst (proj1 (chat_history_failure_is_500
           (Scenario.scripted (Scenario.with_messages Scenario.down Scenario.usual))
           Scenario.hello (VStr "u-1") Scenario.fresh _ _ tt eq_refl))).
Defined.

(** X15.  The reply is never None.  Whatever the model does, the text that
    [generate_reply] hands on is truthy or is the (empty) printing of the
    model's answer; when the model raises it is the fallback sentence. *)
Theorem generated_reply_is_never_none {W : Type} (env : sdk W) prompt
    (st : state W) :
  exists v,
    fst (generate_reply env prompt st) = Ok v /\
    (truthy v = true \/ v = VStr "") /\
    v <> VNone /\
    (forall cls msg, fst (env (generate_call prompt) (world st)) = Raises cls msg ->
                     v = VStr fallback_reply).
Proof.
  rewrite generate_reply_run. cbn [fst]. eexists. split; [reflexivity|].
  destruct (fst (env (generate_call prompt) (world st))) as [result|cls msg].
  - cbn [reply_text_of]. unfold extract_reply.
    destruct (read result "text" VNone) as [text|c1 m1]; cbn [of_answer and_then];
      [|split; [left; reflexivity | split; discriminate]].
    destruct (truthy text) eqn:Et.
    { split; [left; exact Et|]. split; [|discriminate].
      intros E. rewrite E in Et. discriminate Et. }
    destruct (read result "content" VNone) as [content|c2 m2];
      cbn [of_answer and_then];
      [|split; [left; reflexivity | split; discriminate]].
    destruct (truthy content) eqn:Ec.
    { split; [left; exact Ec|]. split; [|discriminate].
      intros E. rewrite E in Ec. discriminate Ec. }
    destruct (str result) as [printed|c3 m3]; cbn [of_answer and_then].
    + split; [|split; discriminate].
      destruct printed; [right | left]; reflexivity.
    + split; [left; reflexivity | split; discriminate].
  - cbn [reply_text_of]. split; [left; reflexivity|].
    split; [discriminate | reflexivity].
Qed.

(** *** The prompt: what goes in and how much *)

Lemma last_n_app {A : Type} n (older recent : list A) :
  (n <= List.length recent)%nat ->
  last_n n (older ++ recent) = last_n n recent.
Proof.
  intros H. unfold last_n. rewrite length_app, skipn_app.
  replace (List.length older + List.length recent - n - List.length older)%nat
    with (List.length recent - n)%nat by lia.
  rewrite skipn_all2 by lia. reflexivity.
Qed.

(** X16.  Records older than the last eight cannot change the prompt, and
    cannot break it either: with at least eight recent records, anything
    may stand before them in the history, also records without a role,
    and the outcome of prompt assembly is the same as without it. *)
Theorem older_records_do_not_matter (older recent : list value) user_msg :
  (8 <= List.length recent)%nat ->
  build_prompt (VList (older ++ recent)) user_msg =
  build_prompt (VList recent) user_msg.
Proof.
  intros H. unfold build_prompt, prompt_parts. cbn [slice_last8 and_then].
  rewrite (last_n_app 8 older recent H). reflexivity.
Qed.

(** X16 with two broken records before eight sound ones. *)
Lemma older_records_do_not_matter_witness :
  build_prompt (VList ([VNone; VDict [("content", VStr "no role")]]
                       ++ skipn 2 ten_records)) "hello" =
  build_prompt (VList (skipn 2 ten_records)) "hello".
Proof.
  apply (older_records_do_not_matter
           [VNone; VDict [("content", VStr "no role")]] (skipn 2 ten_records) "hello").
  cbn. lia.
Defined.

Lemma render_all_length hs parts :
  render_all hs = Ok parts -> List.length parts = List.length hs.
Proof.
  revert parts. induction hs as [|h hs IH]; intros parts.
  - cbn. intros H. injection H as <-. reflexivity.
  - cbn [render_all]. destruct (render h) as [p|e]; [|discriminate].
    cbn [and_then]. destruct (render_all hs) as [ps|e]; [|discriminate].
    cbn [and_then]. intros H. injection H as <-. cbn. rewrite (IH ps eq_refl).
    reflexivity.
Qed.

Lemma slice_last8_length history hs :
  slice_last8 history = Ok hs -> (List.length hs <= 8)%nat.
Proof.
  destruct history; cbn [slice_last8]; intros H; try discriminate H;
    injection H as <-.
  - rewrite length_map, last_n_length. lia.
  - rewrite last_n_length. lia.
Qed.

(** X17.  The prompt is bounded in entries whatever the store returned as
    history (a list of any length, or any other value): when it is built it
    has at least one and at most nine entries, and the last entry is the
    line of the new message. *)
Theorem prompt_has_at_most_nine_entries history user_msg parts :
  prompt_parts history user_msg = Ok parts ->
  (1 <= List.length parts <= 9)%nat /\
  last parts "" = "USER: " ++ user_msg /\
  build_prompt history user_msg = Ok (join newline parts).
Proof.
  unfold build_prompt. intros H. rewrite H. cbn [and_then].
  unfold prompt_parts in H.
  destruct (slice_last8 history) as [hs|e] eqn:Es; [|discriminate].
  cbn [and_then] in H. destruct (render_all hs) as [ps|e] eqn:Er; [|discriminate].
  cbn [and_then] in H. injection H as <-.
  pose proof (slice_last8_length _ _ Es). pose proof (render_all_length _ _ Er).
  rewrite length_app, last_last. cbn [List.length].
  repeat split; lia.
Qed.

(** X17 on twenty records. *)
Lemma prompt_has_at_most_nine_entries_witness :
  exists parts,
    prompt_parts (VList (ten_records ++ ten_records)) "hello" = Ok parts /\
    (1 <= List.length parts <= 9)%nat.
Proof.
  eexists. split; [reflexivity|].
  exact (proj1 (prompt_has_at_most_nine_entries
                  (VList (ten_records ++ ten_records)) "hello" _ eq_refl)).
Defined.

(** X18.  A conversation without messages.  When the store's answer to
    the select has no [data], or an empty or null one (also when the
    answer is itself a mapping), [chat] sends the model the one line
    "USER: <stripped message>" and nothing else. *)
Theorem empty_history_gives_one_line {W : Type} (env : sdk W) payload user_id
    (st : state W) history_resp :
  fst (env (history_call payload) (world st)) = Returns history_resp ->
  truthy (getattr history_resp "data" (VList [])) = false ->
  prompts_sent (log (snd (chat env payload user_id st))) =
  (prompts_sent (log st) ++ [("USER: " ++ strip (message payload))%string])%list.
Proof.
  intros Hh Hd. rewrite (chat_prompts_sent env _ _ _ _ Hh).
  unfold history_of, por. rewrite Hd. cbn. rewrite user_msg_of_strip. reflexivity.
Qed.

(** X18 on a store that answers with a null [data]. *)
Lemma empty_history_gives_one_line_witness :
  prompts_sent
    (log (snd (chat (Scenario.scripted
                       (Scenario.with_messages (Scenario.api_response VNone)
                          Scenario.usual))
                 Scenario.hello (VStr "u-1") Scenario.fresh))) = ["USER: hello"].
Proof.
  exact (empty_history_gives_one_line
           (Scenario.scripted
              (Scenario.with_messages (Scenario.api_response VNone) Scenario.usual))
           Scenario.hello (VStr "u-1") Scenario.fresh _ eq_refl eq_refl).
Defined.

(** X19.  The message that is used (in the prompt and in the stored user
    row) is the message of the request less white space at its two ends,
    white space being that of Unicode as [str.strip] takes it (not only the
    ASCII blanks: also U+0085, U+00A0, U+1680, U+2000 to U+200A, U+2028,
    U+2029, U+202F, U+205F, U+3000).  The request's message is white
    space, then the used message, then white space, and the used message
    neither starts nor ends with white space.  White space inside the
    message is kept. *)
Theorem used_message_is_the_message_stripped (payload : ChatReq) :
  exists l r,
    message payload = l ++ user_msg_of payload ++ r /\
    all_space l = true /\ all_space r = true /\
    starts_clean (user_msg_of payload) /\
    ends_clean (user_msg_of payload).
Proof. rewrite user_msg_of_strip. apply strip_spec. Qed.

(** A no-break space before the message and an ideographic space after it
    are taken off; the one inside stays. *)
Lemma used_message_examples :
  user_msg_of {| conversation_id := "c-1";
                 message := encode 0xA0 ++ "hi" ++ encode 0x3000 |} = "hi" /\
  user_msg_of {| conversation_id := "c-1";
                 message := " a" ++ encode 0xA0 ++ "b " |} = "a" ++ encode 0xA0 ++ "b".
Proof. vm_compute. repeat split. Qed.

(** X20.  A message of white space only is not refused: the used message
    is empty, and with no history the model is still called, with the
    prompt "USER: ", and an empty user row is inserted. *)
Theorem blank_message_is_still_sent {W : Type} (env : sdk W) payload user_id
    (st : state W) history_resp :
  all_space (message payload) = true ->
  fst (env (history_call payload) (world st)) = Returns history_resp ->
  truthy (getattr history_resp "data" (VList [])) = false ->
  user_msg_of payload = "" /\
  exists reply_text,
    log (snd (chat env payload user_id st)) =
    (log st ++ [history_call payload; generate_call "USER: ";
                insert_call payload user_id "" reply_text])%list.
Proof.
  intros Hb Hh Hd.
  assert (Hu : user_msg_of payload = "").
  { rewrite user_msg_of_strip. unfold strip. rewrite (lstrip_blank _ Hb). reflexivity. }
  split; [exact Hu|].
  rewrite chat_run, Hh. cbv zeta. unfold history_of, por. rewrite Hd, Hu.
  cbn [build_prompt prompt_parts slice_last8 last_n skipn List.length Nat.sub
       render_all and_then app join].
  eexists. unfold after. cbn [snd log]. rewrite <- !app_assoc. reflexivity.
Qed.

(** X20 on a message of two spaces and a line feed. *)
Lemma blank_message_is_still_sent_witness :
  user_msg_of {| conversation_id := "c-1"; message := "  " ++ newline |} = "".
Proof.
  exact (proj1 (blank_message_is_still_sent
                  (Scenario.scripted
                     (Scenario.with_messages (Scenario.api_response (VList []))
                        Scenario.usual))
                  {| conversation_id := "c-1"; message := "  " ++ newline |}
                  (VStr "u-1") Scenario.fresh _ eq_refl eq_refl eq_refl)).
Defined.

(** *** Start-up settings *)

Lemma present_spec e name :
  Config.present e name = true <-> exists v, e name = Some v /\ v <> "".
Proof.
  unfold Config.present. destruct (e name) as [v|].
  - destruct (String.eqb_spec v ""); cbn; split.
    + discriminate.
    + intros (v' & Hv & Hne). injection Hv as <-. contradiction.
    + intros _. exists v. split; [reflexivity | assumption].
    + reflexivity.
  - split; [discriminate|]. intros (v & Hv & _). discriminate Hv.
Qed.

(** X21.  The process starts only with its three secrets.  Loading the
    settings succeeds exactly when SUPABASE_URL, SUPABASE_SERVICE_KEY and
    GEMINI_API_KEY are all set to a text that is not empty, and then the
    settings hold those texts; a secret that is unset, or set to the empty
    text, stops the start with "Missing env vars for Supabase/Gemini".
    ALLOWED_ORIGINS is not required. *)
Theorem settings_need_the_three_secrets (e : Config.environ) :
  match Config.load e with
  | inr s =>
      (e "SUPABASE_URL" = Some (Config.SUPABASE_URL s) /\ Config.SUPABASE_URL s <> "") /\
      (e "SUPABASE_SERVICE_KEY" = Some (Config.SUPABASE_SERVICE_KEY s) /\
       Config.SUPABASE_SERVICE_KEY s <> "") /\
      (e "GEMINI_API_KEY" = Some (Config.GEMINI_API_KEY s) /\
       Config.GEMINI_API_KEY s <> "")
  | inl msg =>
      msg = "Missing env vars for Supabase/Gemini" /\
      exists name,
        In name ["SUPABASE_URL"; "SUPABASE_SERVICE_KEY"; "GEMINI_API_KEY"] /\
        (e name = None \/ e name = Some "")
  end.
Proof.
  assert (Hmiss : forall name, Config.present e name = false ->
                               e name = None \/ e name = Some "").
  { intros name. unfold Config.present. destruct (e name) as [v|]; [|auto].
    destruct (String.eqb_spec v ""); [subst; auto | discriminate]. }
  assert (Hget : forall name, Config.present e name = true ->
                 e name = Some (Config.getenv e name "") /\ Config.getenv e name "" <> "").
  { intros name H. apply present_spec in H. destruct H as (v & Hv & Hne).
    unfold Config.getenv. rewrite Hv. auto. }
  unfold Config.load.
  destruct (Config.present e "SUPABASE_URL") eqn:H1;
    [destruct (Config.present e "SUPABASE_SERVICE_KEY") eqn:H2;
       [destruct (Config.present e "GEMINI_API_KEY") eqn:H3|]|];
    cbn [andb negb Config.SUPABASE_URL Config.SUPABASE_SERVICE_KEY
         Config.GEMINI_API_KEY].
  - auto.
  - split; [reflexivity|]. exists "GEMINI_API_KEY". split; [cbn; auto | auto].
  - split; [reflexivity|]. exists "SUPABASE_SERVICE_KEY". split; [cbn; auto | auto].
  - split; [reflexivity|]. exists "SUPABASE_URL". split; [cbn; auto | auto].
Qed.

Lemma split_on_not_empty sep s : split_on sep s <> [].
Proof.
  destruct s as [|c s]; cbn; [discriminate|].
  destruct (Ascii.eqb c sep); [discriminate|].
  destruct (split_on sep s); discriminate.
Qed.

(** Joining the pieces of a split with the separator gives the text back. *)
Lemma join_split_on sep s :
  join (String sep EmptyString) (split_on sep s) = s.
Proof.
  induction s as [|c s IH]; [reflexivity|].
  cbn [split_on]. destruct (Ascii.eqb_spec c sep) as [->|Hne].
  - pose proof (split_on_not_empty sep s) as Hn.
    destruct (split_on sep s) as [|p ps]; [contradiction|].
    cbn [join append] in *. rewrite IH. reflexivity.
  - destruct (split_on sep s) as [|p ps]; [cbn in IH; subst; reflexivity|].
    destruct ps as [|q ps]; cbn [join append] in *; rewrite IH; reflexivity.
Qed.

Lemma split_on_pieces sep s :
  Forall (fun p => contains_char sep p = false) (split_on sep s).
Proof.
  induction s as [|c s IH]; [repeat constructor|].
  cbn [split_on]. destruct (Ascii.eqb c sep) eqn:E.
  - constructor; [reflexivity | exact IH].
  - destruct (split_on sep s) as [|p ps]; inversion IH; subst;
      constructor; try assumption; try constructor;
      cbn; rewrite Ascii.eqb_sym, E; cbn; try reflexivity; assumption.
Qed.

(** X22.  The origins setting is cut at its commas and nothing is lost:
    joining the allowed origins with commas gives back the text of
    ALLOWED_ORIGINS (the text "*" when it is unset, which allows every
    origin), there is always at least one entry, and no entry holds a
    comma. *)
Theorem allowed_origins_round_trip (e : Config.environ) :
  join "," (Config.allowed_origins e) = Config.getenv e "ALLOWED_ORIGINS" "*" /\
  Config.allowed_origins e <> [] /\
  Forall (fun origin => contains_char ","%char origin = false)
         (Config.allowed_origins e) /\
  (e "ALLOWED_ORIGINS" = None -> Config.allowed_origins e = ["*"]).
Proof.
  unfold Config.allowed_origins. repeat split.
  - apply (join_split_on ","%char).
  - apply split_on_not_empty.
  - apply split_on_pieces.
  - intros H. unfold Config.getenv. rewrite H. reflexivity.
Qed.

(** The settings of the sample environment: two origins. *)
Lemma settings_of_sample_environ :
  Config.load sample_environ =
  inr {| Config.SUPABASE_URL := "https://db.example";
         Config.SUPABASE_SERVICE_KEY := "service-key";
         Config.GEMINI_API_KEY := "model-key";
         Config.ALLOWED_ORIGINS := ["https://a.example"; "https://b.example"] |}.
Proof. reflexivity. Qed.
